(** * FastSyncTapMySql: the MySQL / MariaDB fast-sync extraction core

    A shallow embedding of [pipelinewise/fastsync/commons/tap_mysql.py]
    and the properties its specification states about it.

    Python values are modelled as follows.
    - [str] is [string]; a character is a code point below 256.
    - A [dict] is a [gmap] with [string] keys.
    - The configuration holds [value]s; a cell of a result row is a [dbval].
    - A method of the class is a function on [state] that returns an
      [outcome] and the next state; the state holds the fields of [self]
      together with the database client seen from the program: the answers
      it will give, the calls it has received, and the log. *)

From Stdlib Require Import ZArith Ascii String DecimalString Bool Lia.
From stdpp Require Import gmap strings list fin_maps.

Local Open Scope string_scope.
Local Open Scope list_scope.

(** ** Python strings *)

Module PyStr.

(** [str.isspace] of one character, for code points below 256. *)
Definition isspace (c : ascii) : bool :=
  let n := nat_of_ascii c in
  ((9 <=? n)%nat && (n <=? 13)%nat)
  || ((28 <=? n)%nat && (n <=? 32)%nat)
  || (n =? 133)%nat || (n =? 160)%nat.

Fixpoint lstrip (s : string) : string :=
  match s with
  | EmptyString => EmptyString
  | String c s' => if isspace c then lstrip s' else s
  end.

Fixpoint rstrip (s : string) : string :=
  match s with
  | EmptyString => EmptyString
  | String c s' =>
      match rstrip s' with
      | EmptyString => if isspace c then EmptyString else String c EmptyString
      | r => String c r
      end
  end.

(** [s.strip()] *)
Definition strip (s : string) : string := rstrip (lstrip s).

(** [s.split(sep)] for a separator of one character. *)
Fixpoint split (sep : ascii) (s : string) : list string :=
  match s with
  | EmptyString => [EmptyString]
  | String c s' =>
      if Ascii.eqb c sep then EmptyString :: split sep s'
      else match split sep s' with
           | [] => [String c EmptyString]
           | piece :: pieces => String c piece :: pieces
           end
  end.

(** [c in s] for a character [c]. *)
Fixpoint contains (c : ascii) (s : string) : bool :=
  match s with
  | EmptyString => false
  | String c' s' => Ascii.eqb c' c || contains c s'
  end.

(** [str(n)] for an [int]. *)
Definition of_Z (n : Z) : string := NilZero.string_of_int (Z.to_int n).

(** [str(n)] for [len(...)]. *)
Definition of_nat (n : nat) : string := of_Z (Z.of_nat n).

Definition digit_val (c : ascii) : option Z :=
  let n := nat_of_ascii c in
  if (48 <=? n)%nat && (n <=? 57)%nat then Some (Z.of_nat (n - 48)) else None.

(** The digits of a decimal literal: a single underscore may stand between
    two digits. *)
Fixpoint int_digits (s : string) (acc : Z) (after_digit : bool) : option Z :=
  match s with
  | EmptyString => if after_digit then Some acc else None
  | String c s' =>
      match digit_val c with
      | Some d => int_digits s' (10 * acc + d)%Z true
      | None =>
          if Ascii.eqb c "_"%char && after_digit then int_digits s' acc false
          else None
      end
  end.

(** The white space [int] skips around a literal. Below 127 it is the white
    space of C: 9 to 13 and the blank; the separators 28 to 31, which
    [str.strip] removes, are none. Above, [int] first turns the white space
    of Unicode into blanks: these are 133 and 160. *)
Definition int_isspace (c : ascii) : bool :=
  let n := nat_of_ascii c in
  ((9 <=? n)%nat && (n <=? 13)%nat) || (n =? 32)%nat
  || (n =? 133)%nat || (n =? 160)%nat.

Fixpoint int_lstrip (s : string) : string :=
  match s with
  | EmptyString => EmptyString
  | String c s' => if int_isspace c then int_lstrip s' else s
  end.

Fixpoint int_rstrip (s : string) : string :=
  match s with
  | EmptyString => EmptyString
  | String c s' =>
      match int_rstrip s' with
      | EmptyString =>
          if int_isspace c then EmptyString else String c EmptyString
      | r => String c r
      end
  end.

(** The number of digits of a literal, its underscores left out. *)
Fixpoint count_digits (s : string) : N :=
  match s with
  | EmptyString => 0%N
  | String c s' =>
      match digit_val c with
      | Some _ => N.succ (count_digits s')
      | None => count_digits s'
      end
  end.

(** [sys.int_info.default_max_str_digits]: [int] refuses a literal of more
    digits (CPython from 3.11 on, and the later releases of 3.7 to 3.10). *)
Definition max_str_digits : N := 4300.

(** [int(s)] for a [str]: white space, a sign, digits, white space. [None]
    stands for [ValueError]. *)
Definition to_Z (s : string) : option Z :=
  let t := int_rstrip (int_lstrip s) in
  let '(negative, literal) :=
    match t with
    | String "+"%char r => (false, r)
    | String "-"%char r => (true, r)
    | _ => (false, t)
    end in
  if (max_str_digits <? count_digits literal)%N then None
  else (if negative : bool then Z.opp else id) <$> int_digits literal 0%Z false.

End PyStr.

(** ** Values and exceptions *)

(** A value of the configuration dictionary. *)
Inductive value : Type :=
| VNone
| VBool (b : bool)
| VInt (n : Z)
| VStr (s : string)
| VList (l : list string).

(** A cell of a result row, as the client hands it over. *)
Inductive dbval : Type :=
| DNone
| DInt (n : Z)
| DStr (s : string).

Inductive exn : Type :=
(* pymysql.err *)
| InterfaceError
| OperationalError
| InternalError
| ProgrammingError
| DataError
| IntegrityError
| NotSupportedError
(* builtins *)
| KeyError (key : string)
| IndexError
| AttributeError
| TypeError
| ValueError
(* raise Exception(msg) *)
| PyException (msg : string).

#[global] Instance value_eq_dec : EqDecision value.
Proof. solve_decision. Defined.
#[global] Instance dbval_eq_dec : EqDecision dbval.
Proof. solve_decision. Defined.
#[global] Instance exn_eq_dec : EqDecision exn.
Proof. solve_decision. Defined.

(** A computation that may raise. *)
Inductive result (A : Type) : Type :=
| Ok (a : A)
| Err (e : exn).
Arguments Ok {A} a.
Arguments Err {A} e.

Definition rbind {A B} (r : result A) (k : A -> result B) : result B :=
  match r with
  | Ok a => k a
  | Err e => Err e
  end.

Declare Scope result_scope.
Delimit Scope result_scope with result.
Notation "x <-? r ; k" := (rbind r (fun x => k))
  (at level 100, r at next level, right associativity) : result_scope.

(** Truth value of a configuration value. *)
Definition truthy (v : value) : bool :=
  match v with
  | VNone => false
  | VBool b => b
  | VInt n => negb (n =? 0)%Z
  | VStr s => negb (String.eqb s "")
  | VList l => match l with [] => false | _ => true end
  end.

(** [int(v)] *)
Definition py_int (v : value) : result Z :=
  match v with
  | VInt n => Ok n
  | VBool b => Ok (if b then 1 else 0)%Z
  | VStr s => match PyStr.to_Z s with Some n => Ok n | None => Err ValueError end
  | VNone | VList _ => Err TypeError
  end.

(** [str(v)] of a cell. *)
Definition py_str (v : dbval) : string :=
  match v with
  | DNone => "None"
  | DInt n => PyStr.of_Z n
  | DStr s => s
  end.

(** [d[k]] *)
Definition getitem {V} (d : gmap string V) (k : string) : result V :=
  match d !! k with
  | Some v => Ok v
  | None => Err (KeyError k)
  end.

(** [d.get(k, default)] *)
Definition get_or {V} (d : gmap string V) (k : string) (default : V) : V :=
  match d !! k with
  | Some v => v
  | None => default
  end.

(** [k in d] *)
Definition has_key {V} (d : gmap string V) (k : string) : bool :=
  match d !! k with
  | Some _ => true
  | None => false
  end.

(** ** Module constants *)

Definition DEFAULT_CHARSET : string := "utf8".
Definition DEFAULT_EXPORT_BATCH_ROWS : Z := 50000.
Definition MARIADB_ENGINE : string := "mariadb".
Definition MYSQL_ENGINE : string := "mysql".
Definition DEFAULT_USE_GTID : bool := false.
(** The double quote character, as a string. *)
Definition dquote : string := String (ascii_of_nat 34) EmptyString.

Definition DEFAULT_SESSION_SQLS : list string :=
  [ "SET @@session.time_zone=" +:+ dquote +:+ "+0:00" +:+ dquote;
    "SET @@session.wait_timeout=28800";
    "SET @@session.net_read_timeout=3600";
    "SET @@session.innodb_lock_wait_timeout=3600" ].

(** ** The object, the database client, and the monad of methods *)

(** A connection object of the client library. *)
Definition handle : Type := nat.

Inductive cursorclass : Type := DictCursor | SSCursor.

(** A row of a result set: a dictionary from column name to cell. *)
Abbreviation row := (gmap string dbval).

(** What the client does when a statement is executed in a cursor: it raises,
    or the cursor ends with a row count and the rows [fetchall] gives. *)
Inductive execute_answer : Type :=
| ExecOk (rowcount : Z) (rows : list row)
| ExecRaise (e : exn).

(** A call the program makes to the client library, in the order made. *)
Inductive call : Type :=
| Connect (params : gmap string value) (cc : cursorclass) (h : handle)
| ConnectFailed (params : gmap string value) (cc : cursorclass)
| Execute (h : handle) (sql : string) (params : option (list dbval))
| Close (h : handle).

Inductive log_record : Type :=
| LogDebug (msg : string)
| LogInfo (msg : string)
| LogWarning (msg : string)
(* LOGGER.exception('Exception happened during running a query. ...', n_retry, exc) *)
| LogQueryException (n_retry : Z) (e : exn)
(* LOGGER.exception(exc) *)
| LogException (e : exn).

(** The fields of [self], then the client: the answers it gives to the
    attempts to connect, to execute and to close, each in the order of the
    attempts, the next fresh connection, the calls made and the log
    written so far. *)
Record state : Type := mkState {
  connection_config : gmap string value;
  target_quote : option string;
  conn : option handle;
  conn_unbuffered : option handle;
  is_replica : bool;
  connect_answers : list (option exn);
  execute_answers : list execute_answer;
  close_answers : list (option exn);
  next_handle : handle;
  calls : list call;
  log : list log_record;
}.

Definition set_conn (c : option handle) (st : state) : state :=
  mkState (connection_config st) (target_quote st) c (conn_unbuffered st)
    (is_replica st) (connect_answers st) (execute_answers st)
    (close_answers st) (next_handle st) (calls st) (log st).

Definition set_conn_unbuffered (c : option handle) (st : state) : state :=
  mkState (connection_config st) (target_quote st) (conn st) c
    (is_replica st) (connect_answers st) (execute_answers st)
    (close_answers st) (next_handle st) (calls st) (log st).

Definition set_is_replica (b : bool) (st : state) : state :=
  mkState (connection_config st) (target_quote st) (conn st)
    (conn_unbuffered st) b (connect_answers st) (execute_answers st)
    (close_answers st) (next_handle st) (calls st) (log st).

Definition set_connect_answers (l : list (option exn)) (st : state) : state :=
  mkState (connection_config st) (target_quote st) (conn st)
    (conn_unbuffered st) (is_replica st) l (execute_answers st)
    (close_answers st) (next_handle st) (calls st) (log st).

Definition set_execute_answers (l : list execute_answer) (st : state) : state :=
  mkState (connection_config st) (target_quote st) (conn st)
    (conn_unbuffered st) (is_replica st) (connect_answers st) l
    (close_answers st) (next_handle st) (calls st) (log st).

Definition set_close_answers (l : list (option exn)) (st : state) : state :=
  mkState (connection_config st) (target_quote st) (conn st)
    (conn_unbuffered st) (is_replica st) (connect_answers st)
    (execute_answers st) l (next_handle st) (calls st) (log st).

Definition set_next_handle (h : handle) (st : state) : state :=
  mkState (connection_config st) (target_quote st) (conn st)
    (conn_unbuffered st) (is_replica st) (connect_answers st)
    (execute_answers st) (close_answers st) h (calls st) (log st).

Definition add_call (c : call) (st : state) : state :=
  mkState (connection_config st) (target_quote st) (conn st)
    (conn_unbuffered st) (is_replica st) (connect_answers st)
    (execute_answers st) (close_answers st) (next_handle st)
    (calls st ++ [c])%list (log st).

Definition add_log (r : log_record) (st : state) : state :=
  mkState (connection_config st) (target_quote st) (conn st)
    (conn_unbuffered st) (is_replica st) (connect_answers st)
    (execute_answers st) (close_answers st) (next_handle st)
    (calls st) (log st ++ [r])%list.

(** How a method ends: it returns, it raises, or the model has no answer
    (the recursion budget is spent, or the client was asked more than its
    listed answers). *)
Inductive outcome (A : Type) : Type :=
| Ret (a : A)
| Raise (e : exn)
| NoAnswer.
Arguments Ret {A} a.
Arguments Raise {A} e.
Arguments NoAnswer {A}.

Definition M (A : Type) : Type := state -> outcome A * state.

Definition ret {A} (a : A) : M A := fun st => (Ret a, st).
Definition raise {A} (e : exn) : M A := fun st => (Raise e, st).
Definition no_answer {A} : M A := fun st => (NoAnswer, st).

Definition bind {A B} (m : M A) (k : A -> M B) : M B :=
  fun st =>
    match m st with
    | (Ret a, st') => k a st'
    | (Raise e, st') => (Raise e, st')
    | (NoAnswer, st') => (NoAnswer, st')
    end.

(** [try: m except <handles>: handler] *)
Definition try_except {A} (m : M A) (handles : exn -> bool)
    (handler : exn -> M A) : M A :=
  fun st =>
    match m st with
    | (Raise e, st') => if handles e then handler e st' else (Raise e, st')
    | r => r
    end.

Definition lift {A} (r : result A) : M A :=
  match r with
  | Ok a => ret a
  | Err e => raise e
  end.

Definition get_state : M state := fun st => (Ret st, st).
Definition modify (f : state -> state) : M unit := fun st => (Ret tt, f st).
Definition logger (r : log_record) : M unit := modify (add_log r).

Declare Scope method_scope.
Delimit Scope method_scope with method.
Notation "x <- m ;; k" := (bind m (fun x => k))
  (at level 100, m at next level, right associativity) : method_scope.
Notation "m ;; k" := (bind m (fun _ => k))
  (at level 100, right associativity) : method_scope.
Local Open Scope method_scope.

(** *** The client library *)

(** [pymysql.connect] with keyword arguments [params] and [cursorclass=cc] *)
Definition pymysql_connect (params : gmap string value) (cc : cursorclass)
    : M handle :=
  fun st =>
    match connect_answers st with
    | [] => (NoAnswer, st)
    | None :: answers =>
        let h := next_handle st in
        (Ret h,
         add_call (Connect params cc h)
           (set_next_handle (S h) (set_connect_answers answers st)))
    | Some e :: answers =>
        (Raise e,
         add_call (ConnectFailed params cc) (set_connect_answers answers st))
    end.

(** [with c.cursor() as cur: cur.execute(sql, params)], up to the row count
    and the rows of the cursor. *)
Definition cursor_execute (c : handle) (sql : string)
    (params : option (list dbval)) : M (Z * list row) :=
  fun st =>
    match execute_answers st with
    | [] => (NoAnswer, st)
    | ExecOk rowcount rows :: answers =>
        (Ret (rowcount, rows),
         add_call (Execute c sql params) (set_execute_answers answers st))
    | ExecRaise e :: answers =>
        (Raise e,
         add_call (Execute c sql params) (set_execute_answers answers st))
    end.

(** [c.close()] *)
Definition connection_close (c : handle) : M unit :=
  fun st =>
    match close_answers st with
    | [] => (NoAnswer, st)
    | None :: answers =>
        (Ret tt, add_call (Close c) (set_close_answers answers st))
    | Some e :: answers =>
        (Raise e, add_call (Close c) (set_close_answers answers st))
    end.

(** An attribute access or a method call on a field that may hold [None]. *)
Definition deref (c : option handle) : M handle :=
  match c with
  | Some h => ret h
  | None => raise AttributeError
  end.

(** ** class FastSyncTapMySql

    The connection manager, the replication position and the introspection
    of keys and columns are embedded below; the export of rows to files
    ([copy_table], [export_source_table_data]) is not. *)

(** [d[k] = d.get(k, default)] *)
Definition set_default (k : string) (default : value)
    (d : gmap string value) : gmap string value :=
  <[k := get_or d k default]> d.

(** [__init__]: the defaults of the configuration, no connection yet. The
    last three arguments are the answers the client is going to give. *)
Definition __init__ (connection_config : gmap string value)
    (target_quote : option string)
    (connect_answers : list (option exn))
    (execute_answers : list execute_answer)
    (close_answers : list (option exn)) : state :=
  let config :=
    set_default "engine" (VStr MYSQL_ENGINE)
      (set_default "use_gtid" (VBool DEFAULT_USE_GTID)
         (set_default "session_sqls" (VList DEFAULT_SESSION_SQLS)
            (set_default "export_batch_rows" (VInt DEFAULT_EXPORT_BATCH_ROWS)
               (set_default "charset" (VStr DEFAULT_CHARSET)
                  connection_config)))) in
  mkState config target_quote None None false
    connect_answers execute_answers close_answers 0%nat [] [].

Definition is_mariadb (self : state) : result bool :=
  (engine <-? getitem (connection_config self) "engine";
   Ok (bool_decide (engine = VStr MARIADB_ENGINE)))%result.

(** The dictionary of connection parameters the method returns. *)
Definition connection_parameters (host : value) (port : Z)
    (user password charset : value) : gmap string value :=
  <["host" := host]> (<["port" := VInt port]> (<["user" := user]>
    (<["password" := password]> (<["charset" := charset]> ∅)))).

Definition get_connection_parameters (self : state)
    (prioritize_primary : bool) : result (gmap string value * bool) :=
  let config := connection_config self in
  (if prioritize_primary then
     host <-? getitem config "host";
     port0 <-? getitem config "port";
     port <-? py_int port0;
     user <-? getitem config "user";
     password <-? getitem config "password";
     charset <-? getitem config "charset";
     Ok (connection_parameters host port user password charset, false)
   else
     let is_replica := has_key config "replica_host" in
     host0 <-? getitem config "host";
     let host := get_or config "replica_host" host0 in
     port0 <-? getitem config "port";
     port <-? py_int (get_or config "replica_port" port0);
     user0 <-? getitem config "user";
     let user := get_or config "replica_user" user0 in
     password0 <-? getitem config "password";
     let password := get_or config "replica_password" password0 in
     charset <-? getitem config "charset";
     Ok (connection_parameters host port user password charset, is_replica)
  )%result.

(** What [query] returns: the fetched rows, or the cursor itself. *)
Inductive query_result : Type :=
| Rows (rows : list row)
| Cursor (c : handle).

(** [except (InterfaceError, OperationalError)] *)
Definition is_connectivity (e : exn) : bool :=
  match e with
  | InterfaceError | OperationalError => true
  | _ => false
  end.

(** [except pymysql.err.InternalError] *)
Definition is_internal_error (e : exn) : bool :=
  match e with
  | InternalError => true
  | _ => false
  end.

Definition close_connections (silent : bool) : M unit :=
  try_except
    (self <- get_state ;;
     c <- deref (conn self) ;;
     connection_close c ;;
     self <- get_state ;;
     cu <- deref (conn_unbuffered self) ;;
     connection_close cu)
    (fun _ => true)
    (fun exc =>
       if silent then ret tt
       else
         logger (LogException exc) ;;
         logger (LogInfo "Connections seem to be already closed.")).

(** [self.query(sql)] and [self.query(sql, conn)], as the other methods call
    it; [query] below is what stands here. *)
Definition query_method : Type := string -> option handle -> M query_result.

(** The loop of [run_session_sqls]; it returns the list [warnings]. *)
Fixpoint session_sqls_loop (self_query : query_method)
    (session_sqls : list string) (warnings : list string)
    : M (list string) :=
  match session_sqls with
  | [] => ret warnings
  | sql :: rest =>
      warnings' <-
        try_except
          (self_query sql None ;;
           self <- get_state ;;
           self_query sql (conn_unbuffered self) ;;
           ret warnings)
          is_internal_error
          (fun _ =>
             ret (warnings ++ ["Could not set session variable: " +:+ sql])%list) ;;
      session_sqls_loop self_query rest warnings'
  end.

Fixpoint log_warnings (warnings : list string) : M unit :=
  match warnings with
  | [] => ret tt
  | warning :: rest => logger (LogWarning warning) ;; log_warnings rest
  end.

Definition run_session_sqls_with (self_query : query_method) : M unit :=
  self <- get_state ;;
  let session_sqls :=
    get_or (connection_config self) "session_sqls"
      (VList DEFAULT_SESSION_SQLS) in
  warnings <-
    match session_sqls with
    | VList ((_ :: _) as sqls) => session_sqls_loop self_query sqls []
    | _ => ret []
    end ;;
  match warnings with
  | [] => ret tt
  | _ :: _ =>
      logger (LogWarning
        "Encountered non-fatal errors when configuring session that could impact performance:")
  end ;;
  log_warnings warnings.

Definition open_connections_with (self_query : query_method) : M unit :=
  self <- get_state ;;
  r <- lift (get_connection_parameters self false) ;;
  let '(conn_params, is_replica) := r in
  modify (set_is_replica is_replica) ;;
  c <- pymysql_connect conn_params DictCursor ;;
  modify (set_conn (Some c)) ;;
  cu <- pymysql_connect conn_params SSCursor ;;
  modify (set_conn_unbuffered (Some cu)) ;;
  run_session_sqls_with self_query.

(** [query]. The method calls itself, and [open_connections], which calls it
    again through [run_session_sqls]; [fuel] bounds the depth of these
    calls. The argument [conn_] is the parameter [conn] of the method. *)
Fixpoint query (fuel : nat) (sql : string) (conn_ : option handle)
    (params : option (list dbval)) (return_as_cursor : bool) (n_retry : Z)
    {struct fuel} : M query_result :=
  match fuel with
  | O => no_answer
  | S fuel' =>
      logger (LogInfo ("Running query: " +:+ sql)) ;;
      self <- get_state ;;
      let conn_ := match conn_ with None => conn self | Some _ => conn_ end in
      try_except
        (c <- deref conn_ ;;
         cur <- cursor_execute c sql params ;;
         let '(rowcount, rows) := cur in
         if return_as_cursor then ret (Cursor c)
         else if (0 <? rowcount)%Z then ret (Rows rows)
         else ret (Rows []))
        is_connectivity
        (fun exc =>
           logger (LogQueryException n_retry exc) ;;
           if (0 <? n_retry)%Z then
             logger (LogInfo "Reopening the connections.") ;;
             close_connections true ;;
             open_connections_with
               (fun sql' conn' => query fuel' sql' conn' None false 1%Z) ;;
             logger (LogInfo "Retrying to run a query.") ;;
             query fuel' sql None params return_as_cursor (n_retry - 1)%Z
           else raise exc)
  end.

(** [self.query(sql, conn)] with the defaults of the other parameters. *)
Definition query_ (fuel : nat) : query_method :=
  fun sql conn_ => query fuel sql conn_ None false 1%Z.

Definition run_session_sqls (fuel : nat) : M unit :=
  run_session_sqls_with (query_ fuel).

Definition open_connections (fuel : nat) : M unit :=
  open_connections_with (query_ fuel).

(** The list behind a result of [query] on which the caller uses [len],
    truth value and indexing; a cursor has none of them. *)
Definition rows_of (result : query_result) : M (list row) :=
  match result with
  | Rows rows => ret rows
  | Cursor _ => raise TypeError
  end.

(** [rows[0]] *)
Definition first_row (rows : list row) : M row :=
  match rows with
  | r :: _ => ret r
  | [] => raise IndexError
  end.

(** *** Replication position *)

Definition _get_binlog_coordinates (fuel : nat) : M (gmap string dbval) :=
  self <- get_state ;;
  if is_replica self then
    logger (LogDebug "Connecting to replica to get binlog coordinates...") ;;
    result <- query_ fuel "SHOW SLAVE STATUS" None ;;
    rows <- rows_of result ;;
    match rows with
    | [] => raise (PyException "MySQL binary logging is not enabled.")
    | binlog_pos :: _ =>
        let log_file := get_or binlog_pos "Master_Log_File" DNone in
        let log_pos := get_or binlog_pos "Read_Master_Log_Pos" DNone in
        let version := get_or binlog_pos "version" (DInt 1) in
        ret (<["log_file" := log_file]> (<["log_pos" := log_pos]>
               (<["version" := version]> ∅)))
    end
  else
    logger (LogDebug "Connecting to primary to get binlog coordinates...") ;;
    result <- query_ fuel "SHOW MASTER STATUS" None ;;
    rows <- rows_of result ;;
    match rows with
    | [] => raise (PyException "MySQL binary logging is not enabled.")
    | binlog_pos :: _ =>
        let log_file := get_or binlog_pos "File" DNone in
        let log_pos := get_or binlog_pos "Position" DNone in
        let version := get_or binlog_pos "version" (DInt 1) in
        ret (<["log_file" := log_file]> (<["log_pos" := log_pos]>
               (<["version" := version]> ∅)))
    end.

(** The connection [__get_primary_server_uuid] and [__get_primary_server_id]
    open first: one to the primary when [self] is on a replica, else [None]. *)
Definition connect_to_primary_if_replica : M (option handle) :=
  self <- get_state ;;
  if is_replica self then
    r <- lift (get_connection_parameters self true) ;;
    c <- pymysql_connect (fst r) DictCursor ;;
    ret (Some c)
  else ret None.

Definition __get_primary_server_uuid (fuel : nat) : M dbval :=
  conn_ <- connect_to_primary_if_replica ;;
  result <- query_ fuel "select @@server_uuid as server_uuid;" conn_ ;;
  match conn_ with
  | Some c => connection_close c
  | None => ret tt
  end ;;
  rows <- rows_of result ;;
  r0 <- first_row rows ;;
  lift (getitem r0 "server_uuid").

Definition __get_primary_server_id (fuel : nat) : M dbval :=
  conn_ <- connect_to_primary_if_replica ;;
  result <- query_ fuel "select @@server_id as server_id;" conn_ ;;
  match conn_ with
  | Some c => connection_close c
  | None => ret tt
  end ;;
  rows <- rows_of result ;;
  r0 <- first_row rows ;;
  lift (getitem r0 "server_id").

(** [gtids.split(',')]: only a [str] has the method. *)
Definition split_gtids (gtids : dbval) : M (list string) :=
  match gtids with
  | DStr s => ret (PyStr.split "," s)
  | _ => raise AttributeError
  end.

(** The [for] loop of [__find_mariadb_gtid_pos] over [gtids.split(',')]:
    the GTID it returns with, or [None] when it runs to its end. *)
Fixpoint mariadb_gtid_loop (server_id : string) (entries : list string)
    : option string :=
  match entries with
  | [] => None
  | gtid :: rest =>
      let gtid := PyStr.strip gtid in
      if String.eqb gtid "" then mariadb_gtid_loop server_id rest
      else
        let gtid_parts := PyStr.split "-" gtid in
        if negb (length gtid_parts =? 3)%nat then
          mariadb_gtid_loop server_id rest
        else if String.eqb (nth 1 gtid_parts "") server_id then Some gtid
        else mariadb_gtid_loop server_id rest
  end.

(** The first statement of [__find_mariadb_gtid_pos]: the position variable
    of the replica or of the primary. *)
Definition mariadb_position_query (fuel : nat) : M query_result :=
  self <- get_state ;;
  if is_replica self then
    logger (LogInfo "Connecting to replica to get gtid...") ;;
    query_ fuel "select @@gtid_slave_pos as current_gtids;" None
  else
    logger (LogInfo "Connecting to primary to get gtid...") ;;
    query_ fuel "select @@gtid_current_pos as current_gtids;" None.

Definition __find_mariadb_gtid_pos (fuel : nat) : M (gmap string dbval) :=
  result <- mariadb_position_query fuel ;;
  rows <- rows_of result ;;
  match rows with
  | [] => raise (PyException "GTID is not enabled.")
  | r0 :: _ =>
      gtids <- lift (getitem r0 "current_gtids") ;;
      id <- __get_primary_server_id fuel ;;
      let server_id := py_str id in
      logger (LogInfo ("Found GTID(s): " +:+ py_str gtids +:+ " in server "
                       +:+ dquote +:+ server_id +:+ dquote)) ;;
      entries <- split_gtids gtids ;;
      match mariadb_gtid_loop server_id entries with
      | Some gtid =>
          logger (LogInfo ("Using GTID " +:+ gtid +:+ " for state bookmark")) ;;
          ret {[ "gtid" := DStr gtid ]}
      | None => raise (PyException "No suitable GTID was found.")
      end
  end.

(** The [for] loop of [__find_mysql_gtid_pos]. *)
Fixpoint mysql_gtid_loop (server_uuid : dbval) (entries : list string)
    : option string :=
  match entries with
  | [] => None
  | gtid :: rest =>
      let gtid := PyStr.strip gtid in
      if String.eqb gtid "" then mysql_gtid_loop server_uuid rest
      else
        let gtid_parts := PyStr.split ":" gtid in
        if negb (length gtid_parts =? 2)%nat then
          mysql_gtid_loop server_uuid rest
        else if bool_decide (DStr (nth 0 gtid_parts "") = server_uuid)
        then Some gtid
        else mysql_gtid_loop server_uuid rest
  end.

Definition __find_mysql_gtid_pos (fuel : nat) : M (gmap string dbval) :=
  result <- query_ fuel "select @@gtid_mode as gtid_mode;" None ;;
  rows <- rows_of result ;;
  if match rows with
     | [] => true
     | r0 :: _ => negb (bool_decide (get_or r0 "gtid_mode" DNone = DStr "ON"))
     end
  then raise (PyException "GTID mode is not enabled.")
  else
    result <- query_ fuel "select @@GLOBAL.gtid_executed as current_gtids;" None ;;
    rows <- rows_of result ;;
    match rows with
    | [] =>
        raise (PyException ("No GTID was found with " +:+ dquote
                            +:+ "@@GLOBAL.gtid_executed" +:+ dquote +:+ "."))
    | r0 :: _ =>
        gtids <- lift (getitem r0 "current_gtids") ;;
        server_uuid <- __get_primary_server_uuid fuel ;;
        logger (LogInfo ("Found GTID(s): " +:+ py_str gtids)) ;;
        entries <- split_gtids gtids ;;
        match mysql_gtid_loop server_uuid entries with
        | Some gtid =>
            logger (LogInfo ("Using GTID " +:+ gtid +:+ " for state bookmark")) ;;
            ret {[ "gtid" := DStr gtid ]}
        | None => raise (PyException "No suitable GTID was found.")
        end
    end.

Definition _get_current_gtid_pos (fuel : nat) : M (gmap string dbval) :=
  self <- get_state ;;
  mariadb <- lift (is_mariadb self) ;;
  if mariadb : bool then __find_mariadb_gtid_pos fuel
  else __find_mysql_gtid_pos fuel.

Definition fetch_current_log_pos (fuel : nat) : M (gmap string dbval) :=
  self <- get_state ;;
  use_gtid <- lift (getitem (connection_config self) "use_gtid") ;;
  if truthy use_gtid then _get_current_gtid_pos fuel
  else _get_binlog_coordinates fuel.

(** *** Schema introspection *)

Section Introspector.

(** [safe_column_name] of the package's [utils] and [tablename_to_dict] of
    [fastsync.commons.utils]: imported by the module, defined outside it. *)
Variable safe_column_name : dbval -> option string -> dbval.
Variable tablename_to_dict : string -> gmap string dbval.

Definition get_primary_keys (fuel : nat) (table_name : string)
    : M (option (list dbval)) :=
  let table_dict := tablename_to_dict table_name in
  schema_name <- lift (getitem table_dict "schema_name") ;;
  table_name' <- lift (getitem table_dict "table_name") ;;
  let sql :=
    "SHOW KEYS FROM `" +:+ py_str schema_name +:+ "`.`"
    +:+ py_str table_name' +:+ "` WHERE Key_name = 'PRIMARY'" in
  result <- query_ fuel sql None ;;
  pk_specs <- rows_of result ;;
  self <- get_state ;;
  if (0 <? length pk_specs)%nat then
    ret (Some (map (fun k =>
                      safe_column_name (get_or k "Column_name" DNone)
                        (target_quote self))
                   pk_specs))
  else ret None.

End Introspector.

(** **** The safe SQL value of a column

    [get_table_columns] sends one statement; in it the server computes
    [safe_sql_value] for each column of the table with a [CASE] expression
    whose branches are [CONCAT] calls over string literals and the column
    name. The two branches for numbers are spliced in by Python beforehand
    ([decimal_format] and [integer_format]), like [date_type]. *)

(** An argument of a [CONCAT] call in the statement: a string literal, in
    quotes of either kind, or the column [column_name] of the catalog. *)
Inductive concat_arg : Type :=
| Lit (s : string)
| ColumnName.

Definition LF : string := String (ascii_of_nat 10) EmptyString.
Definition CR : string := String (ascii_of_nat 13) EmptyString.
Definition NUL : string := String (ascii_of_nat 0) EmptyString.

(** The string the server computes from a [CONCAT] call for a column. *)
Definition concat_value (column_name : string) (args : list concat_arg)
    : string :=
  fold_right (fun a acc => match a with
                           | Lit s => s +:+ acc
                           | ColumnName => column_name +:+ acc
                           end) EmptyString args.

(** A text spliced between the quotes of a literal stays inside it when it
    holds neither a quote nor a backslash. *)
Definition literal_safe (s : string) : bool :=
  negb (PyStr.contains "'"%char s) && negb (PyStr.contains "\"%char s).

(** [len(max_num.split('.')[1]) if '.' in max_num else 0] *)
Definition decimals (max_num : string) : nat :=
  if PyStr.contains "."%char max_num then
    String.length (nth 1 (PyStr.split "." max_num) "")
  else 0%nat.

(** [if max_num:] *)
Definition bound_given (max_num : option string) : option string :=
  match max_num with
  | Some s => if String.eqb s "" then None else Some s
  | None => None
  end.

Definition decimal_format (max_num : option string) : list concat_arg :=
  match bound_given max_num with
  | Some max_num =>
      [ Lit ("GREATEST(LEAST(" +:+ max_num +:+ ", ROUND(`");
        ColumnName;
        Lit ("`, " +:+ PyStr.of_nat (decimals max_num) +:+ ")), -"
             +:+ max_num +:+ ")") ]
  | None => [ Lit "`"; ColumnName; Lit "`" ]
  end.

Definition integer_format (max_num : option string) : list concat_arg :=
  match bound_given max_num with
  | Some _ => [ Lit "`"; ColumnName; Lit "`" ]
  | None => decimal_format max_num
  end.

Definition lower_char (c : ascii) : ascii :=
  let n := nat_of_ascii c in
  if (65 <=? n)%nat && (n <=? 90)%nat then ascii_of_nat (n + 32) else c.

Fixpoint lower (s : string) : string :=
  match s with
  | EmptyString => EmptyString
  | String c s' => String (lower_char c) (lower s')
  end.

(** [a = b] on the server: the catalog compares names without regard to the
    case of letters. *)
Definition sql_eq (a b : string) : bool := String.eqb (lower a) (lower b).

(** [a IN (l)] *)
Definition sql_in (a : string) (l : list string) : bool :=
  existsb (sql_eq a) l.

Definition zero_date : string :=
  "STR_TO_DATE(" +:+ dquote +:+ "0000-00-00 00:00:00" +:+ dquote +:+ ", "
  +:+ dquote +:+ "%Y-%m-%d %T" +:+ dquote +:+ ")".

(** The branch of the [CASE] expression that applies to a column. *)
Definition safe_sql_case (max_num : option string) (date_type : string)
    (column_name data_type column_type : string) : list concat_arg :=
  if sql_in data_type ["blob"; "tinyblob"; "mediumblob"; "longblob"] then
    [ Lit "REPLACE(hex(`"; ColumnName; Lit "`)"; Lit (", '" +:+ LF +:+ "', ' ')") ]
  else if sql_in data_type ["binary"; "varbinary"] then
    [ Lit "REPLACE(REPLACE(hex(trim(trailing CHAR(0x00) from `"; ColumnName;
      Lit "`))"; Lit (", '" +:+ LF +:+ "', ' '), '" +:+ CR +:+ "', '')") ]
  else if sql_in data_type ["bit"] then
    [ Lit "cast(`"; ColumnName; Lit "` AS unsigned)" ]
  else if sql_in data_type ["date"] then
    [ Lit "nullif(CAST(`"; ColumnName;
      Lit ("` AS " +:+ date_type +:+ ")," +:+ zero_date +:+ ")") ]
  else if sql_in data_type ["datetime"; "timestamp"] then
    [ Lit "nullif(`"; ColumnName; Lit ("`," +:+ zero_date +:+ ")") ]
  else if sql_in column_type ["tinyint(1)"] then
    [ Lit "CASE WHEN `"; ColumnName; Lit "` is null THEN null WHEN `";
      ColumnName; Lit "` = 0 THEN 0 ELSE 1 END" ]
  else if sql_in column_type
            ["geometry"; "point"; "linestring"; "polygon"; "multipoint";
             "multilinestring"; "multipolygon"; "geometrycollection"] then
    [ Lit "ST_AsGeoJSON("; ColumnName; Lit ")" ]
  else if sql_eq column_name "raw_data_hash" then
    [ Lit "REPLACE(REPLACE(hex(`"; ColumnName; Lit "`)";
      Lit (", '" +:+ LF +:+ "', ' '), '" +:+ CR +:+ "', '')") ]
  else if sql_in data_type ["double"; "numeric"; "float"; "decimal"; "real"]
  then decimal_format max_num
  else if sql_in data_type ["smallint"; "integer"; "bigint"; "mediumint"; "int"]
  then integer_format max_num
  else
    [ Lit "REPLACE(REPLACE(REPLACE(cast(`"; ColumnName;
      Lit "` AS char CHARACTER SET utf8)";
      Lit (", '" +:+ LF +:+ "', ' '), '" +:+ CR +:+ "', ''), '" +:+ NUL
           +:+ "', '')") ].

(** The column [safe_sql_value] of the result of [get_table_columns] for one
    column of the table. [None]: a spliced text leaves its literal, and the
    statement is not the one modelled here. *)
Definition safe_sql_value (max_num : option string) (date_type : string)
    (column_name data_type column_type : string) : option string :=
  if literal_safe (default "" (bound_given max_num)) && literal_safe date_type
  then Some (concat_value column_name
               (safe_sql_case max_num date_type column_name data_type
                  column_type))
  else None.

(** The expression that clamps a column into the bound and rounds it to the
    decimal places of the bound. *)
Definition clamp_expression (max_num column_name : string) : string :=
  "GREATEST(LEAST(" +:+ max_num +:+ ", ROUND(`" +:+ column_name +:+ "`, "
  +:+ PyStr.of_nat (decimals max_num) +:+ ")), -" +:+ max_num +:+ ")".

(** The bare reference to a column. *)
Definition column_reference (column_name : string) : string :=
  "`" +:+ column_name +:+ "`".

(** ** Notions the properties are stated with *)

(** An entry of a MariaDB GTID set, as listed between two commas, is well
    formed when, stripped, it is not empty and has three segments. *)
Definition mariadb_well_formed (entry : string) : bool :=
  let gtid := PyStr.strip entry in
  negb (String.eqb gtid "") && (length (PyStr.split "-" gtid) =? 3)%nat.

(** It matches a server id when its middle segment is that id. *)
Definition mariadb_matches (server_id entry : string) : bool :=
  mariadb_well_formed entry
  && String.eqb (nth 1 (PyStr.split "-" (PyStr.strip entry)) "") server_id.

(** An entry of a MySQL GTID set is well formed when, stripped, it is not
    empty and has two segments. *)
Definition mysql_well_formed (entry : string) : bool :=
  let gtid := PyStr.strip entry in
  negb (String.eqb gtid "") && (length (PyStr.split ":" gtid) =? 2)%nat.

(** It matches a server UUID when its first segment is that UUID. *)
Definition mysql_matches (server_uuid : dbval) (entry : string) : bool :=
  mysql_well_formed entry
  && bool_decide (DStr (nth 0 (PyStr.split ":" (PyStr.strip entry)) "")
                  = server_uuid).

Definition no_suitable_gtid : exn := PyException "No suitable GTID was found.".
Definition gtid_not_enabled : exn := PyException "GTID is not enabled.".
Definition gtid_mode_not_enabled : exn :=
  PyException "GTID mode is not enabled.".
Definition binlog_not_enabled : exn :=
  PyException "MySQL binary logging is not enabled.".

(** A column that a rule of the [CASE] expression before the two rules for
    numbers takes, whatever its numeric data type. *)
Definition taken_before_numbers (column_name column_type : string) : bool :=
  sql_in column_type ["tinyint(1)"]
  || sql_in column_type
       ["geometry"; "point"; "linestring"; "polygon"; "multipoint";
        "multilinestring"; "multipolygon"; "geometrycollection"]
  || sql_eq column_name "raw_data_hash".

Definition fractional_types : list string :=
  ["double"; "numeric"; "float"; "decimal"; "real"].
Definition integer_types : list string :=
  ["smallint"; "integer"; "bigint"; "mediumint"; "int"].

(** What the client answers to one session statement: both sessions accept
    it, the buffered one rejects it, or the streaming one does. A rejection
    is an [InternalError]. *)
Inductive session_outcome : Type :=
| Accepted (a1 a2 : Z * list row)
| RejectedBuffered
| RejectedStreaming (a1 : Z * list row).

Definition rejected (o : session_outcome) : bool :=
  match o with
  | Accepted _ _ => false
  | _ => true
  end.

Definition outcome_answers (o : session_outcome) : list execute_answer :=
  match o with
  | Accepted a1 a2 => [ExecOk (fst a1) (snd a1); ExecOk (fst a2) (snd a2)]
  | RejectedBuffered => [ExecRaise InternalError]
  | RejectedStreaming a1 => [ExecOk (fst a1) (snd a1); ExecRaise InternalError]
  end.

(** The session statements of a run, each with what the client answers. *)
Definition plan_answers (plan : list (string * session_outcome))
    : list execute_answer :=
  flat_map (fun so => outcome_answers (snd so)) plan.

(** The calls of the run: every statement goes to the buffered session [c],
    and to the streaming session [cu] unless [c] rejected it. *)
Definition plan_calls (c cu : handle) (plan : list (string * session_outcome))
    : list call :=
  flat_map (fun so =>
              match snd so with
              | RejectedBuffered => [Execute c (fst so) None]
              | _ => [Execute c (fst so) None; Execute cu (fst so) None]
              end) plan.

Definition plan_log (plan : list (string * session_outcome))
    : list log_record :=
  flat_map (fun so =>
              let l := LogInfo ("Running query: " +:+ fst so) in
              match snd so with
              | RejectedBuffered => [l]
              | _ => [l; l]
              end) plan.

(** The warnings of the run: one for each rejected statement. *)
Definition plan_warnings (plan : list (string * session_outcome))
    : list string :=
  map (fun so => "Could not set session variable: " +:+ fst so)
    (filter (fun so => rejected (snd so) = true) plan).

Definition warnings_log (warnings : list string) : list log_record :=
  match warnings with
  | [] => []
  | _ :: _ =>
      LogWarning
        "Encountered non-fatal errors when configuring session that could impact performance:"
      :: map LogWarning warnings
  end.

(** The statements [run_session_sqls] runs for a value of [session_sqls]. *)
Definition session_statements (v : value) : list string :=
  match v with
  | VList l => l
  | _ => []
  end.

Definition configured_session_sqls (self : state) : list string :=
  session_statements
    (get_or (connection_config self) "session_sqls"
       (VList DEFAULT_SESSION_SQLS)).

(** The calls of one reconnect: both sessions closed, both opened anew as
    [h] and [S h], the session statements run on them. *)
Definition reconnect_calls (c cu : handle) (conn_params : gmap string value)
    (h : handle) (plan : list (string * session_outcome)) : list call :=
  [Close c; Close cu;
   Connect conn_params DictCursor h; Connect conn_params SSCursor (S h)]
  ++ plan_calls h (S h) plan.

(** How the client may answer [close_connections] on the two open sessions
    [c] and [cu]: with its answers to the closes, in order, go the calls that
    are made. Both closes succeed; or closing [c] raises, and then [cu] is
    not closed; or closing [c] succeeds and closing [cu] raises. *)
Inductive closes (c cu : handle) : list (option exn) -> list call -> Prop :=
| closes_both : closes c cu [None; None] [Close c; Close cu]
| closes_buffered_raises e : closes c cu [Some e] [Close c]
| closes_streaming_raises e : closes c cu [None; Some e] [Close c; Close cu].

Definition is_connect (c : call) : bool :=
  match c with
  | Connect _ _ _ | ConnectFailed _ _ => true
  | _ => false
  end.

Definition is_close (c : call) : bool :=
  match c with
  | Close _ => true
  | _ => false
  end.

(** The statements executed on a connection, in order. *)
Definition executed_on (h : handle) (l : list call) : list string :=
  flat_map (fun c => match c with
                     | Execute h' sql _ => if (h' =? h)%nat then [sql] else []
                     | _ => []
                     end) l.

(** The session a call of [query] executes on: its argument, or [self.conn]
    when the argument is [None]. *)
Definition target (conn_ : option handle) (self : state) : option handle :=
  match conn_ with None => conn self | Some _ => conn_ end.

(** A later state of the same object: fields replaced, calls and log
    records added. *)
Definition evolve (st : state) (c cu : option handle) (ir : bool)
    (ka : list (option exn)) (ea : list execute_answer)
    (ca : list (option exn)) (nh : handle)
    (new_calls : list call) (new_log : list log_record) : state :=
  mkState (connection_config st) (target_quote st) c cu ir ka ea ca nh
    (calls st ++ new_calls) (log st ++ new_log).

(** The state after one statement was executed on [c] and answered. *)
Definition attempted (c : handle) (sql : string)
    (params : option (list dbval)) (es : list execute_answer) (st : state)
    : state :=
  evolve st (conn st) (conn_unbuffered st) (is_replica st)
    (connect_answers st) es (close_answers st) (next_handle st)
    [Execute c sql params] [LogInfo ("Running query: " +:+ sql)].

(** The state after the session statements of a plan. *)
Definition after_statements (c cu : handle)
    (plan : list (string * session_outcome)) (ea : list execute_answer)
    (st : state) : state :=
  evolve st (conn st) (conn_unbuffered st) (is_replica st)
    (connect_answers st) ea (close_answers st) (next_handle st)
    (plan_calls c cu plan) (plan_log plan).

(** The state after [run_session_sqls] has run a plan. *)
Definition after_session (c cu : handle)
    (plan : list (string * session_outcome)) (ea : list execute_answer)
    (st : state) : state :=
  evolve st (conn st) (conn_unbuffered st) (is_replica st)
    (connect_answers st) ea (close_answers st) (next_handle st)
    (plan_calls c cu plan)
    (plan_log plan ++ warnings_log (plan_warnings plan)).

(** The calls of [open_connections]: the two sessions, then the plan. *)
Definition open_calls (conn_params : gmap string value) (h : handle)
    (plan : list (string * session_outcome)) : list call :=
  [Connect conn_params DictCursor h; Connect conn_params SSCursor (S h)]
  ++ plan_calls h (S h) plan.

(** The state after [open_connections] has opened both sessions as
    [next_handle st] and its successor and run a plan on them. *)
Definition after_open (conn_params : gmap string value) (replica : bool)
    (plan : list (string * session_outcome))
    (ka : list (option exn)) (ea : list execute_answer) (st : state) : state :=
  let h := next_handle st in
  evolve st (Some h) (Some (S h)) replica ka ea (close_answers st) (S (S h))
    (open_calls conn_params h plan)
    (plan_log plan ++ warnings_log (plan_warnings plan)).

(** The state after [close_connections] has closed both sessions. *)
Definition after_close (c cu : handle) (ca : list (option exn)) (st : state)
    : state :=
  evolve st (conn st) (conn_unbuffered st) (is_replica st)
    (connect_answers st) (execute_answers st) ca (next_handle st)
    [Close c; Close cu] [].

(** The state in which [query] runs its statement again after one
    reconnect: the first attempt on [t] failed with [e], both sessions were
    closed, opened anew and set up by a plan. *)
Definition retried (c cu : handle) (conn_params : gmap string value)
    (replica : bool) (plan : list (string * session_outcome))
    (ka : list (option exn)) (ea : list execute_answer)
    (ca : list (option exn)) (t : handle) (sql : string)
    (params : option (list dbval)) (n_retry : Z) (e : exn) (st : state)
    : state :=
  let h := next_handle st in
  evolve st (Some h) (Some (S h)) replica ka ea ca (S (S h))
    (Execute t sql params :: reconnect_calls c cu conn_params h plan)
    ([LogInfo ("Running query: " +:+ sql); LogQueryException n_retry e;
      LogInfo "Reopening the connections."]
     ++ plan_log plan ++ warnings_log (plan_warnings plan)
     ++ [LogInfo "Retrying to run a query."]).

(** The calls of [st'] are those of [st] and more. *)
Definition grows (st st' : state) : Prop :=
  exists more, calls st' = calls st ++ more.

(** A method that only adds to the calls. *)
Definition Grows {A} (m : M A) : Prop :=
  forall st, grows st (snd (m st)).

(** The dictionary a GTID position is returned as. *)
Definition gtid_bookmark (gtid : string) : gmap string dbval :=
  {[ "gtid" := DStr gtid ]}.

(** The statement of [get_primary_keys]. *)
Definition show_keys_sql (schema_name table_name : dbval) : string :=
  "SHOW KEYS FROM `" +:+ py_str schema_name +:+ "`.`"
  +:+ py_str table_name +:+ "` WHERE Key_name = 'PRIMARY'".

(** ** Sample objects *)

Module Sample.

Definition primary_config : gmap string value :=
  <["host" := VStr "db.example"]> (<["port" := VStr "3306"]>
    (<["user" := VStr "tap"]> (<["password" := VStr "secret"]>
       (<["session_sqls" := VList ["SET a=1"; "SET b=2"; "SET c=3"]]> ∅)))).

Definition replica_config : gmap string value :=
  <["replica_host" := VStr "replica.example"]> (<["replica_port" := VInt 3307]>
    (<["replica_user" := VStr "reader"]>
       (<["replica_password" := VStr "hidden"]> primary_config))).

Definition mariadb_config : gmap string value :=
  <["engine" := VStr "mariadb"]> (<["use_gtid" := VBool true]> primary_config).

(** An object made by [__init__] whose two sessions are open as 0 and 1. *)
Definition opened (config : gmap string value) (replica : bool)
    (connect_answers : list (option exn))
    (execute_answers : list execute_answer)
    (close_answers : list (option exn)) : state :=
  set_next_handle 2
    (set_is_replica replica
       (set_conn_unbuffered (Some 1%nat)
          (set_conn (Some 0%nat)
             (__init__ config None connect_answers execute_answers
                close_answers)))).

(** The parameters [get_connection_parameters] gives for [primary_config]. *)
Definition primary_params : gmap string value :=
  connection_parameters (VStr "db.example") 3306 (VStr "tap") (VStr "secret")
    (VStr "utf8").

(** The second statement rejected by the buffered session, the third by the
    streaming one. *)
Definition plan : list (string * session_outcome) :=
  [("SET a=1", Accepted (0%Z, []) (0%Z, []));
   ("SET b=2", RejectedBuffered);
   ("SET c=3", RejectedStreaming (0%Z, []))].

Definition master_status : row :=
  <["File" := DStr "binlog.000002"]> (<["Position" := DInt 914]> ∅).

(** A first attempt that fails, a reconnect along [plan], a second attempt
    that gives the master status. *)
Definition failing_once : state :=
  opened primary_config false [None; None]
    (ExecRaise OperationalError
     :: plan_answers plan ++ [ExecOk 1 [master_status]])
    [None; None].

Definition failing : state :=
  opened primary_config false [] [ExecRaise OperationalError] [].

Definition with_master_status : state :=
  opened primary_config false [] [ExecOk 1 [master_status]] [].

Definition without_binlog : state :=
  opened primary_config false [] [ExecOk 0 []] [].

(** Before [open_connections]: the client opens both sessions and answers
    the session statements along [plan]. *)
Definition starting : state :=
  __init__ primary_config None [None; None] (plan_answers plan) [].

(** On a replica; the statement on the auxiliary connection to the primary
    is refused as a programming error. *)
Definition replica_refused : state :=
  opened replica_config true [None] [ExecRaise ProgrammingError] [None].

(** A MariaDB primary with three GTIDs, server id 2. *)
Definition mariadb_gtids : string := "0-1-5, 0-2-7,1-2-9,junk".

Definition mariadb_primary (gtids : string) : state :=
  opened mariadb_config false []
    [ExecOk 1 [ {[ "current_gtids" := DStr gtids ]} ];
     ExecOk 1 [ {[ "server_id" := DInt 2 ]} ]] [].

Definition mariadb_no_position : state :=
  opened mariadb_config false [] [ExecOk 0 []] [].

(** A MySQL primary with GTID mode on. *)
Definition mysql_gtids : string :=
  "aaaa:1-5, bbbb:1-7:9-12," +:+ LF +:+ "bbbb:1-20".

Definition mysql_primary (gtids : string) : state :=
  opened primary_config false []
    [ExecOk 1 [ {[ "gtid_mode" := DStr "ON" ]} ];
     ExecOk 1 [ {[ "current_gtids" := DStr gtids ]} ];
     ExecOk 1 [ {[ "server_uuid" := DStr "bbbb" ]} ]] [].

Definition mysql_mode_off : state :=
  opened primary_config false [] [ExecOk 1 [ {[ "gtid_mode" := DStr "OFF" ]} ]] [].

(** A stand-in for [safe_column_name]: the name between quotes. *)
Definition quoted_column_name (name : dbval) (quote : option string) : dbval :=
  let q := default dquote quote in
  match name with
  | DStr s => DStr (q +:+ s +:+ q)
  | v => v
  end.

(** A stand-in for [tablename_to_dict]: schema and table around the dot. *)
Definition split_tablename (table_name : string) : gmap string dbval :=
  match PyStr.split "." table_name with
  | [schema; table] =>
      <["schema_name" := DStr schema]> (<["table_name" := DStr table]> ∅)
  | _ => <["schema_name" := DNone]> (<["table_name" := DStr table_name]> ∅)
  end.

Definition pk_rows : list row :=
  [ {[ "Column_name" := DStr "order_id" ]};
    {[ "Column_name" := DStr "line_no" ]} ].

Definition with_primary_key : state :=
  opened primary_config false [] [ExecOk 2 pk_rows] [].

End Sample.

(** ** More of the class: columns, target types, export *)

(** The five defaults of [__init__], as a dictionary. *)
Definition default_config : gmap string value :=
  <["charset" := VStr DEFAULT_CHARSET]>
    (<["export_batch_rows" := VInt DEFAULT_EXPORT_BATCH_ROWS]>
       (<["session_sqls" := VList DEFAULT_SESSION_SQLS]>
          (<["use_gtid" := VBool DEFAULT_USE_GTID]>
             (<["engine" := VStr MYSQL_ENGINE]> ∅)))).

(** The text of an argument of a [CONCAT] call, and of the call. *)
Definition concat_arg_text (a : concat_arg) : string :=
  match a with
  | Lit s => "'" +:+ s +:+ "'"
  | ColumnName => "column_name"
  end.

Definition concat_call_text (args : list concat_arg) : string :=
  "CONCAT(" +:+ String.concat ", " (map concat_arg_text args) +:+ ")".

(** The text of [decimal_format] when a bound is given (line 333). *)
Definition decimal_format_text (max_num : string) : string :=
  String.concat EmptyString
    [ LF;
      "              CONCAT('GREATEST(LEAST("; max_num; ", ROUND(`', column_name, '`, "; PyStr.of_nat (decimals max_num); ")), -"; max_num; ")')"; LF;
      "            " ].

(** The text of [integer_format], and of [decimal_format] when no bound is
    given (lines 336 and 340). *)
Definition reference_format_text : string :=
  String.concat EmptyString
    [ LF;
      "              CONCAT('`', column_name, '`')"; LF;
      "            " ].

(** The statement of [get_table_columns] (line 348), with the two formats
    and the names of schema and table as Python has them at that point. *)
Definition get_table_columns_sql (decimal_format integer_format : string)
    (date_type schema_name table_name : string) : string :=
  String.concat EmptyString
    [ LF;
      "                SELECT column_name AS column_name,"; LF;
      "                    data_type AS data_type,"; LF;
      "                    column_type AS column_type,"; LF;
      "                    safe_sql_value AS safe_sql_value"; LF;
      "                FROM (SELECT column_name,"; LF;
      "                            data_type,"; LF;
      "                            column_type,"; LF;
      "                            CASE"; LF;
      "                            WHEN data_type IN ('blob', 'tinyblob', 'mediumblob', 'longblob')"; LF;
      "                                    THEN CONCAT('REPLACE(hex(`', column_name, '`)', "; dquote; ", '"; LF;
      "', ' ')"; dquote; ")"; LF;
      "                            WHEN data_type IN ('binary', 'varbinary')"; LF;
      "                                    THEN concat('REPLACE(REPLACE(hex(trim(trailing CHAR(0x00) from `',COLUMN_NAME,'`))', "; dquote; ", '"; LF;
      "', ' '), '"; CR; "', '')"; dquote; ")"; LF;
      "                            WHEN data_type IN ('bit')"; LF;
      "                                    THEN concat('cast(`', column_name, '` AS unsigned)')"; LF;
      "                            WHEN data_type IN ('date')"; LF;
      "                                    THEN concat('nullif(CAST(`', column_name, '` AS "; date_type; "),STR_TO_DATE("; dquote; "0000-00-00 00:00:00"; dquote; ", "; dquote; "%Y-%m-%d %T"; dquote; "))')"; LF;
      "                            WHEN data_type IN ('datetime', 'timestamp')"; LF;
      "                                    THEN concat('nullif(`', column_name, '`,STR_TO_DATE("; dquote; "0000-00-00 00:00:00"; dquote; ", "; dquote; "%Y-%m-%d %T"; dquote; "))')"; LF;
      "                            WHEN column_type IN ('tinyint(1)')"; LF;
      "                                    THEN concat('CASE WHEN `' , column_name , '` is null THEN null WHEN `' , column_name , '` = 0 THEN 0 ELSE 1 END')"; LF;
      "                            WHEN column_type IN ('geometry', 'point', 'linestring', 'polygon', 'multipoint', 'multilinestring', 'multipolygon', 'geometrycollection')"; LF;
      "                                    THEN concat('ST_AsGeoJSON(', column_name, ')')"; LF;
      "                            WHEN column_name = 'raw_data_hash'"; LF;
      "                                    THEN concat('REPLACE(REPLACE(hex(`', column_name, '`)', "; dquote; ", '"; LF;
      "', ' '), '"; CR; "', '')"; dquote; ")"; LF;
      "                            WHEN data_type IN ('double', 'numeric', 'float', 'decimal', 'real')"; LF;
      "                                    THEN "; decimal_format; LF;
      "                            WHEN data_type IN ('smallint', 'integer', 'bigint', 'mediumint', 'int')"; LF;
      "                                    THEN "; integer_format; LF;
      "                            ELSE concat('REPLACE(REPLACE(REPLACE(cast(`', column_name, '` AS char CHARACTER SET utf8)', "; dquote; ", '"; LF;
      "', ' '), '"; CR; "', ''), '"; NUL; "', '')"; dquote; ")"; LF;
      "                                END AS safe_sql_value,"; LF;
      "                            ordinal_position"; LF;
      "                    FROM information_schema.columns"; LF;
      "                    WHERE table_schema = '"; schema_name; "'"; LF;
      "                        AND table_name = '"; table_name; "') x"; LF;
      "                ORDER BY"; LF;
      "                        ordinal_position"; LF;
      "            " ].

(** [sep.join(l)]: every element has to be a [str]. *)
Fixpoint str_join (sep : string) (l : list dbval) : result string :=
  match l with
  | [] => Ok EmptyString
  | DStr s :: l' =>
      match l' with
      | [] => Ok s
      | _ :: _ =>
          match str_join sep l' with
          | Ok t => Ok (s +:+ sep +:+ t)
          | Err e => Err e
          end
      end
  | _ :: _ => Err TypeError
  end.

(** The three columns [copy_table] adds after those of the table. *)
Definition sdc_columns : list dbval :=
  [ DStr "CONVERT_TZ( NOW(),@@session.time_zone,'+00:00') AS `_SDC_EXTRACTED_AT`";
    DStr "CONVERT_TZ( NOW(),@@session.time_zone,'+00:00') AS `_SDC_BATCHED_AT`";
    DStr "null AS `_SDC_DELETED_AT`" ].

(** The statement of [copy_table] (line 446). *)
Definition copy_table_sql (columns schema_name table_name where_clause_sql
    : string) : string :=
  String.concat EmptyString
    [ "SELECT "; columns; LF;
      "        FROM `"; schema_name; "`.`"; table_name; "` ";
      where_clause_sql; LF;
      "        " ].

(** What [map_column_types_to_target] returns. *)
Record target_mapping : Type := mkTargetMapping {
  columns : list string;
  primary_key : option (list dbval);
}.

Section Exporter.

(** [safe_column_name], [tablename_to_dict] as before, and the function the
    object is made with, [self.tap_type_to_target_type]. *)
Variable safe_column_name : dbval -> option string -> dbval.
Variable tablename_to_dict : string -> gmap string dbval.
Variable tap_type_to_target_type : dbval -> dbval -> dbval.

Definition get_table_columns (fuel : nat) (table_name : string)
    (max_num : option string) (date_type : string) : M query_result :=
  let table_dict := tablename_to_dict table_name in
  let decimal_format :=
    match bound_given max_num with
    | Some max_num => decimal_format_text max_num
    | None => reference_format_text
    end in
  let integer_format :=
    match bound_given max_num with
    | Some _ => reference_format_text
    | None => decimal_format
    end in
  let schema_name := get_or table_dict "schema_name" DNone in
  let table_name := get_or table_dict "table_name" DNone in
  query_ fuel
    (get_table_columns_sql decimal_format integer_format date_type
       (py_str schema_name) (py_str table_name))
    None.

Definition map_column_types_to_target (fuel : nat) (table_name : string)
    : M target_mapping :=
  result <- get_table_columns fuel table_name None "date" ;;
  mysql_columns <- rows_of result ;;
  self <- get_state ;;
  let mapped_columns :=
    map (fun pc =>
           py_str (safe_column_name (get_or pc "column_name" DNone)
                     (target_quote self))
           +:+ " "
           +:+ py_str (tap_type_to_target_type
                         (get_or pc "data_type" DNone)
                         (get_or pc "column_type" DNone)))
      mysql_columns in
  primary_key <-
    get_primary_keys safe_column_name tablename_to_dict fuel table_name ;;
  ret (mkTargetMapping mapped_columns primary_key).

(** [copy_table] from its start to the execution of the statement on the
    streaming session (lines 431 to 457); what follows, the rows fetched in
    batches and written to the files, is not embedded. The result is the
    answer of the cursor. *)
Definition copy_table_select (fuel : nat) (table_name : string)
    (max_num : option string) (date_type : string)
    (where_clause_sql : string) : M (Z * list row) :=
  result <- get_table_columns fuel table_name max_num date_type ;;
  table_columns <- rows_of result ;;
  let column_safe_sql_values :=
    map (fun c => get_or c "safe_sql_value" DNone) table_columns in
  if (length column_safe_sql_values =? 0)%nat then
    raise (PyException (table_name +:+ " table not found."))
  else
    let table_dict := tablename_to_dict table_name in
    let column_safe_sql_values := column_safe_sql_values ++ sdc_columns in
    joined <- lift (str_join "," column_safe_sql_values) ;;
    schema_name <- lift (getitem table_dict "schema_name") ;;
    table_name' <- lift (getitem table_dict "table_name") ;;
    let sql :=
      copy_table_sql joined (py_str schema_name) (py_str table_name')
        where_clause_sql in
    self <- get_state ;;
    export_batch_rows <-
      lift (getitem (connection_config self) "export_batch_rows") ;;
    cu <- deref (conn_unbuffered self) ;;
    cursor_execute cu sql None.

End Exporter.

Definition no_gtid_executed : exn :=
  PyException ("No GTID was found with " +:+ dquote
               +:+ "@@GLOBAL.gtid_executed" +:+ dquote +:+ ".").

(** *** Notions for the columns and the export *)

Section ExporterNotions.

Variable safe_column_name : dbval -> option string -> dbval.
Variable tablename_to_dict : string -> gmap string dbval.
Variable tap_type_to_target_type : dbval -> dbval -> dbval.

(** The statement of [get_table_columns] for a table. *)
Definition columns_sql (table_name : string) (max_num : option string)
    (date_type : string) : string :=
  get_table_columns_sql
    match bound_given max_num with
    | Some b => decimal_format_text b
    | None => reference_format_text
    end
    reference_format_text date_type
    (py_str (get_or (tablename_to_dict table_name) "schema_name" DNone))
    (py_str (get_or (tablename_to_dict table_name) "table_name" DNone)).

(** One column declaration of [map_column_types_to_target]. *)
Definition mapped_column (quote : option string) (pc : row) : string :=
  py_str (safe_column_name (get_or pc "column_name" DNone) quote)
  +:+ " "
  +:+ py_str (tap_type_to_target_type (get_or pc "data_type" DNone)
                (get_or pc "column_type" DNone)).

End ExporterNotions.

(** The statement of [copy_table] for the joined safe values. *)
Definition export_sql (joined : string) (schema table : dbval)
    (where_clause_sql : string) : string :=
  copy_table_sql joined (py_str schema) (py_str table) where_clause_sql.

(** *** More objects to run the methods on *)

Module Scenario.

(** Closing the buffered session fails. *)
Definition closing_fails : state :=
  Sample.opened Sample.primary_config false [] [] [Some InterfaceError].

(** [session_sqls] given as [None]. *)
Definition no_session_sqls : state :=
  __init__ (<["session_sqls" := VNone]> Sample.primary_config) None [] [] [].

(** No host in the configuration. *)
Definition no_host : state := __init__ ∅ None [] [] [].

(** The port, user and password of a replica, and no replica host. *)
Definition replica_fields_config : gmap string value :=
  <["replica_port" := VInt 3307]>
    (<["replica_user" := VStr "reader"]>
       (<["replica_password" := VStr "hidden"]> Sample.primary_config)).

(** The client opens the buffered session and refuses the streaming one. *)
Definition streaming_refused : state :=
  __init__ Sample.primary_config None [None; Some OperationalError] [] [].

Definition replica_params : gmap string value :=
  connection_parameters (VStr "replica.example") 3307 (VStr "reader")
    (VStr "hidden") (VStr "utf8").

Definition slave_status : row :=
  <["Master_Log_File" := DStr "binlog.000007"]>
    (<["Read_Master_Log_Pos" := DInt 120]> ∅).

Definition on_replica : state :=
  Sample.opened Sample.replica_config true [] [ExecOk 1 [slave_status]] [].

(** On a replica; the statement on the auxiliary connection has no row. *)
Definition primary_without_row : state :=
  Sample.opened Sample.replica_config true [None] [ExecOk 0 []] [None].

(** On a replica; the statement on the auxiliary connection loses the
    connection, the sessions are opened anew along [Sample.plan], and the
    new buffered session answers with its server id. *)
Definition primary_lost : state :=
  Sample.opened Sample.replica_config true [None; None; None]
    (ExecRaise OperationalError
     :: plan_answers Sample.plan ++ [ExecOk 1 [ {[ "server_id" := DInt 7 ]} ]])
    [None; None; None].

(** A stand-in for [tap_type_to_target_type]. *)
Definition target_type (data_type column_type : dbval) : dbval :=
  if bool_decide (column_type = DStr "tinyint(1)") then DStr "BOOLEAN"
  else if bool_decide (data_type = DStr "int") then DStr "NUMBER"
  else DStr "VARCHAR".

Definition column_rows : list row :=
  [ <["column_name" := DStr "order_id"]>
      (<["data_type" := DStr "int"]>
         (<["column_type" := DStr "int(11)"]>
            (<["safe_sql_value" := DStr "`order_id`"]> ∅)));
    <["column_name" := DStr "note"]>
      (<["data_type" := DStr "varchar"]>
         (<["column_type" := DStr "varchar(20)"]>
            (<["safe_sql_value" := DStr "`note`"]> ∅))) ].

Definition with_columns : state :=
  Sample.opened Sample.primary_config false []
    [ExecOk 2 column_rows; ExecOk 2 Sample.pk_rows] [].

Definition missing_table : state :=
  Sample.opened Sample.primary_config false [] [ExecOk 0 []] [].

(** The streaming session loses the connection on the export statement. *)
Definition export_fails : state :=
  Sample.opened Sample.primary_config false []
    [ExecOk 2 column_rows; ExecRaise OperationalError] [].

(** A column row without a safe value. *)
Definition export_without_value : state :=
  Sample.opened Sample.primary_config false []
    [ExecOk 1 [ {[ "column_name" := DStr "note" ]} ]] [].

Definition joined_columns : string :=
  "`order_id`,`note`,"
  +:+ "CONVERT_TZ( NOW(),@@session.time_zone,'+00:00') AS `_SDC_EXTRACTED_AT`,"
  +:+ "CONVERT_TZ( NOW(),@@session.time_zone,'+00:00') AS `_SDC_BATCHED_AT`,"
  +:+ "null AS `_SDC_DELETED_AT`".

(** As [Sample.failing_once], but the client refuses to close the buffered
    session. *)
Definition close_refused : state :=
  Sample.opened Sample.primary_config false [None; None]
    (ExecRaise OperationalError
     :: plan_answers Sample.plan ++ [ExecOk 1 [Sample.master_status]])
    [Some InterfaceError].

(** Startup; the first session statement is accepted by both sessions, the
    second is refused by the buffered session as a programming error. *)
Definition statement_refused : state :=
  __init__ Sample.primary_config None [None; None]
    [ExecOk 0 []; ExecOk 0 []; ExecRaise ProgrammingError] [].

(** Startup; the buffered session rejects the first two session statements
    with an internal error and accepts the third as the streaming one does. *)
Definition two_rejected : state :=
  __init__ Sample.primary_config None [None; None]
    [ExecRaise InternalError; ExecRaise InternalError;
     ExecOk 0 []; ExecOk 0 []] [].

(** The statement loses the connection and the server refuses a new one. *)
Definition server_gone : state :=
  Sample.opened Sample.primary_config false [Some OperationalError]
    [ExecRaise InterfaceError] [None; None].

(** GTID mode on, and no row for the executed GTID set. *)
Definition mysql_no_gtid_executed : state :=
  Sample.opened Sample.primary_config false []
    [ExecOk 1 [ {[ "gtid_mode" := DStr "ON" ]} ]; ExecOk 0 []] [].

End Scenario.

(** * Properties *)

(** ** Strings *)

Lemma append_assoc (a b c : string) : (a +:+ b) +:+ c = a +:+ (b +:+ c).
Proof.
  induction a as [|x a IH]; [reflexivity|].
  change (String x ((a +:+ b) +:+ c) = String x (a +:+ (b +:+ c))).
  now rewrite IH.
Qed.

Lemma append_empty_r (a : string) : a +:+ "" = a.
Proof.
  induction a as [|x a IH]; [reflexivity|].
  change (String x (a +:+ "") = String x a). now rewrite IH.
Qed.

(** ** GTID selection *)

Section GtidLoops.

Lemma mariadb_gtid_loop_cons server_id entry rest :
  mariadb_gtid_loop server_id (entry :: rest) =
  if mariadb_matches server_id entry then Some (PyStr.strip entry)
  else mariadb_gtid_loop server_id rest.
Proof.
  unfold mariadb_matches, mariadb_well_formed. simpl.
  destruct (String.eqb (PyStr.strip entry) ""); simpl; [reflexivity|].
  destruct (length (PyStr.split "-" (PyStr.strip entry)) =? 3)%nat; simpl;
    [|reflexivity].
  destruct (String.eqb _ server_id); reflexivity.
Qed.

Lemma mysql_gtid_loop_cons server_uuid entry rest :
  mysql_gtid_loop server_uuid (entry :: rest) =
  if mysql_matches server_uuid entry then Some (PyStr.strip entry)
  else mysql_gtid_loop server_uuid rest.
Proof.
  unfold mysql_matches, mysql_well_formed. simpl.
  destruct (String.eqb (PyStr.strip entry) ""); simpl; [reflexivity|].
  destruct (length (PyStr.split ":" (PyStr.strip entry)) =? 2)%nat; simpl;
    [|reflexivity].
  destruct (bool_decide _); reflexivity.
Qed.

(** The first matching entry is the one selected. *)
Lemma mariadb_gtid_loop_first server_id pre entry post :
  Forall (fun e => mariadb_matches server_id e = false) pre ->
  mariadb_matches server_id entry = true ->
  mariadb_gtid_loop server_id (pre ++ entry :: post)
  = Some (PyStr.strip entry).
Proof.
  intros Hpre Hm. induction Hpre as [|e pre He _ IH].
  - simpl app. rewrite mariadb_gtid_loop_cons, Hm. reflexivity.
  - change ((e :: pre) ++ entry :: post) with (e :: (pre ++ entry :: post)).
    rewrite mariadb_gtid_loop_cons, He. exact IH.
Qed.

Lemma mysql_gtid_loop_first server_uuid pre entry post :
  Forall (fun e => mysql_matches server_uuid e = false) pre ->
  mysql_matches server_uuid entry = true ->
  mysql_gtid_loop server_uuid (pre ++ entry :: post)
  = Some (PyStr.strip entry).
Proof.
  intros Hpre Hm. induction Hpre as [|e pre He _ IH].
  - simpl app. rewrite mysql_gtid_loop_cons, Hm. reflexivity.
  - change ((e :: pre) ++ entry :: post) with (e :: (pre ++ entry :: post)).
    rewrite mysql_gtid_loop_cons, He. exact IH.
Qed.

(** No matching entry: the loop runs to its end. *)
Lemma mariadb_gtid_loop_none server_id entries :
  Forall (fun e => mariadb_matches server_id e = false) entries ->
  mariadb_gtid_loop server_id entries = None.
Proof.
  induction 1 as [|e l He _ IH]; [reflexivity|].
  rewrite mariadb_gtid_loop_cons, He. exact IH.
Qed.

Lemma mysql_gtid_loop_none server_uuid entries :
  Forall (fun e => mysql_matches server_uuid e = false) entries ->
  mysql_gtid_loop server_uuid entries = None.
Proof.
  induction 1 as [|e l He _ IH]; [reflexivity|].
  rewrite mysql_gtid_loop_cons, He. exact IH.
Qed.

(** Entries that are not well formed can be left out of the set. *)
Lemma mariadb_gtid_loop_skips server_id entries :
  mariadb_gtid_loop server_id entries
  = mariadb_gtid_loop server_id
      (List.filter mariadb_well_formed entries).
Proof.
  induction entries as [|e l IH]; [reflexivity|].
  rewrite mariadb_gtid_loop_cons. simpl List.filter.
  destruct (mariadb_well_formed e) eqn:Hwf.
  - rewrite mariadb_gtid_loop_cons, IH. reflexivity.
  - unfold mariadb_matches. rewrite Hwf. exact IH.
Qed.

Lemma mysql_gtid_loop_skips server_uuid entries :
  mysql_gtid_loop server_uuid entries
  = mysql_gtid_loop server_uuid (List.filter mysql_well_formed entries).
Proof.
  induction entries as [|e l IH]; [reflexivity|].
  rewrite mysql_gtid_loop_cons. simpl List.filter.
  destruct (mysql_well_formed e) eqn:Hwf.
  - rewrite mysql_gtid_loop_cons, IH. reflexivity.
  - unfold mysql_matches. rewrite Hwf. exact IH.
Qed.

End GtidLoops.

(** ** Connection parameters *)

Section ConnectionParameters.

Variable self : state.
Variables host port user password charset : value.
Hypothesis Hhost : connection_config self !! "host" = Some host.
Hypothesis Hport : connection_config self !! "port" = Some port.
Hypothesis Huser : connection_config self !! "user" = Some user.
Hypothesis Hpassword : connection_config self !! "password" = Some password.
Hypothesis Hcharset : connection_config self !! "charset" = Some charset.

Lemma get_connection_parameters_primary n :
  py_int port = Ok n ->
  get_connection_parameters self true
  = Ok (connection_parameters host n user password charset, false).
Proof using Hhost Hport Huser Hpassword Hcharset.
  intros Hn. unfold get_connection_parameters, getitem.
  rewrite Hhost, Hport. cbn [rbind]. rewrite Hn. cbn [rbind].
  rewrite Huser, Hpassword, Hcharset. reflexivity.
Qed.

Lemma get_connection_parameters_replica rhost rport ruser rpassword n :
  connection_config self !! "replica_host" = Some rhost ->
  connection_config self !! "replica_port" = Some rport ->
  connection_config self !! "replica_user" = Some ruser ->
  connection_config self !! "replica_password" = Some rpassword ->
  py_int rport = Ok n ->
  get_connection_parameters self false
  = Ok (connection_parameters rhost n ruser rpassword charset, true).
Proof using Hhost Hport Huser Hpassword Hcharset.
  intros Hrh Hrp Hru Hrpw Hn.
  unfold get_connection_parameters, getitem, get_or, has_key.
  rewrite Hhost, Hport, Hrh, Hrp. cbn [rbind]. rewrite Hn. cbn [rbind].
  rewrite Huser, Hpassword, Hcharset, Hru, Hrpw. reflexivity.
Qed.

(** Without [replica_host] the connection is not to a replica, whatever the
    other replica fields. *)
Lemma get_connection_parameters_no_replica_host n :
  connection_config self !! "replica_host" = None ->
  py_int (get_or (connection_config self) "replica_port" port) = Ok n ->
  get_connection_parameters self false
  = Ok (connection_parameters host n
          (get_or (connection_config self) "replica_user" user)
          (get_or (connection_config self) "replica_password" password)
          charset, false).
Proof using Hhost Hport Huser Hpassword Hcharset.
  intros Hrh Hn.
  unfold get_connection_parameters, getitem, has_key.
  rewrite Hhost, Hport. cbn [rbind]. rewrite Hn. cbn [rbind].
  rewrite Huser, Hpassword, Hcharset. cbn [rbind].
  unfold get_or at 1. rewrite Hrh. reflexivity.
Qed.

End ConnectionParameters.

(** The method reads nothing of [self] but the configuration. *)
Lemma get_connection_parameters_config self self' prioritize_primary :
  connection_config self' = connection_config self ->
  get_connection_parameters self' prioritize_primary
  = get_connection_parameters self prioritize_primary.
Proof. intros H. unfold get_connection_parameters. rewrite H. reflexivity. Qed.

(** C3. For a configuration that carries the primary fields and the
    character set: with the four replica fields set,
    [get_connection_parameters] without priority to the primary returns the
    dictionary of the replica host, port, user and password, with the
    character set, and says the connection is to a replica; with priority to
    the primary it returns the dictionary of the primary host, port, user
    and password and says it is not, whatever the replica fields. The port
    is the integer of the configured one. The result is a function of the
    configuration alone: two objects with the same configuration get the
    same answer, and the method is no state transformer. *)
Theorem get_connection_parameters_selects
    (self : state) (host port user password charset : value) :
  connection_config self !! "host" = Some host ->
  connection_config self !! "port" = Some port ->
  connection_config self !! "user" = Some user ->
  connection_config self !! "password" = Some password ->
  connection_config self !! "charset" = Some charset ->
  (forall rhost rport ruser rpassword n,
      connection_config self !! "replica_host" = Some rhost ->
      connection_config self !! "replica_port" = Some rport ->
      connection_config self !! "replica_user" = Some ruser ->
      connection_config self !! "replica_password" = Some rpassword ->
      py_int rport = Ok n ->
      get_connection_parameters self false
      = Ok (<["host" := rhost]> (<["port" := VInt n]> (<["user" := ruser]>
              (<["password" := rpassword]> (<["charset" := charset]> ∅)))),
            true))
  /\ (forall n,
        py_int port = Ok n ->
        get_connection_parameters self true
        = Ok (<["host" := host]> (<["port" := VInt n]> (<["user" := user]>
                (<["password" := password]> (<["charset" := charset]> ∅)))),
              false))
  /\ (forall self' prioritize_primary,
        connection_config self' = connection_config self ->
        get_connection_parameters self' prioritize_primary
        = get_connection_parameters self prioritize_primary).
Proof.
  intros Hh Hp Hu Hpw Hc. split; [|split].
  - intros.
    erewrite get_connection_parameters_replica by eassumption. reflexivity.
  - intros.
    erewrite get_connection_parameters_primary by eassumption. reflexivity.
  - intros. now apply get_connection_parameters_config.
Qed.

(** ** The safe SQL value of numeric columns *)

Lemma decimal_format_value max_num column_name :
  concat_value column_name (decimal_format (Some max_num))
  = if String.eqb max_num "" then column_reference column_name
    else clamp_expression max_num column_name.
Proof.
  unfold decimal_format, bound_given, clamp_expression, column_reference.
  destruct (String.eqb max_num ""); cbn [concat_value fold_right].
  - reflexivity.
  - now rewrite !append_assoc, append_empty_r.
Qed.

Lemma integer_format_value max_num column_name :
  concat_value column_name (integer_format max_num)
  = column_reference column_name.
Proof.
  unfold integer_format, decimal_format, column_reference.
  destruct (bound_given max_num); reflexivity.
Qed.

Lemma clamp_expression_head max_num column_name :
  exists tail, clamp_expression max_num column_name = String "G" tail.
Proof. eexists. reflexivity. Qed.

(** The branch taken for a column whose data type is one of the ten numeric
    ones. *)
Lemma safe_sql_case_numbers max_num date_type column_name data_type column_type :
  In data_type (fractional_types ++ integer_types) ->
  safe_sql_case max_num date_type column_name data_type column_type
  = if sql_in column_type ["tinyint(1)"] then
      [ Lit "CASE WHEN `"; ColumnName; Lit "` is null THEN null WHEN `";
        ColumnName; Lit "` = 0 THEN 0 ELSE 1 END" ]
    else if sql_in column_type
              ["geometry"; "point"; "linestring"; "polygon"; "multipoint";
               "multilinestring"; "multipolygon"; "geometrycollection"] then
      [ Lit "ST_AsGeoJSON("; ColumnName; Lit ")" ]
    else if sql_eq column_name "raw_data_hash" then
      [ Lit "REPLACE(REPLACE(hex(`"; ColumnName; Lit "`)";
        Lit (", '" +:+ LF +:+ "', ' '), '" +:+ CR +:+ "', '')") ]
    else if bool_decide (In data_type fractional_types)
    then decimal_format max_num
    else integer_format max_num.
Proof.
  intros Hin. unfold safe_sql_case.
  cbn in Hin.
  repeat (destruct Hin as [<-|Hin]; [reflexivity|]).
  destruct Hin.
Qed.

(** C4, as the code has it. With a bound [B] configured (a text that is not
    empty and stays inside its literal): a column of data type double,
    numeric, float, decimal or real that no earlier rule of the [CASE]
    expression takes (its full type is not tinyint(1) nor a geometry type,
    its name is not raw_data_hash) gets the expression that clamps it into
    [-B, B] and rounds it to the number of characters after the decimal
    point of [B], 0 if there is none; a column of data type smallint,
    integer, bigint, mediumint or int that no earlier rule takes gets the
    bare column reference; and a column of these integer types never gets a
    clamping expression. *)
Theorem safe_sql_value_numbers
    (B date_type column_name data_type column_type : string) :
  B <> "" ->
  literal_safe B = true ->
  literal_safe date_type = true ->
  (taken_before_numbers column_name column_type = false ->
   In data_type fractional_types ->
   safe_sql_value (Some B) date_type column_name data_type column_type
   = Some (clamp_expression B column_name))
  /\ (taken_before_numbers column_name column_type = false ->
      In data_type integer_types ->
      safe_sql_value (Some B) date_type column_name data_type column_type
      = Some (column_reference column_name))
  /\ (In data_type integer_types ->
      forall B' column_name',
        safe_sql_value (Some B) date_type column_name data_type column_type
        <> Some (clamp_expression B' column_name')).
Proof.
  intros HB Hsafe Hdate.
  assert (Hgiven : bound_given (Some B) = Some B).
  { unfold bound_given. destruct (String.eqb_spec B ""); congruence. }
  assert (Hval : forall (Hin : In data_type (fractional_types ++ integer_types)),
             safe_sql_value (Some B) date_type column_name data_type column_type
             = Some (concat_value column_name
                       (safe_sql_case (Some B) date_type column_name data_type
                          column_type))).
  { intros _. unfold safe_sql_value. rewrite Hgiven. cbn [default from_option id].
    now rewrite Hsafe, Hdate. }
  assert (HBne : String.eqb B "" = false) by now apply String.eqb_neq.
  split; [|split].
  - intros Htaken Hin.
    rewrite Hval by (apply in_or_app; now left).
    rewrite safe_sql_case_numbers by (apply in_or_app; now left).
    unfold taken_before_numbers in Htaken.
    apply orb_false_elim in Htaken as [Htaken Hraw].
    apply orb_false_elim in Htaken as [Htiny Hgeo].
    rewrite Htiny, Hgeo, Hraw.
    rewrite (bool_decide_eq_true_2 _ Hin).
    now rewrite decimal_format_value, HBne.
  - intros Htaken Hin.
    rewrite Hval by (apply in_or_app; now right).
    rewrite safe_sql_case_numbers by (apply in_or_app; now right).
    unfold taken_before_numbers in Htaken.
    apply orb_false_elim in Htaken as [Htaken Hraw].
    apply orb_false_elim in Htaken as [Htiny Hgeo].
    rewrite Htiny, Hgeo, Hraw.
    assert (Hnot : bool_decide (In data_type fractional_types) = false).
    { apply bool_decide_eq_false_2. cbn in Hin |- *.
      intros Hf. intuition congruence. }
    now rewrite Hnot, integer_format_value.
  - intros Hin B' column_name'.
    rewrite Hval by (apply in_or_app; now right).
    rewrite safe_sql_case_numbers by (apply in_or_app; now right).
    assert (Hnot : bool_decide (In data_type fractional_types) = false).
    { apply bool_decide_eq_false_2. cbn in Hin |- *.
      intros Hf. intuition congruence. }
    rewrite Hnot.
    destruct (clamp_expression_head B' column_name') as [tail ->].
    destruct (sql_in column_type ["tinyint(1)"]); [discriminate|].
    destruct (sql_in column_type _); [discriminate|].
    destruct (sql_eq column_name "raw_data_hash"); [discriminate|].
    rewrite integer_format_value. discriminate.
Qed.

(** ** Stepping through methods *)

Ltac mfields :=
  cbn [conn conn_unbuffered is_replica connect_answers execute_answers
       close_answers next_handle calls log connection_config target_quote
       set_conn set_conn_unbuffered set_is_replica set_connect_answers
       set_execute_answers set_close_answers set_next_handle add_call add_log
       fst snd].

Ltac mstep :=
  unfold bind, ret, raise, lift, logger, modify, get_state, try_except, deref,
    no_answer, cursor_execute, connection_close, pymysql_connect, rows_of,
    first_row;
  mfields.

Lemma state_eq (s1 s2 : state) :
  connection_config s1 = connection_config s2 ->
  target_quote s1 = target_quote s2 ->
  conn s1 = conn s2 ->
  conn_unbuffered s1 = conn_unbuffered s2 ->
  is_replica s1 = is_replica s2 ->
  connect_answers s1 = connect_answers s2 ->
  execute_answers s1 = execute_answers s2 ->
  close_answers s1 = close_answers s2 ->
  next_handle s1 = next_handle s2 ->
  calls s1 = calls s2 ->
  log s1 = log s2 ->
  s1 = s2.
Proof. destruct s1, s2. cbn. intros. now subst. Qed.

Lemma outcome_eq {A} (o o' : outcome A) (s s' : state) :
  o = o' -> s = s' -> (o, s) = (o', s').
Proof. now intros -> ->. Qed.

Ltac at_state :=
  unfold attempted, after_statements, after_session, after_open, after_close,
    retried, evolve;
  mfields.

Ltac state_eq :=
  apply state_eq; at_state;
  rewrite <- ?app_assoc, ?app_nil_r; try reflexivity; try congruence.

Ltac mdone := first [reflexivity | f_equal; state_eq].

(** ** One attempt of [query] *)

Section QueryAttempt.

Variables (fuel : nat) (sql : string) (conn_ : option handle)
          (params : option (list dbval)) (return_as_cursor : bool)
          (n_retry : Z) (st : state) (c : handle)
          (es : list execute_answer).
Hypothesis Htarget : target conn_ st = Some c.

Lemma query_returns rowcount rows :
  execute_answers st = ExecOk rowcount rows :: es ->
  query (S fuel) sql conn_ params return_as_cursor n_retry st
  = (Ret (if return_as_cursor then Cursor c
          else if (0 <? rowcount)%Z then Rows rows else Rows []),
     attempted c sql params es st).
Proof using Htarget.
  intros He. unfold target in Htarget.
  cbn [query]. mstep. rewrite Htarget. mstep. rewrite He. mstep.
  destruct return_as_cursor; [|destruct (0 <? rowcount)%Z]; mdone.
Qed.

(** A failure that is no connectivity failure goes to the caller as it is. *)
Lemma query_raises e :
  execute_answers st = ExecRaise e :: es ->
  is_connectivity e = false ->
  query (S fuel) sql conn_ params return_as_cursor n_retry st
  = (Raise e, attempted c sql params es st).
Proof using Htarget.
  intros He Hc. unfold target in Htarget.
  cbn [query]. mstep. rewrite Htarget. mstep. rewrite He. mstep. rewrite Hc.
  mdone.
Qed.

(** A connectivity failure with no retry left goes to the caller; nothing
    but the log record is added. *)
Lemma query_gives_up e :
  execute_answers st = ExecRaise e :: es ->
  is_connectivity e = true ->
  (n_retry <= 0)%Z ->
  query (S fuel) sql conn_ params return_as_cursor n_retry st
  = (Raise e,
     add_log (LogQueryException n_retry e) (attempted c sql params es st)).
Proof using Htarget.
  intros He Hc Hn. unfold target in Htarget.
  cbn [query]. mstep. rewrite Htarget. mstep. rewrite He. mstep. rewrite Hc.
  mstep. destruct (Z.ltb_spec 0 n_retry); [lia|]. mdone.
Qed.

(** A connectivity failure with a retry left: close, open, and the same
    statement again with no session argument and one retry less. *)
Lemma query_retries e :
  execute_answers st = ExecRaise e :: es ->
  is_connectivity e = true ->
  (0 < n_retry)%Z ->
  query (S fuel) sql conn_ params return_as_cursor n_retry st
  = (close_connections true ;;
     open_connections fuel ;;
     logger (LogInfo "Retrying to run a query.") ;;
     query fuel sql None params return_as_cursor (n_retry - 1)%Z)%method
      (add_log (LogInfo "Reopening the connections.")
         (add_log (LogQueryException n_retry e)
            (attempted c sql params es st))).
Proof using Htarget.
  intros He Hc Hn. unfold target in Htarget.
  cbn [query]. mstep. rewrite Htarget. mstep. rewrite He. mstep. rewrite Hc.
  mstep. destruct (Z.ltb_spec 0 n_retry); [|lia]. mdone.
Qed.

End QueryAttempt.

(** ** Session statements *)

Lemma session_sqls_loop_plan fuel plan :
  forall warnings st c cu ea,
    conn st = Some c ->
    conn_unbuffered st = Some cu ->
    execute_answers st = plan_answers plan ++ ea ->
    session_sqls_loop (query_ (S fuel)) (map fst plan) warnings st
    = (Ret (warnings ++ plan_warnings plan), after_statements c cu plan ea st).
Proof.
  induction plan as [|[sql o] plan IH]; intros warnings st c cu ea Hc Hcu He.
  - cbn in *. rewrite app_nil_r. unfold ret, after_statements. subst ea. mdone.
  - cbn [map fst session_sqls_loop].
    change (plan_answers ((sql, o) :: plan))
      with (outcome_answers o ++ plan_answers plan) in He.
    rewrite <- app_assoc in He.
    unfold bind at 1. unfold try_except. unfold bind at 1. unfold query_ at 1.
    destruct o as [[rc1 rows1] [rc2 rows2]| |[rc1 rows1]];
      cbn [outcome_answers app fst snd] in He.
    + erewrite query_returns; [|unfold target; eassumption|eassumption].
      unfold bind at 1, get_state. unfold bind at 1. unfold query_ at 1.
      erewrite query_returns;
        [| unfold target; at_state; rewrite Hcu; reflexivity
         | at_state; reflexivity].
      unfold ret.
      erewrite IH; [| at_state; eassumption .. | at_state; reflexivity].
      apply outcome_eq.
      * unfold plan_warnings. cbn. reflexivity.
      * unfold after_statements. state_eq.
    + erewrite query_raises;
        [|unfold target; eassumption|eassumption|reflexivity].
      cbn [is_internal_error]. unfold ret.
      erewrite IH; [| at_state; eassumption .. | at_state; reflexivity].
      apply outcome_eq.
      * unfold plan_warnings. cbn. now rewrite <- app_assoc.
      * unfold after_statements. state_eq.
    + erewrite query_returns; [|unfold target; eassumption|eassumption].
      unfold bind at 1, get_state. unfold bind at 1. unfold query_ at 1.
      erewrite query_raises;
        [| unfold target; at_state; rewrite Hcu; reflexivity
         | at_state; reflexivity | reflexivity].
      cbn [is_internal_error]. unfold ret.
      erewrite IH; [| at_state; eassumption .. | at_state; reflexivity].
      apply outcome_eq.
      * unfold plan_warnings. cbn. now rewrite <- app_assoc.
      * unfold after_statements. state_eq.
Qed.

Lemma log_warnings_logs warnings st :
  log_warnings warnings st
  = (Ret tt,
     evolve st (conn st) (conn_unbuffered st) (is_replica st)
       (connect_answers st) (execute_answers st) (close_answers st)
       (next_handle st) [] (map LogWarning warnings)).
Proof.
  revert st. induction warnings as [|w ws IH]; intros st.
  - cbn. unfold ret. mdone.
  - cbn [log_warnings]. mstep. rewrite IH. mdone.
Qed.

Lemma run_session_sqls_plan fuel plan st c cu ea :
  configured_session_sqls st = map fst plan ->
  conn st = Some c ->
  conn_unbuffered st = Some cu ->
  execute_answers st = plan_answers plan ++ ea ->
  run_session_sqls (S fuel) st = (Ret tt, after_session c cu plan ea st).
Proof.
  intros Hcfg Hc Hcu He.
  unfold run_session_sqls, run_session_sqls_with.
  unfold bind at 1, get_state. unfold configured_session_sqls in Hcfg.
  assert (Hloop :
    (match get_or (connection_config st) "session_sqls" (VList DEFAULT_SESSION_SQLS) with
     | VList ((_ :: _) as sqls) => session_sqls_loop (query_ (S fuel)) sqls []
     | _ => ret []
     end) st = (Ret (plan_warnings plan), after_statements c cu plan ea st)).
  { destruct (get_or _ _ _) as [| | | |l]; cbn [session_statements] in Hcfg;
      try (destruct plan; [|discriminate]; cbn in He; subst ea; unfold ret; mdone).
    destruct l as [|s l].
    - destruct plan; [|discriminate]. cbn in He; subst ea; unfold ret; mdone.
    - rewrite Hcfg. erewrite session_sqls_loop_plan by eassumption. reflexivity. }
  unfold bind at 1. rewrite Hloop.
  unfold bind at 1, after_session.
  destruct (plan_warnings plan) as [|w ws] eqn:Hw.
  - cbn. unfold ret. mdone.
  - unfold logger, modify. rewrite log_warnings_logs. mdone.
Qed.

Lemma close_connections_both silent st c cu ca :
  conn st = Some c ->
  conn_unbuffered st = Some cu ->
  close_answers st = None :: None :: ca ->
  close_connections silent st = (Ret tt, after_close c cu ca st).
Proof.
  intros Hc Hcu Hca. unfold close_connections. mstep.
  rewrite Hc. mstep. rewrite Hca. mstep. rewrite Hcu. mstep. mdone.
Qed.

(** When closing the buffered session raises, the streaming session is not
    closed; the failure is swallowed, and logged unless [silent]. *)
Lemma close_connections_first_fails silent st c e ca :
  conn st = Some c ->
  close_answers st = Some e :: ca ->
  close_connections silent st
  = (Ret tt,
     evolve st (conn st) (conn_unbuffered st) (is_replica st)
       (connect_answers st) (execute_answers st) ca (next_handle st)
       [Close c]
       (if silent then []
        else [LogException e;
              LogInfo "Connections seem to be already closed."])).
Proof.
  intros Hc Hca. unfold close_connections. mstep.
  rewrite Hc. mstep. rewrite Hca. mstep.
  destruct silent; apply outcome_eq; try reflexivity; state_eq.
Qed.

(** Before any connection was opened there is nothing to close: the
    attribute error is swallowed and no call is made. *)
Lemma close_connections_unopened st :
  conn st = None ->
  close_connections true st = (Ret tt, st).
Proof.
  intros Hc. unfold close_connections. mstep. rewrite Hc. reflexivity.
Qed.

Lemma run_session_sqls_with_query fuel :
  run_session_sqls_with (query_ fuel) = run_session_sqls fuel.
Proof. reflexivity. Qed.

Lemma open_connections_plan fuel plan st conn_params replica ka ea :
  get_connection_parameters st false = Ok (conn_params, replica) ->
  connect_answers st = None :: None :: ka ->
  configured_session_sqls st = map fst plan ->
  execute_answers st = plan_answers plan ++ ea ->
  open_connections (S fuel) st
  = (Ret tt, after_open conn_params replica plan ka ea st).
Proof.
  intros Hp Hka Hcfg He.
  unfold open_connections, open_connections_with.
  unfold bind at 1, get_state. rewrite Hp. unfold lift. unfold bind at 1, ret.
  unfold bind at 1, modify. unfold bind at 1, pymysql_connect. mfields.
  rewrite Hka. unfold bind at 1. unfold bind at 1. mfields.
  unfold bind at 1.
  rewrite run_session_sqls_with_query.
  erewrite run_session_sqls_plan with (plan := plan);
    [| exact Hcfg | mfields; reflexivity .. | mfields; exact He ].
  mdone.
Qed.

(** ** Startup and reconnection *)

Lemma plan_calls_buffered c cu plan sql o :
  In (sql, o) plan -> In (Execute c sql None) (plan_calls c cu plan).
Proof.
  intros Hin. unfold plan_calls. apply in_flat_map. exists (sql, o).
  split; [exact Hin|]. cbn. destruct o; cbn; auto.
Qed.

Lemma plan_calls_streaming c cu plan sql o :
  In (sql, o) plan -> o <> RejectedBuffered ->
  In (Execute cu sql None) (plan_calls c cu plan).
Proof.
  intros Hin Ho. unfold plan_calls. apply in_flat_map. exists (sql, o).
  split; [exact Hin|]. cbn. destruct o; cbn; auto.
Qed.

Lemma plan_warnings_rejected plan sql o :
  In (sql, o) plan -> rejected o = true ->
  In (LogWarning ("Could not set session variable: " +:+ sql))
     (warnings_log (plan_warnings plan)).
Proof.
  intros Hin Hr.
  assert (Hw : In ("Could not set session variable: " +:+ sql) (plan_warnings plan)).
  { unfold plan_warnings. apply in_map_iff. exists (sql, o). split; [reflexivity|].
    apply list_elem_of_In. apply list_elem_of_filter. split; [exact Hr|].
    now apply list_elem_of_In. }
  destruct (plan_warnings plan) as [|w ws]; [destruct Hw|].
  cbn [warnings_log]. right. now apply in_map.
Qed.

Lemma plan_calls_no_close c cu plan :
  List.filter is_close (plan_calls c cu plan) = [].
Proof.
  induction plan as [|[sql o] plan IH]; [reflexivity|].
  unfold plan_calls. cbn [flat_map]. rewrite List.filter_app. fold (plan_calls c cu plan).
  rewrite IH. destruct o; reflexivity.
Qed.

Lemma plan_calls_no_connect c cu plan :
  List.filter is_connect (plan_calls c cu plan) = [].
Proof.
  induction plan as [|[sql o] plan IH]; [reflexivity|].
  unfold plan_calls. cbn [flat_map]. rewrite List.filter_app. fold (plan_calls c cu plan).
  rewrite IH. destruct o; reflexivity.
Qed.

Section Reconnect.

Variables (fuel : nat) (sql : string) (conn_ : option handle)
          (params : option (list dbval)) (return_as_cursor : bool)
          (n_retry : Z) (st : state) (t c cu : handle) (e : exn)
          (plan : list (string * session_outcome))
          (conn_params : gmap string value) (replica : bool)
          (ka ca : list (option exn)) (ea : list execute_answer).
Hypothesis Htarget : target conn_ st = Some t.
Hypothesis Hconn : conn st = Some c.
Hypothesis Hunbuffered : conn_unbuffered st = Some cu.
Hypothesis Hfails : execute_answers st = ExecRaise e :: plan_answers plan ++ ea.
Hypothesis Hconnectivity : is_connectivity e = true.
Hypothesis Hclose : close_answers st = None :: None :: ca.
Hypothesis Hconnect : connect_answers st = None :: None :: ka.
Hypothesis Hparams : get_connection_parameters st false = Ok (conn_params, replica).
Hypothesis Hsession : configured_session_sqls st = map fst plan.
Hypothesis Hretry : (0 < n_retry)%Z.

Lemma query_reconnects :
  query (S (S fuel)) sql conn_ params return_as_cursor n_retry st
  = query (S fuel) sql None params return_as_cursor (n_retry - 1)%Z
      (retried c cu conn_params replica plan ka ea ca t sql params n_retry e st).
Proof using All.
  erewrite query_retries by eassumption.
  unfold bind at 1.
  erewrite close_connections_both;
    [| at_state; eassumption | at_state; eassumption | at_state; eassumption ].
  unfold bind at 1.
  erewrite open_connections_plan with (plan := plan);
    [| erewrite get_connection_parameters_config; [exact Hparams | reflexivity]
     | at_state; eassumption
     | unfold configured_session_sqls in *; at_state; eassumption
     | at_state; reflexivity ].
  unfold bind at 1, logger, modify.
  f_equal. unfold reconnect_calls, open_calls. state_eq.
Qed.

End Reconnect.

(** ** The calls made are a record: methods only add to it *)

Lemma grows_refl st : grows st st.
Proof. exists []. now rewrite app_nil_r. Qed.

Lemma grows_trans st1 st2 st3 : grows st1 st2 -> grows st2 st3 -> grows st1 st3.
Proof.
  intros [l1 H1] [l2 H2]. exists (l1 ++ l2). now rewrite H2, H1, app_assoc.
Qed.

Lemma Grows_ret {A} (a : A) : Grows (ret a).
Proof. intros st. apply grows_refl. Qed.

Lemma Grows_raise {A} e : Grows (@raise A e).
Proof. intros st. apply grows_refl. Qed.

Lemma Grows_no_answer {A} : Grows (@no_answer A).
Proof. intros st. apply grows_refl. Qed.

Lemma Grows_lift {A} (r : result A) : Grows (lift r).
Proof. destruct r; [apply Grows_ret|apply Grows_raise]. Qed.

Lemma Grows_get_state : Grows get_state.
Proof. intros st. apply grows_refl. Qed.

Lemma Grows_modify f :
  (forall st, calls (f st) = calls st) -> Grows (modify f).
Proof. intros Hf st. exists []. cbn. now rewrite Hf, app_nil_r. Qed.

Lemma Grows_logger r : Grows (logger r).
Proof. apply Grows_modify. reflexivity. Qed.

Lemma Grows_bind {A B} (m : M A) (k : A -> M B) :
  Grows m -> (forall a, Grows (k a)) -> Grows (bind m k).
Proof.
  intros Hm Hk st. unfold bind. specialize (Hm st).
  destruct (m st) as [[a|e|] st']; cbn [snd] in *; [|exact Hm..].
  eapply grows_trans; [exact Hm|apply Hk].
Qed.

Lemma Grows_try_except {A} (m : M A) handles handler :
  Grows m -> (forall e, Grows (handler e)) -> Grows (try_except m handles handler).
Proof.
  intros Hm Hh st. unfold try_except. specialize (Hm st).
  destruct (m st) as [[a|e|] st']; cbn [snd] in *; [exact Hm| |exact Hm].
  destruct (handles e); [|exact Hm].
  eapply grows_trans; [exact Hm|apply Hh].
Qed.

Lemma Grows_pymysql_connect params cc : Grows (pymysql_connect params cc).
Proof.
  intros st. unfold pymysql_connect.
  destruct (connect_answers st) as [|[e|] l]; cbn; [apply grows_refl|..];
    eexists; reflexivity.
Qed.

Lemma Grows_cursor_execute c sql params : Grows (cursor_execute c sql params).
Proof.
  intros st. unfold cursor_execute.
  destruct (execute_answers st) as [|[rc rows|e] l]; cbn; [apply grows_refl|..];
    eexists; reflexivity.
Qed.

Lemma Grows_connection_close c : Grows (connection_close c).
Proof.
  intros st. unfold connection_close.
  destruct (close_answers st) as [|[e|] l]; cbn; [apply grows_refl|..];
    eexists; reflexivity.
Qed.

Lemma Grows_deref c : Grows (deref c).
Proof. destruct c; [apply Grows_ret|apply Grows_raise]. Qed.

Lemma Grows_close_connections silent : Grows (close_connections silent).
Proof.
  unfold close_connections. apply Grows_try_except.
  - repeat (apply Grows_bind; [|intros ?]);
      auto using Grows_get_state, Grows_deref, Grows_connection_close.
  - intros e. destruct silent; [apply Grows_ret|].
    apply Grows_bind; [|intros ?]; apply Grows_logger.
Qed.

Lemma Grows_log_warnings warnings : Grows (log_warnings warnings).
Proof.
  induction warnings as [|w ws IH]; [apply Grows_ret|].
  cbn [log_warnings]. apply Grows_bind; [apply Grows_logger|intros _; exact IH].
Qed.

Section GrowsWithQuery.

Variable self_query : query_method.
Hypothesis Hquery : forall sql conn_, Grows (self_query sql conn_).

Lemma Grows_session_sqls_loop session_sqls :
  forall warnings, Grows (session_sqls_loop self_query session_sqls warnings).
Proof using Hquery.
  induction session_sqls as [|sql rest IH]; intros warnings;
    [apply Grows_ret|].
  cbn [session_sqls_loop]. apply Grows_bind; [|intros ?; apply IH].
  apply Grows_try_except; [|intros ?; apply Grows_ret].
  apply Grows_bind; [apply Hquery|intros _].
  apply Grows_bind; [apply Grows_get_state|intros self].
  apply Grows_bind; [apply Hquery|intros _; apply Grows_ret].
Qed.

Lemma Grows_run_session_sqls_with : Grows (run_session_sqls_with self_query).
Proof using Hquery.
  unfold run_session_sqls_with.
  apply Grows_bind; [apply Grows_get_state|intros self].
  apply Grows_bind.
  - destruct (get_or _ _ _) as [| | | |[|s l]];
      first [apply Grows_ret | apply Grows_session_sqls_loop].
  - intros warnings. apply Grows_bind; [|intros _; apply Grows_log_warnings].
    destruct warnings; [apply Grows_ret|apply Grows_logger].
Qed.

Lemma Grows_open_connections_with : Grows (open_connections_with self_query).
Proof using Hquery.
  unfold open_connections_with.
  apply Grows_bind; [apply Grows_get_state|intros self].
  apply Grows_bind; [apply Grows_lift|intros [conn_params replica]].
  apply Grows_bind; [now apply Grows_modify|intros _].
  apply Grows_bind; [apply Grows_pymysql_connect|intros c].
  apply Grows_bind; [now apply Grows_modify|intros _].
  apply Grows_bind; [apply Grows_pymysql_connect|intros cu].
  apply Grows_bind; [now apply Grows_modify|intros _].
  apply Grows_run_session_sqls_with.
Qed.

End GrowsWithQuery.

Lemma Grows_query fuel :
  forall sql conn_ params return_as_cursor n_retry,
    Grows (query fuel sql conn_ params return_as_cursor n_retry).
Proof.
  induction fuel as [|fuel IH]; intros sql conn_ params rac n;
    [apply Grows_no_answer|].
  cbn [query].
  apply Grows_bind; [apply Grows_logger|intros _].
  apply Grows_bind; [apply Grows_get_state|intros self].
  apply Grows_try_except.
  - apply Grows_bind; [apply Grows_deref|intros c].
    apply Grows_bind; [apply Grows_cursor_execute|intros [rc rows]].
    destruct rac; [|destruct (0 <? rc)%Z]; apply Grows_ret.
  - intros exc. apply Grows_bind; [apply Grows_logger|intros _].
    destruct (0 <? n)%Z; [|apply Grows_raise].
    apply Grows_bind; [apply Grows_logger|intros _].
    apply Grows_bind; [apply Grows_close_connections|intros _].
    apply Grows_bind; [apply Grows_open_connections_with; intros; apply IH|intros _].
    apply Grows_bind; [apply Grows_logger|intros _].
    apply IH.
Qed.

(** Once the client answers, the statement is on record as executed on the
    session the call aimed at, before anything else the call does. *)
Lemma query_first_call fuel sql conn_ params return_as_cursor n_retry st c a es :
  target conn_ st = Some c ->
  execute_answers st = a :: es ->
  exists more,
    calls (snd (query (S fuel) sql conn_ params return_as_cursor n_retry st))
    = calls st ++ Execute c sql params :: more.
Proof.
  intros Ht He. destruct a as [rc rows|e].
  - erewrite query_returns by eassumption. exists []. reflexivity.
  - destruct (is_connectivity e) eqn:Hc.
    + destruct (Z.ltb_spec 0 n_retry) as [Hn|Hn].
      * erewrite query_retries by eassumption.
        match goal with |- context [snd (?m ?s)] =>
          assert (Hg : Grows m) end.
        { apply Grows_bind; [apply Grows_close_connections|intros _].
          apply Grows_bind;
            [apply Grows_open_connections_with; intros; apply Grows_query|intros _].
          apply Grows_bind; [apply Grows_logger|intros _]. apply Grows_query. }
        match goal with |- context [snd (?m ?s)] =>
          destruct (Hg s) as [more Hmore] end.
        exists more. rewrite Hmore. at_state. now rewrite <- app_assoc.
      * erewrite query_gives_up by eassumption. exists []. reflexivity.
    + erewrite query_raises by eassumption. exists []. reflexivity.
Qed.

(** C9. Startup: both sessions open and every answer of the client to a
    session statement is an acceptance or a rejection ([InternalError]).
    Then [open_connections] returns normally; every configured statement,
    also one that follows a rejected one, is executed on the buffered
    session, and on the streaming session too unless the buffered session
    rejected that very statement; and each rejected statement is in the log
    as a warning. *)
Theorem open_connections_survives_rejections
    fuel plan st conn_params replica ka ea :
  get_connection_parameters st false = Ok (conn_params, replica) ->
  connect_answers st = None :: None :: ka ->
  configured_session_sqls st = map fst plan ->
  execute_answers st = plan_answers plan ++ ea ->
  let h := next_handle st in
  let st' := snd (open_connections (S fuel) st) in
  fst (open_connections (S fuel) st) = Ret tt
  /\ calls st' = calls st ++ open_calls conn_params h plan
  /\ log st' = log st ++ plan_log plan ++ warnings_log (plan_warnings plan)
  /\ (forall sql o,
        In (sql, o) plan ->
        In (Execute h sql None) (calls st')
        /\ (o <> RejectedBuffered -> In (Execute (S h) sql None) (calls st'))
        /\ (rejected o = true ->
            In (LogWarning ("Could not set session variable: " +:+ sql))
               (log st'))).
Proof.
  intros Hp Hka Hcfg He h st'. subst st'.
  erewrite open_connections_plan by eassumption.
  cbn [fst snd]. at_state. repeat split.
  - apply in_or_app. right. unfold open_calls. apply in_or_app. right.
    eapply plan_calls_buffered; eassumption.
  - intros Ho. apply in_or_app. right. unfold open_calls. apply in_or_app. right.
    eapply plan_calls_streaming; eassumption.
  - intros Hr. apply in_or_app. right. apply in_or_app. right.
    eapply plan_warnings_rejected; eassumption.
Qed.

(** [close_connections] on two open sessions, whatever the client answers
    to the closes: the calls are those of [closes], the method returns, and
    when silent it logs nothing. *)
Lemma close_connections_closes st c cu answers close_calls ca :
  conn st = Some c ->
  conn_unbuffered st = Some cu ->
  closes c cu answers close_calls ->
  close_answers st = answers ++ ca ->
  close_connections true st
  = (Ret tt,
     evolve st (conn st) (conn_unbuffered st) (is_replica st)
       (connect_answers st) (execute_answers st) ca (next_handle st)
       close_calls []).
Proof.
  intros Hc Hcu Hcloses Hca. destruct Hcloses; cbn [app] in Hca.
  - erewrite close_connections_both by eassumption. reflexivity.
  - erewrite close_connections_first_fails by eassumption. reflexivity.
  - unfold close_connections. mstep.
    rewrite Hc. mstep. rewrite Hca. mstep. rewrite Hcu. mstep. mdone.
Qed.

Section ReconnectAnyClose.

Variables (fuel : nat) (sql : string) (conn_ : option handle)
          (params : option (list dbval)) (return_as_cursor : bool)
          (n_retry : Z) (st : state) (t c cu : handle) (e : exn)
          (plan : list (string * session_outcome))
          (conn_params : gmap string value) (replica : bool)
          (answers : list (option exn)) (close_calls : list call)
          (ka ca : list (option exn)) (ea : list execute_answer).
Hypothesis Htarget : target conn_ st = Some t.
Hypothesis Hconn : conn st = Some c.
Hypothesis Hunbuffered : conn_unbuffered st = Some cu.
Hypothesis Hfails : execute_answers st = ExecRaise e :: plan_answers plan ++ ea.
Hypothesis Hconnectivity : is_connectivity e = true.
Hypothesis Hcloses : closes c cu answers close_calls.
Hypothesis Hclose : close_answers st = answers ++ ca.
Hypothesis Hconnect : connect_answers st = None :: None :: ka.
Hypothesis Hparams : get_connection_parameters st false = Ok (conn_params, replica).
Hypothesis Hsession : configured_session_sqls st = map fst plan.
Hypothesis Hretry : (0 < n_retry)%Z.

(** The reconnect of [query], whatever the client answers to the closes. *)
Lemma query_reconnects_closes :
  query (S (S fuel)) sql conn_ params return_as_cursor n_retry st
  = query (S fuel) sql None params return_as_cursor (n_retry - 1)%Z
      (evolve st (Some (next_handle st)) (Some (S (next_handle st))) replica
         ka ea ca (S (S (next_handle st)))
         (Execute t sql params :: close_calls
          ++ open_calls conn_params (next_handle st) plan)
         ([LogInfo ("Running query: " +:+ sql); LogQueryException n_retry e;
           LogInfo "Reopening the connections."]
          ++ plan_log plan ++ warnings_log (plan_warnings plan)
          ++ [LogInfo "Retrying to run a query."])).
Proof using All.
  erewrite query_retries by eassumption.
  unfold bind at 1.
  erewrite close_connections_closes;
    [| at_state; eassumption | at_state; eassumption | eassumption
     | at_state; eassumption ].
  unfold bind at 1.
  erewrite open_connections_plan with (plan := plan);
    [| erewrite get_connection_parameters_config; [exact Hparams | reflexivity]
     | at_state; eassumption
     | unfold configured_session_sqls in *; at_state; eassumption
     | at_state; reflexivity ].
  unfold bind at 1, logger, modify.
  f_equal. unfold open_calls. state_eq.
Qed.

End ReconnectAnyClose.

Lemma closes_are_closes c cu answers close_calls :
  closes c cu answers close_calls ->
  List.filter is_close close_calls = close_calls
  /\ List.filter is_connect close_calls = [].
Proof. intros []; now split. Qed.

(** C2. A call of [query] whose first attempt meets a connectivity failure.
    With one retry left, and a client that opens the sessions, accepts or
    rejects the session statements and answers the second attempt with
    rows: [close_connections] is called once, silently, whatever the client
    answers to the closes; it closes the buffered session and, unless that
    close raised, the streaming session, and an error of either close is
    swallowed and leaves nothing in the log. Then both sessions are opened
    once, the statement is executed once more, on the new buffered session,
    and the call returns what that attempt gives. With no retry left the
    failure goes to the caller: the one attempt is the only call made,
    nothing is closed or opened. *)
Theorem query_retry_budget :
  (forall fuel sql conn_ params return_as_cursor st t c cu e plan
          conn_params replica answers close_calls ka ca rowcount rows ea,
      target conn_ st = Some t ->
      conn st = Some c ->
      conn_unbuffered st = Some cu ->
      execute_answers st
      = ExecRaise e :: plan_answers plan ++ ExecOk rowcount rows :: ea ->
      is_connectivity e = true ->
      closes c cu answers close_calls ->
      close_answers st = answers ++ ca ->
      connect_answers st = None :: None :: ka ->
      get_connection_parameters st false = Ok (conn_params, replica) ->
      configured_session_sqls st = map fst plan ->
      let h := next_handle st in
      let new_calls :=
        Execute t sql params :: close_calls
        ++ [Connect conn_params DictCursor h; Connect conn_params SSCursor (S h)]
        ++ plan_calls h (S h) plan
        ++ [Execute h sql params] in
      let r := query (S (S fuel)) sql conn_ params return_as_cursor 1 st in
      fst r = Ret (if return_as_cursor then Cursor h
                   else if (0 <? rowcount)%Z then Rows rows else Rows [])
      /\ calls (snd r) = calls st ++ new_calls
      /\ List.filter is_close new_calls = close_calls
      /\ List.filter is_connect new_calls
         = [Connect conn_params DictCursor h; Connect conn_params SSCursor (S h)]
      /\ log (snd r)
         = log st
           ++ [LogInfo ("Running query: " +:+ sql); LogQueryException 1 e;
               LogInfo "Reopening the connections."]
           ++ plan_log plan ++ warnings_log (plan_warnings plan)
           ++ [LogInfo "Retrying to run a query.";
               LogInfo ("Running query: " +:+ sql)]
      /\ conn (snd r) = Some h
      /\ conn_unbuffered (snd r) = Some (S h)
      /\ close_answers (snd r) = ca)
  /\ (forall fuel sql conn_ params return_as_cursor st t e es,
        target conn_ st = Some t ->
        execute_answers st = ExecRaise e :: es ->
        is_connectivity e = true ->
        let r := query (S fuel) sql conn_ params return_as_cursor 0 st in
        fst r = Raise e
        /\ calls (snd r) = calls st ++ [Execute t sql params]
        /\ conn (snd r) = conn st
        /\ conn_unbuffered (snd r) = conn_unbuffered st
        /\ connect_answers (snd r) = connect_answers st
        /\ close_answers (snd r) = close_answers st).
Proof.
  split.
  - intros fuel sql conn_ params rac st t c cu e plan conn_params replica
      answers close_calls ka ca rowcount rows ea
      Ht Hc Hcu He Hconn Hcloses Hca Hka Hp Hs h new_calls r.
    destruct (closes_are_closes _ _ _ _ Hcloses) as [Hfc Hfk].
    assert (Heq : exists st',
               r = (Ret (if rac then Cursor h
                         else if (0 <? rowcount)%Z then Rows rows
                              else Rows []), st')
               /\ calls st' = calls st ++ new_calls
               /\ log st'
                  = log st
                    ++ [LogInfo ("Running query: " +:+ sql);
                        LogQueryException 1 e;
                        LogInfo "Reopening the connections."]
                    ++ plan_log plan ++ warnings_log (plan_warnings plan)
                    ++ [LogInfo "Retrying to run a query.";
                        LogInfo ("Running query: " +:+ sql)]
               /\ conn st' = Some h /\ conn_unbuffered st' = Some (S h)
               /\ close_answers st' = ca).
    { subst r.
      erewrite query_reconnects_closes by (eassumption || reflexivity).
      erewrite query_returns; [| unfold target; at_state; reflexivity
                               | at_state; reflexivity ].
      eexists. split; [reflexivity|]. subst new_calls h. at_state.
      unfold open_calls. rewrite <- ?app_assoc. cbn [app].
      rewrite <- ?app_assoc. repeat split. }
    destruct Heq as (st' & -> & Hcalls & Hlog & Hconn' & Hcu' & Hca').
    cbn [fst snd]. split; [reflexivity|]. split; [exact Hcalls|].
    split.
    { subst new_calls. cbn [List.filter is_close].
      rewrite !List.filter_app, Hfc, plan_calls_no_close.
      cbn. now rewrite app_nil_r. }
    split.
    { subst new_calls. cbn [List.filter is_connect].
      rewrite !List.filter_app, Hfk, plan_calls_no_connect. reflexivity. }
    repeat split; assumption.
  - intros fuel sql conn_ params rac st t e es Ht He Hconn r. subst r.
    erewrite query_gives_up by (eassumption || lia).
    cbn [fst snd]. at_state. repeat split.
Qed.

(** C10. A call of [query] that names its session ([t], a connection made
    earlier: the streaming one or one of the caller), meets a connectivity
    failure and has a retry left, with a client that closes and opens the
    sessions and accepts or rejects the session statements. The call then is
    the call without a session argument, with one retry less, in the state
    after the reconnect; there [self.conn] is the new buffered session, which
    is not [t]; and when the client answers that attempt, the statement is
    on record as executed on the new buffered session right after the
    reconnect. *)
Theorem query_retry_drops_session
    fuel sql t params return_as_cursor n_retry st c cu e plan
    conn_params replica ka ca answer ea :
  (t < next_handle st)%nat ->
  conn st = Some c ->
  conn_unbuffered st = Some cu ->
  execute_answers st = ExecRaise e :: plan_answers plan ++ answer :: ea ->
  is_connectivity e = true ->
  (0 < n_retry)%Z ->
  close_answers st = None :: None :: ca ->
  connect_answers st = None :: None :: ka ->
  get_connection_parameters st false = Ok (conn_params, replica) ->
  configured_session_sqls st = map fst plan ->
  let h := next_handle st in
  let st_retry :=
    retried c cu conn_params replica plan ka (answer :: ea) ca t sql params
      n_retry e st in
  query (S (S fuel)) sql (Some t) params return_as_cursor n_retry st
  = query (S fuel) sql None params return_as_cursor (n_retry - 1)%Z st_retry
  /\ conn st_retry = Some h
  /\ h <> t
  /\ exists more,
      calls (snd (query (S (S fuel)) sql (Some t) params return_as_cursor
                    n_retry st))
      = calls st
        ++ Execute t sql params :: reconnect_calls c cu conn_params h plan
        ++ Execute h sql params :: more.
Proof.
  intros Hlt Hc Hcu He Hconn Hn Hca Hka Hp Hs h st_retry.
  assert (Heq :
    query (S (S fuel)) sql (Some t) params return_as_cursor n_retry st
    = query (S fuel) sql None params return_as_cursor (n_retry - 1)%Z st_retry).
  { subst st_retry. eapply query_reconnects; (eassumption || reflexivity). }
  split; [exact Heq|]. split; [reflexivity|]. split; [subst h; lia|].
  rewrite Heq.
  destruct (query_first_call fuel sql None params return_as_cursor
              (n_retry - 1)%Z st_retry h answer ea) as [more Hmore];
    [reflexivity | reflexivity |].
  exists more. rewrite Hmore. subst st_retry h. at_state.
  now rewrite <- !app_assoc.
Qed.

(** ** Binlog coordinates *)

Lemma _get_binlog_coordinates_primary fuel st c rowcount rows es :
  is_replica st = false ->
  conn st = Some c ->
  execute_answers st = ExecOk rowcount rows :: es ->
  _get_binlog_coordinates (S fuel) st
  = (match (if (0 <? rowcount)%Z then rows else []) with
     | [] => Raise binlog_not_enabled
     | binlog_pos :: _ =>
         Ret (<["log_file" := get_or binlog_pos "File" DNone]>
                (<["log_pos" := get_or binlog_pos "Position" DNone]>
                   (<["version" := get_or binlog_pos "version" (DInt 1)]> ∅)))
     end,
     evolve st (conn st) (conn_unbuffered st) (is_replica st)
       (connect_answers st) es (close_answers st) (next_handle st)
       [Execute c "SHOW MASTER STATUS" None]
       [LogDebug "Connecting to primary to get binlog coordinates...";
        LogInfo "Running query: SHOW MASTER STATUS"]).
Proof.
  intros Hr Hc He. unfold _get_binlog_coordinates.
  unfold bind at 1, get_state. rewrite Hr.
  unfold bind at 1, logger, modify.
  unfold bind at 1. unfold query_.
  erewrite query_returns; [| unfold target; at_state; eassumption | at_state; eassumption].
  unfold bind at 1, rows_of, ret.
  destruct (0 <? rowcount)%Z; [destruct rows|]; unfold raise; apply outcome_eq; try reflexivity; state_eq.
Qed.

Lemma fetch_current_log_pos_binlog fuel st use_gtid :
  connection_config st !! "use_gtid" = Some use_gtid ->
  truthy use_gtid = false ->
  fetch_current_log_pos fuel st = _get_binlog_coordinates fuel st.
Proof.
  intros Hu Ht. unfold fetch_current_log_pos.
  unfold bind at 1, get_state. unfold getitem. rewrite Hu.
  unfold bind at 1, lift, ret. now rewrite Ht.
Qed.

(** C8. GTID mode off, connected to the primary. When the status statement
    is answered with a single row that has a file and a position and no
    version, [fetch_current_log_pos] returns that file and position with
    version 1; the scenario of the specification is the file binlog.000002
    at position 914. When the answer has no row, the call fails with the
    message that binary logging is not enabled. *)
Theorem fetch_current_log_pos_binlog_coordinates fuel st c use_gtid :
  connection_config st !! "use_gtid" = Some use_gtid ->
  truthy use_gtid = false ->
  is_replica st = false ->
  conn st = Some c ->
  (forall rowcount binlog_pos es file position,
      execute_answers st = ExecOk rowcount [binlog_pos] :: es ->
      (0 < rowcount)%Z ->
      binlog_pos !! "File" = Some file ->
      binlog_pos !! "Position" = Some position ->
      binlog_pos !! "version" = None ->
      let r := fetch_current_log_pos (S fuel) st in
      fst r = Ret (<["log_file" := file]>
                     (<["log_pos" := position]> (<["version" := DInt 1]> ∅)))
      /\ calls (snd r) = calls st ++ [Execute c "SHOW MASTER STATUS" None])
  /\ (forall rowcount rows es,
        execute_answers st = ExecOk rowcount rows :: es ->
        (rowcount <= 0)%Z \/ rows = [] ->
        fst (fetch_current_log_pos (S fuel) st) = Raise binlog_not_enabled).
Proof.
  intros Hu Ht Hr Hc. split.
  - intros rowcount binlog_pos es file position He Hrc Hf Hp Hv r. subst r.
    erewrite fetch_current_log_pos_binlog by eassumption.
    erewrite _get_binlog_coordinates_primary by eassumption.
    destruct (Z.ltb_spec 0 rowcount); [|lia].
    cbn [fst snd]. at_state. unfold get_or. rewrite Hf, Hp, Hv. now split.
  - intros rowcount rows es He Hempty.
    erewrite fetch_current_log_pos_binlog by eassumption.
    erewrite _get_binlog_coordinates_primary by eassumption.
    destruct Hempty as [Hrc| ->].
    + destruct (Z.ltb_spec 0 rowcount); [lia|]. reflexivity.
    + destruct (0 <? rowcount)%Z; reflexivity.
Qed.

(** ** The auxiliary connection to the primary *)

Lemma connect_to_primary_if_replica_opens st conn_params b ka :
  is_replica st = true ->
  get_connection_parameters st true = Ok (conn_params, b) ->
  connect_answers st = None :: ka ->
  connect_to_primary_if_replica st
  = (Ret (Some (next_handle st)),
     evolve st (conn st) (conn_unbuffered st) (is_replica st) ka
       (execute_answers st) (close_answers st) (S (next_handle st))
       [Connect conn_params DictCursor (next_handle st)] []).
Proof.
  intros Hr Hp Hka. unfold connect_to_primary_if_replica.
  unfold bind at 1, get_state. rewrite Hr, Hp. unfold lift.
  unfold bind at 1, ret. unfold bind at 1, pymysql_connect. rewrite Hka.
  cbn [fst]. apply outcome_eq; [reflexivity|]. state_eq.
Qed.

Lemma connect_to_primary_if_replica_none st :
  is_replica st = false ->
  connect_to_primary_if_replica st = (Ret None, st).
Proof.
  intros Hr. unfold connect_to_primary_if_replica.
  unfold bind at 1, get_state. now rewrite Hr.
Qed.

(** On a replica, when the statement on the auxiliary connection fails with
    an error that is no connectivity failure, the error goes to the caller
    and the auxiliary connection stays open: it was opened and used, and no
    attempt to close it was made. *)
Lemma __get_primary_server_id_leaks fuel st conn_params b ka e es :
  is_replica st = true ->
  get_connection_parameters st true = Ok (conn_params, b) ->
  connect_answers st = None :: ka ->
  execute_answers st = ExecRaise e :: es ->
  is_connectivity e = false ->
  __get_primary_server_id (S fuel) st
  = (Raise e,
     evolve st (conn st) (conn_unbuffered st) (is_replica st) ka es
       (close_answers st) (S (next_handle st))
       [Connect conn_params DictCursor (next_handle st);
        Execute (next_handle st) "select @@server_id as server_id;" None]
       [LogInfo "Running query: select @@server_id as server_id;"]).
Proof.
  intros Hr Hp Hka He Hc. unfold __get_primary_server_id.
  unfold bind at 1. erewrite connect_to_primary_if_replica_opens by eassumption.
  unfold bind at 1, query_.
  erewrite query_raises;
    [| unfold target; reflexivity | at_state; eassumption | assumption].
  apply outcome_eq; [reflexivity|]. state_eq.
Qed.

Lemma __get_primary_server_uuid_leaks fuel st conn_params b ka e es :
  is_replica st = true ->
  get_connection_parameters st true = Ok (conn_params, b) ->
  connect_answers st = None :: ka ->
  execute_answers st = ExecRaise e :: es ->
  is_connectivity e = false ->
  __get_primary_server_uuid (S fuel) st
  = (Raise e,
     evolve st (conn st) (conn_unbuffered st) (is_replica st) ka es
       (close_answers st) (S (next_handle st))
       [Connect conn_params DictCursor (next_handle st);
        Execute (next_handle st) "select @@server_uuid as server_uuid;" None]
       [LogInfo "Running query: select @@server_uuid as server_uuid;"]).
Proof.
  intros Hr Hp Hka He Hc. unfold __get_primary_server_uuid.
  unfold bind at 1. erewrite connect_to_primary_if_replica_opens by eassumption.
  unfold bind at 1, query_.
  erewrite query_raises;
    [| unfold target; reflexivity | at_state; eassumption | assumption].
  apply outcome_eq; [reflexivity|]. state_eq.
Qed.

(** On a replica, when the statement on the auxiliary connection is
    answered, the connection is closed before the method returns. *)
Lemma __get_primary_server_id_closes fuel st conn_params b ka rowcount rows es ca :
  is_replica st = true ->
  get_connection_parameters st true = Ok (conn_params, b) ->
  connect_answers st = None :: ka ->
  execute_answers st = ExecOk rowcount rows :: es ->
  close_answers st = None :: ca ->
  __get_primary_server_id (S fuel) st
  = (match (if (0 <? rowcount)%Z then rows else []) with
     | [] => Raise IndexError
     | r0 :: _ => match r0 !! "server_id" with
                  | Some id => Ret id
                  | None => Raise (KeyError "server_id")
                  end
     end,
     evolve st (conn st) (conn_unbuffered st) (is_replica st) ka es
       ca (S (next_handle st))
       [Connect conn_params DictCursor (next_handle st);
        Execute (next_handle st) "select @@server_id as server_id;" None;
        Close (next_handle st)]
       [LogInfo "Running query: select @@server_id as server_id;"]).
Proof.
  intros Hr Hp Hka He Hca. unfold __get_primary_server_id.
  unfold bind at 1. erewrite connect_to_primary_if_replica_opens by eassumption.
  unfold bind at 1, query_.
  erewrite query_returns;
    [| unfold target; reflexivity | at_state; eassumption ].
  unfold bind at 1, connection_close. at_state. rewrite Hca.
  unfold bind at 1, rows_of, ret. 
  destruct (0 <? rowcount)%Z; [destruct rows as [|r0 rows]|];
    unfold bind at 1, first_row, raise, ret; try (apply outcome_eq; [reflexivity|state_eq]).
  unfold lift, getitem. destruct (r0 !! "server_id"); apply outcome_eq; try reflexivity; state_eq.
Qed.

(** On the primary the method uses the buffered session of [self]. *)
Lemma __get_primary_server_id_primary fuel st c rowcount rows es :
  is_replica st = false ->
  conn st = Some c ->
  execute_answers st = ExecOk rowcount rows :: es ->
  __get_primary_server_id (S fuel) st
  = (match (if (0 <? rowcount)%Z then rows else []) with
     | [] => Raise IndexError
     | r0 :: _ => match r0 !! "server_id" with
                  | Some id => Ret id
                  | None => Raise (KeyError "server_id")
                  end
     end,
     attempted c "select @@server_id as server_id;" None es st).
Proof.
  intros Hr Hc He. unfold __get_primary_server_id.
  unfold bind at 1. rewrite connect_to_primary_if_replica_none by assumption.
  unfold bind at 1, query_.
  erewrite query_returns; [| unfold target; eassumption | eassumption ].
  unfold bind at 1, ret. unfold bind at 1, rows_of, ret.
  destruct (0 <? rowcount)%Z; [destruct rows as [|r0 rows]|];
    unfold bind at 1, first_row, raise, ret; try reflexivity.
  unfold lift, getitem. destruct (r0 !! "server_id"); reflexivity.
Qed.

Lemma __get_primary_server_uuid_closes fuel st conn_params b ka rowcount rows es ca :
  is_replica st = true ->
  get_connection_parameters st true = Ok (conn_params, b) ->
  connect_answers st = None :: ka ->
  execute_answers st = ExecOk rowcount rows :: es ->
  close_answers st = None :: ca ->
  __get_primary_server_uuid (S fuel) st
  = (match (if (0 <? rowcount)%Z then rows else []) with
     | [] => Raise IndexError
     | r0 :: _ => match r0 !! "server_uuid" with
                  | Some uuid => Ret uuid
                  | None => Raise (KeyError "server_uuid")
                  end
     end,
     evolve st (conn st) (conn_unbuffered st) (is_replica st) ka es
       ca (S (next_handle st))
       [Connect conn_params DictCursor (next_handle st);
        Execute (next_handle st) "select @@server_uuid as server_uuid;" None;
        Close (next_handle st)]
       [LogInfo "Running query: select @@server_uuid as server_uuid;"]).
Proof.
  intros Hr Hp Hka He Hca. unfold __get_primary_server_uuid.
  unfold bind at 1. erewrite connect_to_primary_if_replica_opens by eassumption.
  unfold bind at 1, query_.
  erewrite query_returns;
    [| unfold target; reflexivity | at_state; eassumption ].
  unfold bind at 1, connection_close. at_state. rewrite Hca.
  unfold bind at 1, rows_of, ret.
  destruct (0 <? rowcount)%Z; [destruct rows as [|r0 rows]|];
    unfold bind at 1, first_row, raise, ret;
    try (apply outcome_eq; [reflexivity|state_eq]).
  unfold lift, getitem.
  destruct (r0 !! "server_uuid"); apply outcome_eq; try reflexivity; state_eq.
Qed.

Lemma __get_primary_server_uuid_primary fuel st c rowcount rows es :
  is_replica st = false ->
  conn st = Some c ->
  execute_answers st = ExecOk rowcount rows :: es ->
  __get_primary_server_uuid (S fuel) st
  = (match (if (0 <? rowcount)%Z then rows else []) with
     | [] => Raise IndexError
     | r0 :: _ => match r0 !! "server_uuid" with
                  | Some uuid => Ret uuid
                  | None => Raise (KeyError "server_uuid")
                  end
     end,
     attempted c "select @@server_uuid as server_uuid;" None es st).
Proof.
  intros Hr Hc He. unfold __get_primary_server_uuid.
  unfold bind at 1. rewrite connect_to_primary_if_replica_none by assumption.
  unfold bind at 1, query_.
  erewrite query_returns; [| unfold target; eassumption | eassumption ].
  unfold bind at 1, ret. unfold bind at 1, rows_of, ret.
  destruct (0 <? rowcount)%Z; [destruct rows as [|r0 rows]|];
    unfold bind at 1, first_row, raise, ret; try reflexivity.
  unfold lift, getitem. destruct (r0 !! "server_uuid"); reflexivity.
Qed.

(** ** GTID resolution *)

(** The result of the MariaDB method once the position and the server id
    are at hand: the outcome of the loop. *)
Lemma __find_mariadb_gtid_pos_loop fuel st st1 st2 r0 rs gtids id :
  mariadb_position_query fuel st = (Ret (Rows (r0 :: rs)), st1) ->
  r0 !! "current_gtids" = Some (DStr gtids) ->
  __get_primary_server_id fuel st1 = (Ret id, st2) ->
  fst (__find_mariadb_gtid_pos fuel st)
  = match mariadb_gtid_loop (py_str id) (PyStr.split "," gtids) with
    | Some gtid => Ret (gtid_bookmark gtid)
    | None => Raise no_suitable_gtid
    end.
Proof.
  intros Hq Hg Hid. unfold __find_mariadb_gtid_pos.
  unfold bind at 1. rewrite Hq. unfold bind at 1, rows_of, ret.
  unfold bind at 1, lift, getitem. rewrite Hg. unfold ret.
  unfold bind at 1. rewrite Hid.
  unfold bind at 1, logger, modify.
  unfold bind at 1, split_gtids, ret.
  destruct (mariadb_gtid_loop _ _); reflexivity.
Qed.

Lemma __find_mariadb_gtid_pos_empty fuel st st1 :
  mariadb_position_query fuel st = (Ret (Rows []), st1) ->
  __find_mariadb_gtid_pos fuel st = (Raise gtid_not_enabled, st1).
Proof.
  intros Hq. unfold __find_mariadb_gtid_pos.
  unfold bind at 1. rewrite Hq. reflexivity.
Qed.

Lemma __find_mysql_gtid_pos_loop fuel st st1 st2 st3 m0 ms r0 rs gtids uuid :
  query_ fuel "select @@gtid_mode as gtid_mode;" None st
  = (Ret (Rows (m0 :: ms)), st1) ->
  get_or m0 "gtid_mode" DNone = DStr "ON" ->
  query_ fuel "select @@GLOBAL.gtid_executed as current_gtids;" None st1
  = (Ret (Rows (r0 :: rs)), st2) ->
  r0 !! "current_gtids" = Some (DStr gtids) ->
  __get_primary_server_uuid fuel st2 = (Ret uuid, st3) ->
  fst (__find_mysql_gtid_pos fuel st)
  = match mysql_gtid_loop uuid (PyStr.split "," gtids) with
    | Some gtid => Ret (gtid_bookmark gtid)
    | None => Raise no_suitable_gtid
    end.
Proof.
  intros Hm Hon Hq Hg Hid. unfold __find_mysql_gtid_pos.
  unfold bind at 1. rewrite Hm. unfold bind at 1, rows_of, ret.
  rewrite Hon. rewrite bool_decide_eq_true_2 by reflexivity. cbn [negb].
  unfold bind at 1. rewrite Hq. unfold bind at 1, ret.
  unfold bind at 1, lift, getitem. rewrite Hg. unfold ret.
  unfold bind at 1. rewrite Hid.
  unfold bind at 1, logger, modify.
  unfold bind at 1, split_gtids, ret.
  destruct (mysql_gtid_loop _ _); reflexivity.
Qed.

Lemma __find_mysql_gtid_pos_mode fuel st st1 rows :
  query_ fuel "select @@gtid_mode as gtid_mode;" None st
  = (Ret (Rows rows), st1) ->
  match rows with
  | [] => True
  | m0 :: _ => get_or m0 "gtid_mode" DNone <> DStr "ON"
  end ->
  __find_mysql_gtid_pos fuel st = (Raise gtid_mode_not_enabled, st1).
Proof.
  intros Hm Hoff. unfold __find_mysql_gtid_pos.
  unfold bind at 1. rewrite Hm. unfold bind at 1, rows_of, ret.
  destruct rows as [|m0 ms]; [reflexivity|].
  rewrite bool_decide_eq_false_2 by assumption. reflexivity.
Qed.

(** On a MariaDB primary whose client answers the two statements with a row
    each, the method runs to its end with any positive budget. *)
Lemma __find_mariadb_gtid_pos_on_primary
    fuel st c rc1 r0 rs rc2 s0 ss es gtids id :
  is_replica st = false ->
  conn st = Some c ->
  execute_answers st = ExecOk rc1 (r0 :: rs) :: ExecOk rc2 (s0 :: ss) :: es ->
  (0 < rc1)%Z -> (0 < rc2)%Z ->
  r0 !! "current_gtids" = Some (DStr gtids) ->
  s0 !! "server_id" = Some id ->
  fst (__find_mariadb_gtid_pos (S fuel) st)
  = match mariadb_gtid_loop (py_str id) (PyStr.split "," gtids) with
    | Some gtid => Ret (gtid_bookmark gtid)
    | None => Raise no_suitable_gtid
    end.
Proof.
  intros Hr Hc He H1 H2 Hg Hid.
  eapply __find_mariadb_gtid_pos_loop; [| exact Hg |].
  - unfold mariadb_position_query. unfold bind at 1, get_state. rewrite Hr.
    unfold bind at 1, logger, modify. unfold query_.
    erewrite query_returns; [| unfold target; at_state; eassumption
                             | at_state; eassumption ].
    destruct (Z.ltb_spec 0 rc1); [reflexivity|lia].
  - erewrite __get_primary_server_id_primary;
      [| at_state; eassumption | at_state; eassumption | at_state; reflexivity ].
    destruct (Z.ltb_spec 0 rc2); [|lia]. rewrite Hid. reflexivity.
Qed.

(** The same on a MySQL primary with GTID mode on. *)
Lemma __find_mysql_gtid_pos_on_primary
    fuel st c rc0 m0 ms rc1 r0 rs rc2 s0 ss es gtids uuid :
  is_replica st = false ->
  conn st = Some c ->
  execute_answers st
  = ExecOk rc0 (m0 :: ms) :: ExecOk rc1 (r0 :: rs) :: ExecOk rc2 (s0 :: ss)
    :: es ->
  (0 < rc0)%Z -> (0 < rc1)%Z -> (0 < rc2)%Z ->
  get_or m0 "gtid_mode" DNone = DStr "ON" ->
  r0 !! "current_gtids" = Some (DStr gtids) ->
  s0 !! "server_uuid" = Some uuid ->
  fst (__find_mysql_gtid_pos (S fuel) st)
  = match mysql_gtid_loop uuid (PyStr.split "," gtids) with
    | Some gtid => Ret (gtid_bookmark gtid)
    | None => Raise no_suitable_gtid
    end.
Proof.
  intros Hr Hc He H0 H1 H2 Hon Hg Hid.
  eapply __find_mysql_gtid_pos_loop; [| exact Hon | | exact Hg |].
  - unfold query_.
    erewrite query_returns; [| unfold target; eassumption | eassumption ].
    destruct (Z.ltb_spec 0 rc0); [reflexivity|lia].
  - unfold query_.
    erewrite query_returns; [| unfold target; at_state; eassumption
                             | at_state; reflexivity ].
    destruct (Z.ltb_spec 0 rc1); [reflexivity|lia].
  - erewrite __get_primary_server_uuid_primary;
      [| at_state; eassumption | at_state; eassumption | at_state; reflexivity ].
    destruct (Z.ltb_spec 0 rc2); [|lia]. rewrite Hid. reflexivity.
Qed.

(** C1. GTID resolution, for both engines, once the position and the id (or
    UUID) of the primary are read: when the GTID set, split at its commas,
    has an entry that matches the id (MariaDB: three segments, the middle
    one equal to the id; MySQL: two segments, the first one equal to the
    UUID) and no entry before it matches, the method returns that entry,
    stripped. So a single matching entry is returned, and of several the
    earliest. Entries that are not well formed can be taken out of the set
    without changing what the loop selects. *)
Theorem gtid_resolution_first_match :
  (forall fuel st st1 st2 r0 rs gtids id pre entry post,
      mariadb_position_query fuel st = (Ret (Rows (r0 :: rs)), st1) ->
      r0 !! "current_gtids" = Some (DStr gtids) ->
      __get_primary_server_id fuel st1 = (Ret id, st2) ->
      PyStr.split "," gtids = pre ++ entry :: post ->
      mariadb_matches (py_str id) entry = true ->
      Forall (fun e => mariadb_matches (py_str id) e = false) pre ->
      fst (__find_mariadb_gtid_pos fuel st)
      = Ret (gtid_bookmark (PyStr.strip entry)))
  /\ (forall fuel st st1 st2 st3 m0 ms r0 rs gtids uuid pre entry post,
        query_ fuel "select @@gtid_mode as gtid_mode;" None st
        = (Ret (Rows (m0 :: ms)), st1) ->
        get_or m0 "gtid_mode" DNone = DStr "ON" ->
        query_ fuel "select @@GLOBAL.gtid_executed as current_gtids;" None st1
        = (Ret (Rows (r0 :: rs)), st2) ->
        r0 !! "current_gtids" = Some (DStr gtids) ->
        __get_primary_server_uuid fuel st2 = (Ret uuid, st3) ->
        PyStr.split "," gtids = pre ++ entry :: post ->
        mysql_matches uuid entry = true ->
        Forall (fun e => mysql_matches uuid e = false) pre ->
        fst (__find_mysql_gtid_pos fuel st)
        = Ret (gtid_bookmark (PyStr.strip entry)))
  /\ (forall server_id entries,
        mariadb_gtid_loop server_id entries
        = mariadb_gtid_loop server_id
            (List.filter mariadb_well_formed entries))
  /\ (forall server_uuid entries,
        mysql_gtid_loop server_uuid entries
        = mysql_gtid_loop server_uuid (List.filter mysql_well_formed entries)).
Proof.
  split; [|split; [|split]].
  - intros * Hq Hg Hid Hsplit Hm Hpre.
    erewrite __find_mariadb_gtid_pos_loop by eassumption.
    rewrite Hsplit. now rewrite mariadb_gtid_loop_first.
  - intros * Hmode Hon Hq Hg Hid Hsplit Hm Hpre.
    erewrite __find_mysql_gtid_pos_loop by eassumption.
    rewrite Hsplit. now rewrite mysql_gtid_loop_first.
  - apply mariadb_gtid_loop_skips.
  - apply mysql_gtid_loop_skips.
Qed.

(** C6. When no entry of the GTID set matches, resolution fails with the
    message that no suitable GTID was found, for both engines; the empty
    set, which is what an empty MariaDB position variable gives, is such a
    set. When the MariaDB position statement gives no row, it fails with the
    message that GTID is not enabled; when the MySQL mode statement gives no
    row, or a first row whose mode is absent or anything but ON, it fails
    with the message that GTID mode is not enabled. The failure for no match
    is another exception than these two. *)
Theorem gtid_resolution_failures :
  (forall fuel st st1 st2 r0 rs gtids id,
      mariadb_position_query fuel st = (Ret (Rows (r0 :: rs)), st1) ->
      r0 !! "current_gtids" = Some (DStr gtids) ->
      __get_primary_server_id fuel st1 = (Ret id, st2) ->
      Forall (fun e => mariadb_matches (py_str id) e = false)
        (PyStr.split "," gtids) ->
      fst (__find_mariadb_gtid_pos fuel st) = Raise no_suitable_gtid)
  /\ (forall fuel st st1 st2 st3 m0 ms r0 rs gtids uuid,
        query_ fuel "select @@gtid_mode as gtid_mode;" None st
        = (Ret (Rows (m0 :: ms)), st1) ->
        get_or m0 "gtid_mode" DNone = DStr "ON" ->
        query_ fuel "select @@GLOBAL.gtid_executed as current_gtids;" None st1
        = (Ret (Rows (r0 :: rs)), st2) ->
        r0 !! "current_gtids" = Some (DStr gtids) ->
        __get_primary_server_uuid fuel st2 = (Ret uuid, st3) ->
        Forall (fun e => mysql_matches uuid e = false)
          (PyStr.split "," gtids) ->
        fst (__find_mysql_gtid_pos fuel st) = Raise no_suitable_gtid)
  /\ (forall fuel st st1,
        mariadb_position_query fuel st = (Ret (Rows []), st1) ->
        fst (__find_mariadb_gtid_pos fuel st) = Raise gtid_not_enabled)
  /\ (forall fuel st st1 rows,
        query_ fuel "select @@gtid_mode as gtid_mode;" None st
        = (Ret (Rows rows), st1) ->
        match rows with
        | [] => True
        | m0 :: _ => get_or m0 "gtid_mode" DNone <> DStr "ON"
        end ->
        fst (__find_mysql_gtid_pos fuel st) = Raise gtid_mode_not_enabled)
  /\ no_suitable_gtid <> gtid_not_enabled
  /\ no_suitable_gtid <> gtid_mode_not_enabled
  /\ (forall fuel st st1 st2 r0 rs id,
        mariadb_position_query fuel st = (Ret (Rows (r0 :: rs)), st1) ->
        r0 !! "current_gtids" = Some (DStr "") ->
        __get_primary_server_id fuel st1 = (Ret id, st2) ->
        fst (__find_mariadb_gtid_pos fuel st) = Raise no_suitable_gtid).
Proof.
  split; [|split; [|split; [|split; [|split; [|split]]]]].
  - intros * Hq Hg Hid Hnone.
    erewrite __find_mariadb_gtid_pos_loop by eassumption.
    now rewrite mariadb_gtid_loop_none.
  - intros * Hmode Hon Hq Hg Hid Hnone.
    erewrite __find_mysql_gtid_pos_loop by eassumption.
    now rewrite mysql_gtid_loop_none.
  - intros * Hq. now erewrite __find_mariadb_gtid_pos_empty by eassumption.
  - intros * Hq Hoff. now erewrite __find_mysql_gtid_pos_mode by eassumption.
  - discriminate.
  - discriminate.
  - intros * Hq Hg Hid.
    erewrite __find_mariadb_gtid_pos_loop by eassumption. reflexivity.
Qed.

(** ** Primary keys *)

Section PrimaryKeys.

Variable safe_column_name : dbval -> option string -> dbval.
Variable tablename_to_dict : string -> gmap string dbval.

Lemma get_primary_keys_rows fuel table_name st c schema table rowcount rows es :
  tablename_to_dict table_name !! "schema_name" = Some schema ->
  tablename_to_dict table_name !! "table_name" = Some table ->
  conn st = Some c ->
  execute_answers st = ExecOk rowcount rows :: es ->
  get_primary_keys safe_column_name tablename_to_dict (S fuel) table_name st
  = (match (if (0 <? rowcount)%Z then rows else []) with
     | [] => Ret None
     | pk_specs =>
         Ret (Some (map (fun k => safe_column_name
                                    (get_or k "Column_name" DNone)
                                    (target_quote st)) pk_specs))
     end,
     attempted c (show_keys_sql schema table) None es st).
Proof.
  intros Hs Ht Hc He. unfold get_primary_keys, getitem.
  rewrite Hs, Ht. unfold lift. unfold bind at 1, ret. unfold bind at 1.
  unfold bind at 1, query_.
  erewrite query_returns; [| unfold target; eassumption | eassumption ].
  unfold bind at 1, rows_of, ret. unfold bind at 1, get_state.
  destruct (0 <? rowcount)%Z; [destruct rows|]; reflexivity.
Qed.

(** C7. [get_primary_keys] asks for the keys named PRIMARY of the table.
    When the answer has rows, it returns the column name of each row, passed
    through [safe_column_name], in the order of the rows, which is the order
    of the columns in the index; when the answer has no row, the table has
    no primary key and the method returns [None], no list. *)
Theorem get_primary_keys_in_index_order
    fuel table_name st c schema table rowcount rows es :
  tablename_to_dict table_name !! "schema_name" = Some schema ->
  tablename_to_dict table_name !! "table_name" = Some table ->
  conn st = Some c ->
  execute_answers st = ExecOk rowcount rows :: es ->
  let r := get_primary_keys safe_column_name tablename_to_dict (S fuel)
             table_name st in
  calls (snd r) = calls st ++ [Execute c (show_keys_sql schema table) None]
  /\ ((0 < rowcount)%Z -> rows <> [] ->
      fst r = Ret (Some (map (fun k => safe_column_name
                                         (get_or k "Column_name" DNone)
                                         (target_quote st)) rows)))
  /\ ((rowcount <= 0)%Z \/ rows = [] -> fst r = Ret None).
Proof.
  intros Hs Ht Hc He r. subst r.
  erewrite get_primary_keys_rows by eassumption. cbn [fst snd].
  split; [reflexivity|]. split.
  - intros Hrc Hrows. destruct (Z.ltb_spec 0 rowcount); [|lia].
    destruct rows; [congruence|reflexivity].
  - intros [Hrc| ->].
    + destruct (Z.ltb_spec 0 rowcount); [lia|reflexivity].
    + destruct (0 <? rowcount)%Z; reflexivity.
Qed.

End PrimaryKeys.

(** C5, as the code has it. On a replica, when the statement sent over the
    auxiliary connection to the primary fails with an error that is no
    connectivity failure, [__get_primary_server_id] and
    [__get_primary_server_uuid] raise that error with the auxiliary
    connection opened, used, and not closed: no call closes it, and the
    client was not asked to close anything. *)
Theorem primary_lookup_leaves_connection_open
    fuel st conn_params b ka e es :
  is_replica st = true ->
  get_connection_parameters st true = Ok (conn_params, b) ->
  connect_answers st = None :: ka ->
  execute_answers st = ExecRaise e :: es ->
  is_connectivity e = false ->
  let h := next_handle st in
  let r_id := __get_primary_server_id (S fuel) st in
  let r_uuid := __get_primary_server_uuid (S fuel) st in
  (fst r_id = Raise e
   /\ calls (snd r_id)
      = calls st ++ [Connect conn_params DictCursor h;
                     Execute h "select @@server_id as server_id;" None]
   /\ close_answers (snd r_id) = close_answers st)
  /\ (fst r_uuid = Raise e
      /\ calls (snd r_uuid)
         = calls st ++ [Connect conn_params DictCursor h;
                        Execute h "select @@server_uuid as server_uuid;" None]
      /\ close_answers (snd r_uuid) = close_answers st).
Proof.
  intros Hr Hp Hka He Hc h r_id r_uuid. subst r_id r_uuid h.
  erewrite __get_primary_server_id_leaks by eassumption.
  erewrite __get_primary_server_uuid_leaks by eassumption.
  cbn [fst snd]. at_state. repeat split.
Qed.

(** ** The properties on sample objects *)

Lemma Forall_none_by_forallb {A} (f : A -> bool) (l : list A) :
  forallb (fun e => negb (f e)) l = true -> Forall (fun e => f e = false) l.
Proof.
  induction l as [|x l IH]; cbn; [constructor|].
  intros [Hx Hl]%andb_prop. constructor; [|now apply IH].
  now destruct (f x).
Qed.

Lemma gtid_resolution_first_match_witness :
  fst (__find_mariadb_gtid_pos 1 (Sample.mariadb_primary Sample.mariadb_gtids))
  = Ret (gtid_bookmark "0-2-7")
  /\ fst (__find_mysql_gtid_pos 1 (Sample.mysql_primary Sample.mysql_gtids))
     = Ret (gtid_bookmark "bbbb:1-20").
Proof.
  split.
  - set (st := Sample.mariadb_primary Sample.mariadb_gtids).
    set (st1 := snd (mariadb_position_query 1 st)).
    set (st2 := snd (__get_primary_server_id 1 st1)).
    refine (proj1 gtid_resolution_first_match 1%nat st st1 st2
              {[ "current_gtids" := DStr Sample.mariadb_gtids ]} []
              Sample.mariadb_gtids (DInt 2) ["0-1-5"] " 0-2-7"
              ["1-2-9"; "junk"] _ _ _ _ _ _).
    + vm_compute; reflexivity.
    + vm_compute; reflexivity.
    + vm_compute; reflexivity.
    + vm_compute; reflexivity.
    + vm_compute; reflexivity.
    + apply Forall_none_by_forallb. vm_compute; reflexivity.
  - set (st := Sample.mysql_primary Sample.mysql_gtids).
    set (st1 := snd (query_ 1 "select @@gtid_mode as gtid_mode;" None st)).
    set (st2 := snd (query_ 1 "select @@GLOBAL.gtid_executed as current_gtids;"
                       None st1)).
    set (st3 := snd (__get_primary_server_uuid 1 st2)).
    refine (proj1 (proj2 gtid_resolution_first_match) 1%nat st st1 st2 st3
              {[ "gtid_mode" := DStr "ON" ]} []
              {[ "current_gtids" := DStr Sample.mysql_gtids ]} []
              Sample.mysql_gtids (DStr "bbbb")
              ["aaaa:1-5"; " bbbb:1-7:9-12"] (LF +:+ "bbbb:1-20") []
              _ _ _ _ _ _ _ _).
    + vm_compute; reflexivity.
    + vm_compute; reflexivity.
    + vm_compute; reflexivity.
    + vm_compute; reflexivity.
    + vm_compute; reflexivity.
    + vm_compute; reflexivity.
    + vm_compute; reflexivity.
    + apply Forall_none_by_forallb. vm_compute; reflexivity.
Defined.

(** C2 as stated fails: when the client refuses to close the buffered
    session, the retry succeeds all the same, and the streaming session,
    which was open as 1, is never closed: the one close is that of the
    buffered session. *)
Lemma query_retry_leaves_streaming_session_open :
  fst (query 2 "SHOW MASTER STATUS" None None false 1 Scenario.close_refused)
  = Ret (Rows [Sample.master_status])
  /\ conn_unbuffered Scenario.close_refused = Some 1%nat
  /\ List.filter is_close
       (calls (snd (query 2 "SHOW MASTER STATUS" None None false 1
                      Scenario.close_refused)))
     = [Close 0]
  /\ ~ In (Close 1)
         (calls (snd (query 2 "SHOW MASTER STATUS" None None false 1
                        Scenario.close_refused))).
Proof.
  split; [vm_compute; reflexivity|].
  split; [vm_compute; reflexivity|].
  split; [vm_compute; reflexivity|].
  vm_compute. intuition congruence.
Qed.

Lemma query_retry_budget_witness :
  fst (query 2 "SHOW MASTER STATUS" None None false 1 Sample.failing_once)
  = Ret (Rows [Sample.master_status])
  /\ List.filter is_close
       (calls (snd (query 2 "SHOW MASTER STATUS" None None false 1
                      Sample.failing_once)))
     = [Close 0; Close 1]
  /\ fst (query 2 "SHOW MASTER STATUS" None None false 1
            Scenario.close_refused)
     = Ret (Rows [Sample.master_status])
  /\ fst (query 1 "SHOW MASTER STATUS" None None false 0 Sample.failing)
     = Raise OperationalError
  /\ calls (snd (query 1 "SHOW MASTER STATUS" None None false 0
                   Sample.failing))
     = [Execute 0 "SHOW MASTER STATUS" None].
Proof.
  pose proof (proj1 query_retry_budget 0%nat "SHOW MASTER STATUS" None
                None false Sample.failing_once 0%nat 0%nat 1%nat
                OperationalError Sample.plan Sample.primary_params false
                [None; None] [Close 0; Close 1] [] [] 1%Z
                [Sample.master_status] []
                ltac:(vm_compute; reflexivity) ltac:(vm_compute; reflexivity)
                ltac:(vm_compute; reflexivity) ltac:(vm_compute; reflexivity)
                ltac:(reflexivity) (closes_both 0 1)
                ltac:(vm_compute; reflexivity) ltac:(vm_compute; reflexivity)
                ltac:(vm_compute; reflexivity) ltac:(vm_compute; reflexivity))
    as [Hret [Hcalls [Hcloses _]]].
  pose proof (proj1 query_retry_budget 0%nat "SHOW MASTER STATUS" None
                None false Scenario.close_refused 0%nat 0%nat 1%nat
                OperationalError Sample.plan Sample.primary_params false
                [Some InterfaceError] [Close 0] [] [] 1%Z
                [Sample.master_status] []
                ltac:(vm_compute; reflexivity) ltac:(vm_compute; reflexivity)
                ltac:(vm_compute; reflexivity) ltac:(vm_compute; reflexivity)
                ltac:(reflexivity) (closes_buffered_raises 0 1 InterfaceError)
                ltac:(vm_compute; reflexivity) ltac:(vm_compute; reflexivity)
                ltac:(vm_compute; reflexivity) ltac:(vm_compute; reflexivity))
    as [Hret' _].
  pose proof (proj2 query_retry_budget 0%nat "SHOW MASTER STATUS" None
                None false Sample.failing 0%nat OperationalError []
                ltac:(vm_compute; reflexivity) ltac:(vm_compute; reflexivity)
                ltac:(reflexivity)) as [Hraise [Honly _]].
  split; [exact Hret|].
  split; [rewrite Hcalls; vm_compute; reflexivity|].
  split; [exact Hret'|].
  split; [exact Hraise | exact Honly].
Defined.

Lemma get_connection_parameters_selects_witness :
  get_connection_parameters
    (__init__ Sample.replica_config None [] [] []) false
  = Ok (<["host" := VStr "replica.example"]> (<["port" := VInt 3307]>
          (<["user" := VStr "reader"]> (<["password" := VStr "hidden"]>
             (<["charset" := VStr "utf8"]> ∅)))), true)
  /\ get_connection_parameters
       (__init__ Sample.replica_config None [] [] []) true
     = Ok (<["host" := VStr "db.example"]> (<["port" := VInt 3306]>
             (<["user" := VStr "tap"]> (<["password" := VStr "secret"]>
                (<["charset" := VStr "utf8"]> ∅)))), false).
Proof.
  pose proof (get_connection_parameters_selects
                (__init__ Sample.replica_config None [] [] [])
                (VStr "db.example") (VStr "3306") (VStr "tap")
                (VStr "secret") (VStr "utf8")
                ltac:(vm_compute; reflexivity) ltac:(vm_compute; reflexivity)
                ltac:(vm_compute; reflexivity) ltac:(vm_compute; reflexivity)
                ltac:(vm_compute; reflexivity)) as [Hreplica [Hprimary _]].
  split.
  - apply (Hreplica (VStr "replica.example") (VInt 3307) (VStr "reader")
             (VStr "hidden") 3307%Z); vm_compute; reflexivity.
  - apply (Hprimary 3306%Z). vm_compute; reflexivity.
Defined.

(** C4 as stated fails: with the bound 100.00 configured, the decimal column
    named raw_data_hash gets the hexadecimal rendering of the rule for that
    name, which is not the clamping expression; and the int column of that
    name does not get the bare column reference. *)
Lemma safe_sql_value_raw_data_hash :
  safe_sql_value (Some "100.00") "date" "raw_data_hash" "decimal"
    "decimal(10,2)"
  = Some ("REPLACE(REPLACE(hex(`raw_data_hash`), '" +:+ LF +:+ "', ' '), '"
          +:+ CR +:+ "', '')")
  /\ safe_sql_value (Some "100.00") "date" "raw_data_hash" "decimal"
       "decimal(10,2)"
     <> Some (clamp_expression "100.00" "raw_data_hash")
  /\ In "decimal" fractional_types
  /\ safe_sql_value (Some "100.00") "date" "raw_data_hash" "int" "int(11)"
     <> Some (column_reference "raw_data_hash")
  /\ In "int" integer_types.
Proof.
  split; [vm_compute; reflexivity|].
  split; [vm_compute; discriminate|].
  split; [vm_compute; tauto|].
  split; [vm_compute; discriminate|].
  vm_compute; tauto.
Qed.

Lemma safe_sql_value_numbers_witness :
  safe_sql_value (Some "100.00") "date" "amount" "decimal" "decimal(10,2)"
  = Some "GREATEST(LEAST(100.00, ROUND(`amount`, 2)), -100.00)"
  /\ safe_sql_value (Some "100.00") "date" "id" "bigint" "bigint(20)"
     = Some "`id`".
Proof.
  split.
  - apply (proj1 (safe_sql_value_numbers "100.00" "date" "amount" "decimal"
                    "decimal(10,2)" ltac:(discriminate)
                    ltac:(vm_compute; reflexivity)
                    ltac:(vm_compute; reflexivity)));
      [vm_compute; reflexivity | vm_compute; tauto].
  - apply (proj1 (proj2 (safe_sql_value_numbers "100.00" "date" "id" "bigint"
                    "bigint(20)" ltac:(discriminate)
                    ltac:(vm_compute; reflexivity)
                    ltac:(vm_compute; reflexivity))));
      [vm_compute; reflexivity | vm_compute; tauto].
Defined.

Lemma primary_lookup_leaves_connection_open_witness :
  fst (__get_primary_server_id 1 Sample.replica_refused)
  = Raise ProgrammingError
  /\ calls (snd (__get_primary_server_id 1 Sample.replica_refused))
     = [Connect Sample.primary_params DictCursor 2;
        Execute 2 "select @@server_id as server_id;" None]
  /\ close_answers (snd (__get_primary_server_id 1 Sample.replica_refused))
     = [None].
Proof.
  pose proof (primary_lookup_leaves_connection_open 0 Sample.replica_refused
                Sample.primary_params false [] ProgrammingError []
                ltac:(vm_compute; reflexivity) ltac:(vm_compute; reflexivity)
                ltac:(vm_compute; reflexivity) ltac:(vm_compute; reflexivity)
                ltac:(vm_compute; reflexivity)) as [[Hr [Hcalls Hclose]] _].
  split; [exact Hr|]. split; [exact Hcalls|exact Hclose].
Defined.

(** C6 as stated fails: on a MariaDB server whose position variable is
    empty, the position statement has a row, with the empty string, and the
    resolution fails with the message that no suitable GTID was found, not
    with the one that GTID is not enabled. *)
Lemma gtid_empty_position_is_no_match :
  Sample.mariadb_primary ""
  = Sample.opened Sample.mariadb_config false []
      [ExecOk 1 [ {[ "current_gtids" := DStr "" ]} ];
       ExecOk 1 [ {[ "server_id" := DInt 2 ]} ]] []
  /\ fst (__find_mariadb_gtid_pos 1 (Sample.mariadb_primary ""))
     = Raise no_suitable_gtid
  /\ fst (__find_mariadb_gtid_pos 1 (Sample.mariadb_primary ""))
     <> Raise gtid_not_enabled.
Proof.
  split; [reflexivity|].
  split; [vm_compute; reflexivity | vm_compute; discriminate].
Qed.

Lemma gtid_resolution_failures_witness :
  fst (__find_mariadb_gtid_pos 1 (Sample.mariadb_primary "0-1-5,junk,"))
  = Raise no_suitable_gtid
  /\ fst (__find_mariadb_gtid_pos 1 (Sample.mariadb_primary ""))
     = Raise no_suitable_gtid
  /\ fst (__find_mysql_gtid_pos 1 (Sample.mysql_primary "aaaa:1-5,bbbb:1:2"))
     = Raise no_suitable_gtid
  /\ fst (__find_mariadb_gtid_pos 1 Sample.mariadb_no_position)
     = Raise gtid_not_enabled
  /\ fst (__find_mysql_gtid_pos 1 Sample.mysql_mode_off)
     = Raise gtid_mode_not_enabled.
Proof.
  destruct gtid_resolution_failures
    as [Hmaria [Hmysql [Hposition [Hmode _]]]].
  split; [|split; [|split; [|split]]].
  - set (st := Sample.mariadb_primary "0-1-5,junk,").
    refine (Hmaria 1%nat st (snd (mariadb_position_query 1 st))
              (snd (__get_primary_server_id 1
                      (snd (mariadb_position_query 1 st))))
              {[ "current_gtids" := DStr "0-1-5,junk," ]} []
              "0-1-5,junk," (DInt 2) _ _ _ _);
      try (vm_compute; reflexivity).
    apply Forall_none_by_forallb. vm_compute; reflexivity.
  - set (st := Sample.mariadb_primary "").
    refine (Hmaria 1%nat st (snd (mariadb_position_query 1 st))
              (snd (__get_primary_server_id 1
                      (snd (mariadb_position_query 1 st))))
              {[ "current_gtids" := DStr "" ]} [] "" (DInt 2) _ _ _ _);
      try (vm_compute; reflexivity).
    apply Forall_none_by_forallb. vm_compute; reflexivity.
  - set (st := Sample.mysql_primary "aaaa:1-5,bbbb:1:2").
    set (st1 := snd (query_ 1 "select @@gtid_mode as gtid_mode;" None st)).
    set (st2 := snd (query_ 1 "select @@GLOBAL.gtid_executed as current_gtids;"
                       None st1)).
    refine (Hmysql 1%nat st st1 st2 (snd (__get_primary_server_uuid 1 st2))
              {[ "gtid_mode" := DStr "ON" ]} []
              {[ "current_gtids" := DStr "aaaa:1-5,bbbb:1:2" ]} []
              "aaaa:1-5,bbbb:1:2" (DStr "bbbb") _ _ _ _ _ _);
      try (vm_compute; reflexivity).
    apply Forall_none_by_forallb. vm_compute; reflexivity.
  - refine (Hposition 1%nat Sample.mariadb_no_position
              (snd (mariadb_position_query 1 Sample.mariadb_no_position)) _).
    vm_compute; reflexivity.
  - refine (Hmode 1%nat Sample.mysql_mode_off
              (snd (query_ 1 "select @@gtid_mode as gtid_mode;" None
                      Sample.mysql_mode_off))
              [ {[ "gtid_mode" := DStr "OFF" ]} ] _ _).
    + vm_compute; reflexivity.
    + vm_compute. discriminate.
Defined.

Lemma get_primary_keys_in_index_order_witness :
  fst (get_primary_keys Sample.quoted_column_name Sample.split_tablename 1
         "sales.orders" Sample.with_primary_key)
  = Ret (Some [DStr (dquote +:+ "order_id" +:+ dquote);
               DStr (dquote +:+ "line_no" +:+ dquote)])
  /\ calls (snd (get_primary_keys Sample.quoted_column_name
                   Sample.split_tablename 1 "sales.orders"
                   Sample.with_primary_key))
     = [Execute 0 "SHOW KEYS FROM `sales`.`orders` WHERE Key_name = 'PRIMARY'"
          None].
Proof.
  pose proof (get_primary_keys_in_index_order Sample.quoted_column_name
                Sample.split_tablename 0 "sales.orders"
                Sample.with_primary_key 0%nat (DStr "sales") (DStr "orders")
                2%Z Sample.pk_rows []
                ltac:(vm_compute; reflexivity) ltac:(vm_compute; reflexivity)
                ltac:(vm_compute; reflexivity) ltac:(vm_compute; reflexivity))
    as [Hcalls [Hrows _]].
  split.
  - apply Hrows; [reflexivity | discriminate].
  - exact Hcalls.
Defined.

Lemma fetch_current_log_pos_binlog_coordinates_witness :
  fst (fetch_current_log_pos 1 Sample.with_master_status)
  = Ret (<["log_file" := DStr "binlog.000002"]>
           (<["log_pos" := DInt 914]> (<["version" := DInt 1]> ∅)))
  /\ fst (fetch_current_log_pos 1 Sample.without_binlog)
     = Raise binlog_not_enabled.
Proof.
  split.
  - refine (proj1 (proj1 (fetch_current_log_pos_binlog_coordinates 0
              Sample.with_master_status 0%nat (VBool false) _ _ _ _)
              1%Z Sample.master_status [] (DStr "binlog.000002") (DInt 914)
              _ _ _ _ _));
      try (vm_compute; reflexivity).
  - refine (proj2 (fetch_current_log_pos_binlog_coordinates 0
              Sample.without_binlog 0%nat (VBool false) _ _ _ _)
              0%Z [] [] _ _);
      try (vm_compute; reflexivity).
    now right.
Defined.

(** C9 as stated fails. A session statement the server refuses as a
    programming error, the class of a syntax error, is no warning: startup
    is aborted with that error and the statement after it is not run. And
    after the buffered session has rejected a statement with an internal
    error, a later statement that it rejects too is not run on the
    streaming session. *)
Lemma open_connections_aborted_by_rejection :
  fst (open_connections 1 Scenario.statement_refused) = Raise ProgrammingError
  /\ executed_on 0 (calls (snd (open_connections 1 Scenario.statement_refused)))
     = ["SET a=1"; "SET b=2"]
  /\ executed_on 1 (calls (snd (open_connections 1 Scenario.statement_refused)))
     = ["SET a=1"]
  /\ log (snd (open_connections 1 Scenario.statement_refused))
     = [LogInfo "Running query: SET a=1"; LogInfo "Running query: SET a=1";
        LogInfo "Running query: SET b=2"]
  /\ fst (open_connections 1 Scenario.two_rejected) = Ret tt
  /\ executed_on 0 (calls (snd (open_connections 1 Scenario.two_rejected)))
     = ["SET a=1"; "SET b=2"; "SET c=3"]
  /\ executed_on 1 (calls (snd (open_connections 1 Scenario.two_rejected)))
     = ["SET c=3"].
Proof. repeat split; vm_compute; reflexivity. Qed.

Lemma open_connections_survives_rejections_witness :
  fst (open_connections 1 Sample.starting) = Ret tt
  /\ executed_on 0 (calls (snd (open_connections 1 Sample.starting)))
     = ["SET a=1"; "SET b=2"; "SET c=3"]
  /\ executed_on 1 (calls (snd (open_connections 1 Sample.starting)))
     = ["SET a=1"; "SET c=3"]
  /\ In (LogWarning "Could not set session variable: SET b=2")
       (log (snd (open_connections 1 Sample.starting))).
Proof.
  pose proof (open_connections_survives_rejections 0 Sample.plan
                Sample.starting Sample.primary_params false [] []
                ltac:(vm_compute; reflexivity) ltac:(vm_compute; reflexivity)
                ltac:(vm_compute; reflexivity) ltac:(vm_compute; reflexivity))
    as [Hret [Hcalls [_ Heach]]].
  split; [exact Hret|].
  split; [rewrite Hcalls; vm_compute; reflexivity|].
  split; [rewrite Hcalls; vm_compute; reflexivity|].
  apply (Heach "SET b=2" RejectedBuffered); [vm_compute; tauto | reflexivity].
Defined.

Lemma query_retry_drops_session_witness :
  query 2 "SELECT 1" (Some 1%nat) None false 1 Sample.failing_once
  = query 1 "SELECT 1" None None false 0
      (retried 0 1 Sample.primary_params false Sample.plan [] 
         [ExecOk 1 [Sample.master_status]] [] 1 "SELECT 1" None 1
         OperationalError Sample.failing_once)
  /\ executed_on 1
       (calls (snd (query 2 "SELECT 1" (Some 1%nat) None false 1
                      Sample.failing_once)))
     = ["SELECT 1"]
  /\ executed_on 2
       (calls (snd (query 2 "SELECT 1" (Some 1%nat) None false 1
                      Sample.failing_once)))
     = ["SET a=1"; "SET b=2"; "SET c=3"; "SELECT 1"].
Proof.
  pose proof (query_retry_drops_session 0 "SELECT 1" 1%nat None false 1%Z
                Sample.failing_once 0%nat 1%nat OperationalError Sample.plan
                Sample.primary_params false [] []
                (ExecOk 1 [Sample.master_status]) []
                ltac:(vm_compute; lia) ltac:(vm_compute; reflexivity)
                ltac:(vm_compute; reflexivity) ltac:(vm_compute; reflexivity)
                ltac:(vm_compute; reflexivity) ltac:(lia)
                ltac:(vm_compute; reflexivity) ltac:(vm_compute; reflexivity)
                ltac:(vm_compute; reflexivity) ltac:(vm_compute; reflexivity))
    as [Heq _].
  split; [exact Heq|].
  split; vm_compute; reflexivity.
Defined.

(** * Further properties of the code *)

(** ** [query] *)

(** X1. A failure of the statement that is neither an interface nor an
    operational error is raised at once, whatever the number of retries
    left: the one attempt is the only call, nothing is closed or opened,
    and the sessions of the object stay as they were. *)
Theorem query_other_failure_is_not_retried
    fuel sql conn_ params return_as_cursor n_retry st c e es :
  target conn_ st = Some c ->
  execute_answers st = ExecRaise e :: es ->
  is_connectivity e = false ->
  let r := query (S fuel) sql conn_ params return_as_cursor n_retry st in
  fst r = Raise e
  /\ calls (snd r) = calls st ++ [Execute c sql params]
  /\ log (snd r) = log st ++ [LogInfo ("Running query: " +:+ sql)]
  /\ conn (snd r) = conn st
  /\ conn_unbuffered (snd r) = conn_unbuffered st
  /\ connect_answers (snd r) = connect_answers st
  /\ close_answers (snd r) = close_answers st.
Proof.
  intros Ht He Hc r. subst r.
  erewrite query_raises by eassumption. cbn [fst snd]. at_state.
  repeat split.
Qed.

(** X2. On an object whose sessions were never opened, [query] without a
    session argument raises [AttributeError]: the client is not called, and
    the error is not one that is retried. *)
Theorem query_before_open_connections
    fuel sql params return_as_cursor n_retry st :
  conn st = None ->
  query (S fuel) sql None params return_as_cursor n_retry st
  = (Raise AttributeError, add_log (LogInfo ("Running query: " +:+ sql)) st).
Proof.
  intros Hc. cbn [query]. mstep. rewrite Hc. reflexivity.
Qed.

(** ** [close_connections] *)

(** X3. [close_connections] never raises: it returns (or the client has no
    answer listed). When silent it writes nothing to the log. The fields
    [conn] and [conn_unbuffered] keep the closed connections. *)
Theorem close_connections_never_raises silent st :
  let r := close_connections silent st in
  (fst r = Ret tt \/ fst r = NoAnswer)
  /\ (silent = true -> log (snd r) = log st)
  /\ conn (snd r) = conn st
  /\ conn_unbuffered (snd r) = conn_unbuffered st.
Proof.
  intros r. subst r. unfold close_connections. mstep.
  destruct (conn st) as [c|] eqn:Hc; mstep;
    [destruct (close_answers st) as [|[e|] ca]; mstep;
     [| |destruct (conn_unbuffered st) as [cu|] eqn:Hcu; mstep;
         [destruct ca as [|[e|] ca]; mstep|]]|];
    destruct silent; cbn; repeat split; intros;
    first [reflexivity | left; reflexivity | right; reflexivity
          | discriminate | congruence].
Qed.

(** X4. When closing the buffered session raises, no attempt is made to
    close the streaming session: the one call is the failed close, and the
    method returns normally. *)
Theorem close_connections_skips_streaming_session silent st c e ca :
  conn st = Some c ->
  close_answers st = Some e :: ca ->
  let r := close_connections silent st in
  fst r = Ret tt
  /\ calls (snd r) = calls st ++ [Close c]
  /\ close_answers (snd r) = ca
  /\ log (snd r)
     = log st ++ (if silent then []
                  else [LogException e;
                        LogInfo "Connections seem to be already closed."]).
Proof.
  intros Hc Hca r. subst r.
  erewrite close_connections_first_fails by eassumption.
  cbn [fst snd]. at_state. repeat split.
Qed.

(** ** [__init__] *)

Lemma set_default_union k d (m : gmap string value) :
  set_default k d m = m ∪ {[ k := d ]}.
Proof.
  apply map_eq. intros i. unfold set_default, get_or.
  rewrite lookup_union. destruct (decide (k = i)) as [->|Hne].
  - rewrite lookup_insert_eq, lookup_singleton_eq.
    destruct (m !! i); reflexivity.
  - rewrite lookup_insert_ne, lookup_singleton_ne by assumption.
    destruct (m !! i); reflexivity.
Qed.

(** X5. The configuration of a new object is the given one completed by
    the defaults: a key the caller gave keeps its value, also the value
    [None], and each of the five defaulted keys that is missing gets its
    default; no connection is open and the object is not on a replica. *)
Theorem __init___completes_the_configuration
    config quote connect_answers execute_answers close_answers :
  let self :=
    __init__ config quote connect_answers execute_answers close_answers in
  connection_config self = config ∪ default_config
  /\ (forall k v, config !! k = Some v ->
                  connection_config self !! k = Some v)
  /\ (forall k, config !! k = None ->
                connection_config self !! k = default_config !! k)
  /\ conn self = None /\ conn_unbuffered self = None
  /\ is_replica self = false.
Proof.
  intros self.
  assert (Heq : connection_config self = config ∪ default_config).
  { subst self. unfold __init__. cbn [connection_config].
    rewrite !set_default_union. unfold default_config.
    apply map_eq. intros i. rewrite !lookup_union.
    destruct (config !! i) as [v|] eqn:Hi; cbn.
    - now rewrite !union_Some_l.
    - rewrite !(left_id_L None _).
      rewrite !lookup_insert. rewrite !lookup_singleton, lookup_empty.
      repeat case_decide; subst; try reflexivity; try congruence. }
  split; [exact Heq|]. split; [|split].
  - intros k v Hk. rewrite Heq. now apply lookup_union_Some_l.
  - intros k Hk. rewrite Heq, lookup_union, Hk. now rewrite (left_id_L None _).
  - repeat split.
Qed.

(** ** [run_session_sqls] *)

(** X6. When [session_sqls] is the empty list or no list at all, also
    [None], [run_session_sqls] runs no statement and logs nothing; it does
    not even need a session. *)
Theorem run_session_sqls_without_statements fuel st :
  configured_session_sqls st = [] ->
  run_session_sqls fuel st = (Ret tt, st).
Proof.
  unfold configured_session_sqls, run_session_sqls, run_session_sqls_with.
  intros Hcfg. unfold bind at 1, get_state.
  destruct (get_or _ _ _) as [| | | |[|s l]]; cbn in Hcfg;
    try discriminate; reflexivity.
Qed.

(** ** Connection parameters and [open_connections] *)

(** X7. A configuration without the primary host gets [KeyError] for
    ['host'] from [get_connection_parameters], with or without priority to
    the primary and whatever replica fields it has; [open_connections] then
    raises it before any call to the client. *)
Theorem connection_needs_the_primary_host self :
  connection_config self !! "host" = None ->
  (forall prioritize_primary,
      get_connection_parameters self prioritize_primary
      = Err (KeyError "host"))
  /\ (forall fuel,
        open_connections fuel self = (Raise (KeyError "host"), self)).
Proof.
  intros Hh.
  assert (Hp : forall p, get_connection_parameters self p
                         = Err (KeyError "host")).
  { intros p. unfold get_connection_parameters, getitem. rewrite Hh.
    destruct p; reflexivity. }
  split; [exact Hp|]. intros fuel.
  unfold open_connections, open_connections_with.
  unfold bind at 1, get_state. rewrite Hp. reflexivity.
Qed.

(** X8. The replica flag follows [replica_host] alone: with a replica
    port, user and password but no replica host, the parameters are the
    primary host with the port, user and password of the replica, and the
    connection counts as one to the primary. *)
Theorem replica_fields_without_replica_host
    self host port user password charset rport ruser rpassword n :
  connection_config self !! "host" = Some host ->
  connection_config self !! "port" = Some port ->
  connection_config self !! "user" = Some user ->
  connection_config self !! "password" = Some password ->
  connection_config self !! "charset" = Some charset ->
  connection_config self !! "replica_host" = None ->
  connection_config self !! "replica_port" = Some rport ->
  connection_config self !! "replica_user" = Some ruser ->
  connection_config self !! "replica_password" = Some rpassword ->
  py_int rport = Ok n ->
  get_connection_parameters self false
  = Ok (<["host" := host]> (<["port" := VInt n]> (<["user" := ruser]>
          (<["password" := rpassword]> (<["charset" := charset]> ∅)))),
        false).
Proof.
  intros Hh Hp Hu Hpw Hc Hrh Hrp Hru Hrpw Hn.
  erewrite get_connection_parameters_no_replica_host; try eassumption.
  - unfold get_or. now rewrite Hru, Hrpw.
  - unfold get_or. now rewrite Hrp.
Qed.

Lemma open_connections_second_connect fuel st conn_params replica e ka :
  get_connection_parameters st false = Ok (conn_params, replica) ->
  connect_answers st = None :: Some e :: ka ->
  open_connections fuel st
  = (Raise e,
     evolve st (Some (next_handle st)) (conn_unbuffered st) replica ka
       (execute_answers st) (close_answers st) (S (next_handle st))
       [Connect conn_params DictCursor (next_handle st);
        ConnectFailed conn_params SSCursor] []).
Proof.
  intros Hp Hka.
  unfold open_connections, open_connections_with.
  unfold bind at 1, get_state. rewrite Hp. unfold lift.
  unfold bind at 1, ret. unfold bind at 1, modify.
  unfold bind at 1, pymysql_connect. mfields. rewrite Hka.
  unfold bind at 1. unfold bind at 1. mfields.
  apply outcome_eq; [reflexivity|]. state_eq.
Qed.

(** X9. When the client refuses the second, streaming connection,
    [open_connections] raises with the object holding the new buffered
    session beside the old streaming one; the new buffered session is not
    closed and no session statement is run. *)
Theorem open_connections_streaming_connect_fails
    fuel st conn_params replica e ka :
  get_connection_parameters st false = Ok (conn_params, replica) ->
  connect_answers st = None :: Some e :: ka ->
  let h := next_handle st in
  let r := open_connections fuel st in
  fst r = Raise e
  /\ conn (snd r) = Some h
  /\ conn_unbuffered (snd r) = conn_unbuffered st
  /\ is_replica (snd r) = replica
  /\ calls (snd r)
     = calls st ++ [Connect conn_params DictCursor h;
                    ConnectFailed conn_params SSCursor]
  /\ execute_answers (snd r) = execute_answers st
  /\ close_answers (snd r) = close_answers st.
Proof.
  intros Hp Hka h r. subst r h.
  erewrite open_connections_second_connect by eassumption.
  cbn [fst snd]. at_state. repeat split.
Qed.

(** ** Binlog coordinates on a replica *)

Lemma _get_binlog_coordinates_replica fuel st c rowcount rows es :
  is_replica st = true ->
  conn st = Some c ->
  execute_answers st = ExecOk rowcount rows :: es ->
  _get_binlog_coordinates (S fuel) st
  = (match (if (0 <? rowcount)%Z then rows else []) with
     | [] => Raise binlog_not_enabled
     | binlog_pos :: _ =>
         Ret (<["log_file" := get_or binlog_pos "Master_Log_File" DNone]>
                (<["log_pos" := get_or binlog_pos "Read_Master_Log_Pos" DNone]>
                   (<["version" := get_or binlog_pos "version" (DInt 1)]> ∅)))
     end,
     evolve st (conn st) (conn_unbuffered st) (is_replica st)
       (connect_answers st) es (close_answers st) (next_handle st)
       [Execute c "SHOW SLAVE STATUS" None]
       [LogDebug "Connecting to replica to get binlog coordinates...";
        LogInfo "Running query: SHOW SLAVE STATUS"]).
Proof.
  intros Hr Hc He. unfold _get_binlog_coordinates.
  unfold bind at 1, get_state. rewrite Hr.
  unfold bind at 1, logger, modify.
  unfold bind at 1. unfold query_.
  erewrite query_returns;
    [| unfold target; at_state; eassumption | at_state; eassumption].
  unfold bind at 1, rows_of, ret.
  destruct (0 <? rowcount)%Z; [destruct rows|]; unfold raise;
    apply outcome_eq; try reflexivity; state_eq.
Qed.

(** X10. On a replica with GTID mode off, [fetch_current_log_pos] asks for
    the slave status and returns the log file and the read position of the
    master from its first row, a field that is missing as [None], with the
    version of the row or 1; with no row it fails with the message that
    binary logging is not enabled. *)
Theorem fetch_current_log_pos_on_replica
    fuel st c use_gtid rowcount rows es :
  connection_config st !! "use_gtid" = Some use_gtid ->
  truthy use_gtid = false ->
  is_replica st = true ->
  conn st = Some c ->
  execute_answers st = ExecOk rowcount rows :: es ->
  let r := fetch_current_log_pos (S fuel) st in
  calls (snd r) = calls st ++ [Execute c "SHOW SLAVE STATUS" None]
  /\ (forall binlog_pos rest,
         (0 < rowcount)%Z -> rows = binlog_pos :: rest ->
         fst r
         = Ret (<["log_file" := get_or binlog_pos "Master_Log_File" DNone]>
                  (<["log_pos" :=
                       get_or binlog_pos "Read_Master_Log_Pos" DNone]>
                     (<["version" :=
                          get_or binlog_pos "version" (DInt 1)]> ∅))))
  /\ ((rowcount <= 0)%Z \/ rows = [] -> fst r = Raise binlog_not_enabled).
Proof.
  intros Hu Ht Hr Hc He r. subst r.
  erewrite fetch_current_log_pos_binlog by eassumption.
  erewrite _get_binlog_coordinates_replica by eassumption.
  cbn [fst snd]. at_state. split; [reflexivity|]. split.
  - intros binlog_pos rest Hrc ->.
    destruct (Z.ltb_spec 0 rowcount); [reflexivity|lia].
  - intros [Hrc| ->].
    + destruct (Z.ltb_spec 0 rowcount); [lia|reflexivity].
    + destruct (0 <? rowcount)%Z; reflexivity.
Qed.

(** ** The auxiliary connection to the primary, continued *)

(** X11. On a replica, once the statement on the auxiliary connection is
    answered, the connection is closed before anything is read from the
    answer: also when the answer has no row, or no such column, and the
    method raises [IndexError] or [KeyError]. *)
Theorem primary_lookup_closes_when_answered
    fuel st conn_params b ka rowcount rows es ca :
  is_replica st = true ->
  get_connection_parameters st true = Ok (conn_params, b) ->
  connect_answers st = None :: ka ->
  execute_answers st = ExecOk rowcount rows :: es ->
  close_answers st = None :: ca ->
  let h := next_handle st in
  let r_id := __get_primary_server_id (S fuel) st in
  let r_uuid := __get_primary_server_uuid (S fuel) st in
  calls (snd r_id)
  = calls st ++ [Connect conn_params DictCursor h;
                 Execute h "select @@server_id as server_id;" None;
                 Close h]
  /\ calls (snd r_uuid)
     = calls st ++ [Connect conn_params DictCursor h;
                    Execute h "select @@server_uuid as server_uuid;" None;
                    Close h]
  /\ ((rowcount <= 0)%Z \/ rows = [] ->
      fst r_id = Raise IndexError /\ fst r_uuid = Raise IndexError)
  /\ (forall r0 rest, (0 < rowcount)%Z -> rows = r0 :: rest ->
        fst r_id = match r0 !! "server_id" with
                   | Some id => Ret id
                   | None => Raise (KeyError "server_id")
                   end
        /\ fst r_uuid = match r0 !! "server_uuid" with
                        | Some uuid => Ret uuid
                        | None => Raise (KeyError "server_uuid")
                        end).
Proof.
  intros Hr Hp Hka He Hca h r_id r_uuid. subst r_id r_uuid h.
  erewrite __get_primary_server_id_closes by eassumption.
  erewrite __get_primary_server_uuid_closes by eassumption.
  cbn [fst snd]. at_state. split; [reflexivity|]. split; [reflexivity|].
  split.
  - intros [Hrc| ->].
    + destruct (Z.ltb_spec 0 rowcount); [lia|]. now split.
    + destruct (0 <? rowcount)%Z; now split.
  - intros r0 rest Hrc ->. destruct (Z.ltb_spec 0 rowcount); [|lia].
    now split.
Qed.

(** X12. On a replica, when the statement on the auxiliary connection to
    the primary meets a connectivity failure, the sessions of the object are
    reopened with the parameters of the replica and the statement is run
    again on the new buffered session: the server id the method returns is
    the one that session answers. The auxiliary connection is closed
    afterwards. *)
Theorem primary_lookup_retries_on_the_replica
    fuel st c cu primary_params b replica_params replica e plan
    ka ca rowcount r0 rest id ea :
  is_replica st = true ->
  get_connection_parameters st true = Ok (primary_params, b) ->
  get_connection_parameters st false = Ok (replica_params, replica) ->
  conn st = Some c ->
  conn_unbuffered st = Some cu ->
  connect_answers st = None :: None :: None :: ka ->
  execute_answers st
  = ExecRaise e :: plan_answers plan ++ ExecOk rowcount (r0 :: rest) :: ea ->
  is_connectivity e = true ->
  close_answers st = None :: None :: None :: ca ->
  configured_session_sqls st = map fst plan ->
  (0 < rowcount)%Z ->
  r0 !! "server_id" = Some id ->
  let h := next_handle st in
  let sql := "select @@server_id as server_id;" in
  let r := __get_primary_server_id (S (S fuel)) st in
  fst r = Ret id
  /\ calls (snd r)
     = calls st
       ++ [Connect primary_params DictCursor h; Execute h sql None]
       ++ reconnect_calls c cu replica_params (S h) plan
       ++ [Execute (S h) sql None; Close h]
  /\ conn (snd r) = Some (S h).
Proof.
  intros Hr Hpp Hrp Hc Hcu Hka He Hconn Hca Hs Hrc Hid h sql r.
  assert (Heq : exists st',
             r = (Ret id, st')
             /\ calls st'
                = calls st
                  ++ [Connect primary_params DictCursor h; Execute h sql None]
                  ++ reconnect_calls c cu replica_params (S h) plan
                  ++ [Execute (S h) sql None; Close h]
             /\ conn st' = Some (S h)).
  { subst r sql h. unfold __get_primary_server_id.
    unfold bind at 1.
    erewrite connect_to_primary_if_replica_opens by eassumption.
    unfold bind at 1, query_.
    erewrite query_reconnects with (plan := plan);
      [| unfold target; reflexivity
       | at_state; eassumption
       | at_state; eassumption
       | at_state; exact He
       | assumption
       | at_state; exact Hca
       | at_state; reflexivity
       | erewrite get_connection_parameters_config; [exact Hrp|reflexivity]
       | unfold configured_session_sqls in *; at_state; exact Hs
       | lia ].
    erewrite query_returns;
      [| unfold target; at_state; reflexivity | at_state; reflexivity ].
    unfold bind at 1, connection_close. at_state.
    unfold bind at 1, rows_of, ret.
    destruct (Z.ltb_spec 0 rowcount); [|lia].
    unfold bind at 1, first_row, ret. unfold lift, getitem. rewrite Hid.
    eexists. split; [reflexivity|]. mfields. unfold reconnect_calls.
    split; [|reflexivity]. rewrite <- !app_assoc. reflexivity. }
  destruct Heq as [st' [-> [Hcalls Hconn']]]. cbn [fst snd].
  split; [reflexivity|]. split; assumption.
Qed.

(** ** GTID selection, continued *)

Lemma mariadb_gtid_loop_some server_id entries gtid :
  mariadb_gtid_loop server_id entries = Some gtid ->
  exists pre entry post,
    entries = pre ++ entry :: post
    /\ gtid = PyStr.strip entry
    /\ mariadb_matches server_id entry = true
    /\ Forall (fun e => mariadb_matches server_id e = false) pre.
Proof.
  induction entries as [|e l IH]; [discriminate|].
  rewrite mariadb_gtid_loop_cons.
  destruct (mariadb_matches server_id e) eqn:Hm.
  - intros [= <-]. exists [], e, l. repeat split; auto.
  - intros H. destruct (IH H) as (pre & entry & post & -> & Hg & Hmatch & Hpre).
    exists (e :: pre), entry, post. repeat split; auto.
Qed.

Lemma mysql_gtid_loop_some server_uuid entries gtid :
  mysql_gtid_loop server_uuid entries = Some gtid ->
  exists pre entry post,
    entries = pre ++ entry :: post
    /\ gtid = PyStr.strip entry
    /\ mysql_matches server_uuid entry = true
    /\ Forall (fun e => mysql_matches server_uuid e = false) pre.
Proof.
  induction entries as [|e l IH]; [discriminate|].
  rewrite mysql_gtid_loop_cons.
  destruct (mysql_matches server_uuid e) eqn:Hm.
  - intros [= <-]. exists [], e, l. repeat split; auto.
  - intros H. destruct (IH H) as (pre & entry & post & -> & Hg & Hmatch & Hpre).
    exists (e :: pre), entry, post. repeat split; auto.
Qed.

Lemma mariadb_gtid_loop_none_inv server_id entries :
  mariadb_gtid_loop server_id entries = None ->
  Forall (fun e => mariadb_matches server_id e = false) entries.
Proof.
  induction entries as [|e l IH]; [constructor|].
  rewrite mariadb_gtid_loop_cons.
  destruct (mariadb_matches server_id e) eqn:Hm; [discriminate|].
  intros H. constructor; auto.
Qed.

Lemma mysql_gtid_loop_none_inv server_uuid entries :
  mysql_gtid_loop server_uuid entries = None ->
  Forall (fun e => mysql_matches server_uuid e = false) entries.
Proof.
  induction entries as [|e l IH]; [constructor|].
  rewrite mysql_gtid_loop_cons.
  destruct (mysql_matches server_uuid e) eqn:Hm; [discriminate|].
  intros H. constructor; auto.
Qed.

(** X13. What the two loops select is always an entry of the set, stripped,
    that is well formed and carries the id (the UUID) looked for, with no
    such entry before it; and a loop selects nothing exactly when no entry
    of the set matches. A MySQL entry with more than one interval, that is
    with three segments or more, is never selected. *)
Theorem gtid_loops_select_only_matching_entries :
  (forall server_id entries gtid,
      mariadb_gtid_loop server_id entries = Some gtid <->
      exists pre entry post,
        entries = pre ++ entry :: post
        /\ gtid = PyStr.strip entry
        /\ mariadb_matches server_id entry = true
        /\ Forall (fun e => mariadb_matches server_id e = false) pre)
  /\ (forall server_uuid entries gtid,
        mysql_gtid_loop server_uuid entries = Some gtid <->
        exists pre entry post,
          entries = pre ++ entry :: post
          /\ gtid = PyStr.strip entry
          /\ mysql_matches server_uuid entry = true
          /\ Forall (fun e => mysql_matches server_uuid e = false) pre)
  /\ (forall server_id entries,
        mariadb_gtid_loop server_id entries = None <->
        Forall (fun e => mariadb_matches server_id e = false) entries)
  /\ (forall server_uuid entries,
        mysql_gtid_loop server_uuid entries = None <->
        Forall (fun e => mysql_matches server_uuid e = false) entries)
  /\ (forall server_uuid entries gtid,
        mysql_gtid_loop server_uuid entries = Some gtid ->
        length (PyStr.split ":" gtid) = 2%nat).
Proof.
  split; [|split; [|split; [|split]]].
  - intros. split; [apply mariadb_gtid_loop_some|].
    intros (pre & entry & post & -> & -> & Hm & Hpre).
    now apply mariadb_gtid_loop_first.
  - intros. split; [apply mysql_gtid_loop_some|].
    intros (pre & entry & post & -> & -> & Hm & Hpre).
    now apply mysql_gtid_loop_first.
  - intros. split; [apply mariadb_gtid_loop_none_inv
                   |apply mariadb_gtid_loop_none].
  - intros. split; [apply mysql_gtid_loop_none_inv|apply mysql_gtid_loop_none].
  - intros server_uuid entries gtid H.
    apply mysql_gtid_loop_some in H as (pre & entry & post & _ & -> & Hm & _).
    unfold mysql_matches, mysql_well_formed in Hm.
    apply andb_prop in Hm as [Hwf _]. apply andb_prop in Hwf as [_ Hlen].
    now apply Nat.eqb_eq in Hlen.
Qed.

(** ** The scale of the bound *)

Lemma contains_append c a b :
  PyStr.contains c (a +:+ b) = PyStr.contains c a || PyStr.contains c b.
Proof.
  induction a as [|x a IH]; [reflexivity|].
  change (String x a +:+ b) with (String x (a +:+ b)).
  cbn [PyStr.contains]. rewrite IH. now rewrite orb_assoc.
Qed.

Lemma split_no_separator c s :
  PyStr.contains c s = false -> PyStr.split c s = [s].
Proof.
  induction s as [|x s IH]; [reflexivity|].
  cbn [PyStr.contains PyStr.split]. intros H.
  apply orb_false_elim in H as [Hx Hs]. rewrite Hx, (IH Hs). reflexivity.
Qed.

Lemma split_at_first_separator c a rest :
  PyStr.contains c a = false ->
  PyStr.split c (a +:+ String c rest) = a :: PyStr.split c rest.
Proof.
  induction a as [|x a IH]; intros H.
  - change (EmptyString +:+ String c rest) with (String c rest).
    cbn [PyStr.split]. now rewrite Ascii.eqb_refl.
  - change (String x a +:+ String c rest)
      with (String x (a +:+ String c rest)).
    cbn [PyStr.contains] in H. apply orb_false_elim in H as [Hx Hs].
    cbn [PyStr.split]. rewrite Hx, (IH Hs). reflexivity.
Qed.

(** X14. The number of decimals [get_table_columns] rounds to is the
    number of characters between the first point of the bound and the next
    point or the end: the length of the fraction for a bound with one
    point, 0 for a bound without a point and for one that ends in its
    point. *)
Theorem decimals_counts_the_fraction :
  (forall whole fraction,
      PyStr.contains "." whole = false ->
      PyStr.contains "." fraction = false ->
      decimals (whole +:+ String "." fraction) = String.length fraction)
  /\ (forall whole fraction more,
        PyStr.contains "." whole = false ->
        PyStr.contains "." fraction = false ->
        decimals (whole +:+ String "." (fraction +:+ String "." more))
        = String.length fraction)
  /\ (forall bound, PyStr.contains "." bound = false -> decimals bound = 0%nat).
Proof.
  split; [|split].
  - intros whole fraction Hw Hf. unfold decimals.
    rewrite contains_append. cbn [PyStr.contains]. rewrite Ascii.eqb_refl.
    rewrite orb_true_r.
    rewrite split_at_first_separator by assumption.
    rewrite split_no_separator by assumption. reflexivity.
  - intros whole fraction more Hw Hf. unfold decimals.
    rewrite contains_append. cbn [PyStr.contains]. rewrite Ascii.eqb_refl.
    rewrite orb_true_r.
    rewrite split_at_first_separator by assumption.
    rewrite split_at_first_separator by assumption. reflexivity.
  - intros bound Hb. unfold decimals. now rewrite Hb.
Qed.

(** ** The options of [get_table_columns] *)

Lemma integer_format_bound max_num :
  integer_format max_num = [ Lit "`"; ColumnName; Lit "`" ].
Proof.
  unfold integer_format, decimal_format. now destruct (bound_given max_num).
Qed.

(** X15. The bound changes the safe SQL value of no column outside the
    rule for double, numeric, float, decimal and real: any other column
    gets the same expression with a bound and without. Likewise the date
    type changes it for columns of data type date only. *)
Theorem safe_sql_value_options_are_local
    (B date_type date_type' column_name data_type column_type : string) :
  literal_safe B = true ->
  literal_safe date_type = true ->
  literal_safe date_type' = true ->
  (sql_in data_type fractional_types = false ->
   safe_sql_value (Some B) date_type column_name data_type column_type
   = safe_sql_value None date_type column_name data_type column_type)
  /\ (sql_in data_type ["date"] = false ->
      safe_sql_value (Some B) date_type column_name data_type column_type
      = safe_sql_value (Some B) date_type' column_name data_type column_type).
Proof.
  intros HB Hd Hd'.
  assert (Hgiven : literal_safe (default "" (bound_given (Some B))) = true).
  { unfold bound_given. destruct (String.eqb B ""); [reflexivity|exact HB]. }
  split.
  - intros Hf. unfold safe_sql_value. rewrite Hgiven, Hd.
    cbn [bound_given default from_option id andb].
    change (literal_safe "") with true. cbn [andb]. do 2 f_equal.
    unfold safe_sql_case. unfold fractional_types in Hf. rewrite Hf.
    rewrite !integer_format_bound. reflexivity.
  - intros Hdate. unfold safe_sql_value. rewrite Hgiven, Hd, Hd'.
    cbn [andb]. do 2 f_equal. unfold safe_sql_case.
    destruct (sql_in data_type ["blob"; "tinyblob"; "mediumblob"; "longblob"]);
      [reflexivity|].
    destruct (sql_in data_type ["binary"; "varbinary"]); [reflexivity|].
    destruct (sql_in data_type ["bit"]); [reflexivity|].
    rewrite Hdate. reflexivity.
Qed.

(** ** The statement of [get_table_columns] *)

(** X16. The two texts Python splices into the statement for the numeric
    rules are the [CONCAT] calls whose values [safe_sql_value] computes:
    with a bound, the call over the arguments of [decimal_format], and the
    call over the backticks and the column name for the integer rule and
    for both rules without a bound. *)
Theorem format_texts_are_the_concat_calls :
  (forall max_num,
      max_num <> "" ->
      decimal_format_text max_num
      = LF +:+ "              "
        +:+ concat_call_text (decimal_format (Some max_num))
        +:+ LF +:+ "            ")
  /\ (forall max_num,
        reference_format_text
        = LF +:+ "              "
          +:+ concat_call_text (integer_format max_num)
          +:+ LF +:+ "            ")
  /\ reference_format_text
     = LF +:+ "              " +:+ concat_call_text (decimal_format None)
       +:+ LF +:+ "            ".
Proof.
  split; [|split].
  - intros max_num Hne. unfold decimal_format, bound_given.
    destruct (String.eqb_spec max_num ""); [contradiction|].
    unfold decimal_format_text, concat_call_text.
    cbn [String.concat map concat_arg_text].
    rewrite !append_assoc. reflexivity.
  - intros max_num. rewrite integer_format_bound. reflexivity.
  - reflexivity.
Qed.

(** ** Columns, target types and the export statement *)

Section ExporterProperties.

Variable safe_column_name : dbval -> option string -> dbval.
Variable tablename_to_dict : string -> gmap string dbval.
Variable tap_type_to_target_type : dbval -> dbval -> dbval.

Local Abbreviation statement := (columns_sql tablename_to_dict).
Local Abbreviation declaration :=
  (mapped_column safe_column_name tap_type_to_target_type).

Lemma get_table_columns_returns
    fuel table_name max_num date_type st c rowcount rows es :
  conn st = Some c ->
  execute_answers st = ExecOk rowcount rows :: es ->
  get_table_columns tablename_to_dict (S fuel) table_name max_num date_type st
  = (Ret (Rows (if (0 <? rowcount)%Z then rows else [])),
     attempted c (statement table_name max_num date_type) None es st).
Proof.
  intros Hc He. unfold get_table_columns, query_.
  erewrite query_returns; [| unfold target; eassumption | eassumption ].
  unfold columns_sql. destruct (bound_given max_num);
    destruct (0 <? rowcount)%Z; reflexivity.
Qed.

Lemma map_column_types_to_target_returns
    fuel table_name st c schema table rc1 cols rc2 pks es :
  tablename_to_dict table_name !! "schema_name" = Some schema ->
  tablename_to_dict table_name !! "table_name" = Some table ->
  conn st = Some c ->
  execute_answers st = ExecOk rc1 cols :: ExecOk rc2 pks :: es ->
  map_column_types_to_target safe_column_name tablename_to_dict
    tap_type_to_target_type (S fuel) table_name st
  = (Ret (mkTargetMapping
            (map (declaration (target_quote st))
               (if (0 <? rc1)%Z then cols else []))
            match (if (0 <? rc2)%Z then pks else []) with
            | [] => None
            | pk_specs =>
                Some (map (fun k => safe_column_name
                                      (get_or k "Column_name" DNone)
                                      (target_quote st)) pk_specs)
            end),
     evolve st (conn st) (conn_unbuffered st) (is_replica st)
       (connect_answers st) es (close_answers st) (next_handle st)
       [Execute c (statement table_name None "date") None;
        Execute c (show_keys_sql schema table) None]
       [LogInfo ("Running query: " +:+ statement table_name None "date");
        LogInfo ("Running query: " +:+ show_keys_sql schema table)]).
Proof.
  intros Hs Ht Hc He. unfold map_column_types_to_target.
  unfold bind at 1. erewrite get_table_columns_returns by eassumption.
  unfold bind at 1, rows_of, ret. unfold bind at 1, get_state.
  unfold bind at 1.
  erewrite get_primary_keys_rows;
    [| eassumption | eassumption | at_state; eassumption
     | at_state; reflexivity ].
  unfold ret. at_state. unfold mapped_column.
  destruct (0 <? rc2)%Z; [destruct pks|];
    (apply outcome_eq; [reflexivity | state_eq]).
Qed.

(** X17. [map_column_types_to_target] sends two statements on the buffered
    session, the columns of the table without bound and with the date type
    date, then its primary keys, and returns one declaration for each
    column row, in the order of the rows. For a table that does not exist
    the column statement has no row, and the method returns no declaration
    and no primary key instead of failing. *)
Theorem map_column_types_to_target_in_column_order
    fuel table_name st c schema table rc1 cols rc2 pks es :
  tablename_to_dict table_name !! "schema_name" = Some schema ->
  tablename_to_dict table_name !! "table_name" = Some table ->
  conn st = Some c ->
  execute_answers st = ExecOk rc1 cols :: ExecOk rc2 pks :: es ->
  let r := map_column_types_to_target safe_column_name tablename_to_dict
             tap_type_to_target_type (S fuel) table_name st in
  calls (snd r)
  = calls st ++ [Execute c (statement table_name None "date") None;
                 Execute c (show_keys_sql schema table) None]
  /\ (exists mapping,
        fst r = Ret mapping
        /\ columns mapping
           = map (declaration (target_quote st))
               (if (0 <? rc1)%Z then cols else [])
        /\ primary_key mapping
           = match (if (0 <? rc2)%Z then pks else []) with
             | [] => None
             | pk_specs =>
                 Some (map (fun k => safe_column_name
                                       (get_or k "Column_name" DNone)
                                       (target_quote st)) pk_specs)
             end
        /\ (cols = [] -> pks = [] ->
            mapping = mkTargetMapping [] None)).
Proof.
  intros Hs Ht Hc He r. subst r.
  erewrite map_column_types_to_target_returns by eassumption.
  cbn [fst snd]. at_state. split; [reflexivity|].
  eexists. split; [reflexivity|]. split; [reflexivity|].
  split; [reflexivity|].
  intros -> ->. destruct (0 <? rc1)%Z, (0 <? rc2)%Z; reflexivity.
Qed.

Lemma copy_table_select_not_found
    fuel table_name max_num date_type where_clause_sql st c rowcount rows es :
  conn st = Some c ->
  execute_answers st = ExecOk rowcount rows :: es ->
  (rowcount <= 0)%Z \/ rows = [] ->
  copy_table_select tablename_to_dict (S fuel) table_name max_num date_type
    where_clause_sql st
  = (Raise (PyException (table_name +:+ " table not found.")),
     attempted c (statement table_name max_num date_type) None es st).
Proof.
  intros Hc He Hempty. unfold copy_table_select.
  unfold bind at 1. erewrite get_table_columns_returns by eassumption.
  unfold bind at 1, rows_of, ret.
  assert (Hrows : (if (0 <? rowcount)%Z then rows else []) = []).
  { destruct Hempty as [Hrc| ->].
    - destruct (Z.ltb_spec 0 rowcount); [lia|reflexivity].
    - destruct (0 <? rowcount)%Z; reflexivity. }
  rewrite Hrows. reflexivity.
Qed.

(** X18. When the column statement has no row, [copy_table] fails with the
    message that the table was not found; the streaming session has not
    been used, and the column statement is the only call. *)
Theorem copy_table_of_a_missing_table
    fuel table_name max_num date_type where_clause_sql st c rowcount rows es :
  conn st = Some c ->
  execute_answers st = ExecOk rowcount rows :: es ->
  (rowcount <= 0)%Z \/ rows = [] ->
  let r := copy_table_select tablename_to_dict (S fuel) table_name max_num
             date_type where_clause_sql st in
  fst r = Raise (PyException (table_name +:+ " table not found."))
  /\ calls (snd r)
     = calls st ++ [Execute c (statement table_name max_num date_type) None].
Proof.
  intros Hc He Hempty r. subst r.
  erewrite copy_table_select_not_found by eassumption.
  cbn [fst snd]. at_state. now split.
Qed.

Lemma copy_table_select_executes
    fuel table_name max_num date_type where_clause_sql st c cu
    rowcount r0 rows es answer joined schema table batch :
  conn st = Some c ->
  conn_unbuffered st = Some cu ->
  execute_answers st = ExecOk rowcount (r0 :: rows) :: answer :: es ->
  (0 < rowcount)%Z ->
  str_join ","
    (map (fun c => get_or c "safe_sql_value" DNone) (r0 :: rows)
     ++ sdc_columns) = Ok joined ->
  tablename_to_dict table_name !! "schema_name" = Some schema ->
  tablename_to_dict table_name !! "table_name" = Some table ->
  connection_config st !! "export_batch_rows" = Some batch ->
  copy_table_select tablename_to_dict (S fuel) table_name max_num date_type
    where_clause_sql st
  = (match answer with
     | ExecOk rc result => Ret (rc, result)
     | ExecRaise e => Raise e
     end,
     evolve st (conn st) (conn_unbuffered st) (is_replica st)
       (connect_answers st) es (close_answers st) (next_handle st)
       [Execute c (statement table_name max_num date_type) None;
        Execute cu (export_sql joined schema table where_clause_sql) None]
       [LogInfo ("Running query: "
                 +:+ statement table_name max_num date_type)]).
Proof.
  intros Hc Hcu He Hrc Hj Hs Ht Hb. unfold copy_table_select.
  unfold bind at 1. erewrite get_table_columns_returns by eassumption.
  unfold bind at 1, rows_of, ret.
  destruct (Z.ltb_spec 0 rowcount); [|lia].
  cbn [map length Nat.eqb].
  change (get_or r0 "safe_sql_value" DNone
          :: map (fun c0 => get_or c0 "safe_sql_value" DNone) rows)
    with (map (fun c0 => get_or c0 "safe_sql_value" DNone) (r0 :: rows)).
  rewrite Hj. unfold lift at 1. unfold bind at 1, ret.
  unfold getitem. rewrite Hs, Ht. unfold lift at 1 2.
  unfold bind at 1, ret. unfold bind at 1. unfold bind at 1, get_state.
  at_state. rewrite Hb. unfold lift. unfold bind at 1, ret.
  rewrite Hcu. unfold bind at 1, deref, ret.
  unfold cursor_execute. mfields.
  destruct answer as [rc result|e]; apply outcome_eq; try reflexivity;
    state_eq.
Qed.

(** X19. [copy_table] executes its statement on the streaming session
    itself, not through [query]: the statement selects the safe values of
    the columns in the order of the column rows, then the three columns of
    the extraction, and when its execution fails, with a connectivity
    failure or anything else, the error is raised with no retry: nothing is
    closed or opened. *)
Theorem copy_table_select_is_not_retried
    fuel table_name max_num date_type where_clause_sql st c cu
    rowcount r0 rows es e joined schema table batch :
  conn st = Some c ->
  conn_unbuffered st = Some cu ->
  execute_answers st = ExecOk rowcount (r0 :: rows) :: ExecRaise e :: es ->
  (0 < rowcount)%Z ->
  str_join ","
    (map (fun c => get_or c "safe_sql_value" DNone) (r0 :: rows)
     ++ sdc_columns) = Ok joined ->
  tablename_to_dict table_name !! "schema_name" = Some schema ->
  tablename_to_dict table_name !! "table_name" = Some table ->
  connection_config st !! "export_batch_rows" = Some batch ->
  let r := copy_table_select tablename_to_dict (S fuel) table_name max_num
             date_type where_clause_sql st in
  fst r = Raise e
  /\ calls (snd r)
     = calls st
       ++ [Execute c (statement table_name max_num date_type) None;
           Execute cu (export_sql joined schema table where_clause_sql) None]
  /\ conn (snd r) = conn st
  /\ conn_unbuffered (snd r) = conn_unbuffered st
  /\ connect_answers (snd r) = connect_answers st
  /\ close_answers (snd r) = close_answers st.
Proof.
  intros Hc Hcu He Hrc Hj Hs Ht Hb r. subst r.
  erewrite copy_table_select_executes by eassumption.
  cbn [fst snd]. at_state. repeat split.
Qed.

End ExporterProperties.

Lemma str_join_strings sep (l : list string) :
  str_join sep (map DStr l) = Ok (String.concat sep l).
Proof.
  induction l as [|s l IH]; [reflexivity|].
  cbn [map str_join]. destruct l as [|s' l]; [reflexivity|].
  cbn [map] in *. rewrite IH. reflexivity.
Qed.

Lemma str_join_not_a_string sep (values : list string) v rest :
  (forall s, v <> DStr s) ->
  str_join sep (map DStr values ++ v :: rest) = Err TypeError.
Proof.
  intros Hv. induction values as [|s l IH].
  - cbn. destruct v; try reflexivity. now destruct (Hv s).
  - cbn [map app str_join].
    destruct (map DStr l ++ v :: rest) eqn:Hl.
    + destruct l; discriminate.
    + now rewrite IH.
Qed.

Lemma copy_table_select_join_fails
    (tablename_to_dict : string -> gmap string dbval)
    fuel table_name max_num date_type where_clause_sql st c
    rowcount r0 rows es e :
  conn st = Some c ->
  execute_answers st = ExecOk rowcount (r0 :: rows) :: es ->
  (0 < rowcount)%Z ->
  str_join ","
    (map (fun c => get_or c "safe_sql_value" DNone) (r0 :: rows)
     ++ sdc_columns) = Err e ->
  copy_table_select tablename_to_dict (S fuel) table_name max_num date_type
    where_clause_sql st
  = (Raise e,
     attempted c (columns_sql tablename_to_dict table_name max_num date_type)
       None es st).
Proof.
  intros Hc He Hrc Hj. unfold copy_table_select.
  unfold bind at 1. erewrite get_table_columns_returns by eassumption.
  unfold bind at 1, rows_of, ret.
  destruct (Z.ltb_spec 0 rowcount); [|lia].
  cbn [map length Nat.eqb].
  change (get_or r0 "safe_sql_value" DNone
          :: map (fun c0 => get_or c0 "safe_sql_value" DNone) rows)
    with (map (fun c0 => get_or c0 "safe_sql_value" DNone) (r0 :: rows)).
  rewrite Hj. reflexivity.
Qed.

(** X20. The columns of the export. When every column row has a text as
    its safe value, the statement [copy_table] executes on the streaming
    session selects these texts in the order of the rows, followed by the
    extraction time, the batch time and the empty deletion mark, separated
    by commas. When a row has no safe value, or one that is no text,
    [copy_table] raises [TypeError] and the column statement is its only
    call. *)
Theorem export_columns_end_with_the_sdc_columns
    (tablename_to_dict : string -> gmap string dbval)
    fuel table_name max_num date_type where_clause_sql st c cu
    rowcount r0 rows es schema table batch :
  conn st = Some c ->
  conn_unbuffered st = Some cu ->
  execute_answers st = ExecOk rowcount (r0 :: rows) :: es ->
  (0 < rowcount)%Z ->
  tablename_to_dict table_name !! "schema_name" = Some schema ->
  tablename_to_dict table_name !! "table_name" = Some table ->
  connection_config st !! "export_batch_rows" = Some batch ->
  let r := copy_table_select tablename_to_dict (S fuel) table_name max_num
             date_type where_clause_sql st in
  let safe_values :=
    map (fun c => get_or c "safe_sql_value" DNone) (r0 :: rows) in
  let column_sql :=
    columns_sql tablename_to_dict table_name max_num date_type in
  (forall values answer es',
      safe_values = map DStr values ->
      es = answer :: es' ->
      calls (snd r)
      = calls st
        ++ [Execute c column_sql None;
            Execute cu
              (export_sql
                 (String.concat ","
                    (values
                     ++ ["CONVERT_TZ( NOW(),@@session.time_zone,'+00:00') AS `_SDC_EXTRACTED_AT`";
                         "CONVERT_TZ( NOW(),@@session.time_zone,'+00:00') AS `_SDC_BATCHED_AT`";
                         "null AS `_SDC_DELETED_AT`"]))
                 schema table where_clause_sql)
              None]
      /\ fst r = match answer with
                 | ExecOk rc result => Ret (rc, result)
                 | ExecRaise e => Raise e
                 end)
  /\ (forall values v rest,
        safe_values = map DStr values ++ v :: rest ->
        (forall s, v <> DStr s) ->
        fst r = Raise TypeError
        /\ calls (snd r) = calls st ++ [Execute c column_sql None]).
Proof.
  intros Hc Hcu He Hrc Hs Ht Hb r safe_values column_sql. split.
  - intros values answer es' Hvalues ->.
    assert (Hj : str_join "," (safe_values ++ sdc_columns)
                 = Ok (String.concat ","
                    (values
                     ++ ["CONVERT_TZ( NOW(),@@session.time_zone,'+00:00') AS `_SDC_EXTRACTED_AT`";
                         "CONVERT_TZ( NOW(),@@session.time_zone,'+00:00') AS `_SDC_BATCHED_AT`";
                         "null AS `_SDC_DELETED_AT`"]))).
    { rewrite Hvalues.
      change sdc_columns
        with (map DStr
                ["CONVERT_TZ( NOW(),@@session.time_zone,'+00:00') AS `_SDC_EXTRACTED_AT`";
                 "CONVERT_TZ( NOW(),@@session.time_zone,'+00:00') AS `_SDC_BATCHED_AT`";
                 "null AS `_SDC_DELETED_AT`"]).
      rewrite <- map_app. apply str_join_strings. }
    subst r column_sql.
    erewrite copy_table_select_executes by eassumption.
    cbn [fst snd]. at_state. split; reflexivity.
  - intros values v rest Hvalues Hv.
    assert (Hj : str_join "," (safe_values ++ sdc_columns) = Err TypeError).
    { rewrite Hvalues, <- app_assoc. cbn [app].
      now apply str_join_not_a_string. }
    subst r column_sql.
    erewrite copy_table_select_join_fails by eassumption.
    cbn [fst snd]. at_state. split; reflexivity.
Qed.

(** ** A reconnect that fails *)

Lemma open_connections_first_connect fuel st conn_params replica e ka :
  get_connection_parameters st false = Ok (conn_params, replica) ->
  connect_answers st = Some e :: ka ->
  open_connections fuel st
  = (Raise e,
     evolve st (conn st) (conn_unbuffered st) replica ka
       (execute_answers st) (close_answers st) (next_handle st)
       [ConnectFailed conn_params DictCursor] []).
Proof.
  intros Hp Hka.
  unfold open_connections, open_connections_with.
  unfold bind at 1, get_state. rewrite Hp. unfold lift.
  unfold bind at 1, ret. unfold bind at 1, modify.
  unfold bind at 1, pymysql_connect. mfields. rewrite Hka.
  apply outcome_eq; [reflexivity|]. state_eq.
Qed.

(** X22. When the statement fails with a connectivity failure and the
    client then refuses the new connection, [query] raises the error of the
    connection, not the one of the statement: both sessions were closed, the
    statement is not run again, and the object keeps the two closed sessions
    as its sessions. *)
Theorem query_reconnect_failure_is_raised
    fuel sql conn_ params return_as_cursor n_retry st t c cu
    conn_params replica e e' es ka ca :
  target conn_ st = Some t ->
  conn st = Some c ->
  conn_unbuffered st = Some cu ->
  execute_answers st = ExecRaise e :: es ->
  is_connectivity e = true ->
  (0 < n_retry)%Z ->
  close_answers st = None :: None :: ca ->
  get_connection_parameters st false = Ok (conn_params, replica) ->
  connect_answers st = Some e' :: ka ->
  let r := query (S fuel) sql conn_ params return_as_cursor n_retry st in
  fst r = Raise e'
  /\ calls (snd r)
     = calls st ++ [Execute t sql params; Close c; Close cu;
                    ConnectFailed conn_params DictCursor]
  /\ conn (snd r) = Some c
  /\ conn_unbuffered (snd r) = Some cu
  /\ execute_answers (snd r) = es.
Proof.
  intros Ht Hc Hcu He Hconn Hn Hca Hp Hka r.
  assert (Heq : exists st', r = (Raise e', st')
            /\ calls st'
               = calls st ++ [Execute t sql params; Close c; Close cu;
                              ConnectFailed conn_params DictCursor]
            /\ conn st' = Some c /\ conn_unbuffered st' = Some cu
            /\ execute_answers st' = es).
  { subst r. erewrite query_retries by eassumption.
    unfold bind at 1.
    erewrite close_connections_both;
      [| at_state; eassumption | at_state; eassumption
       | at_state; eassumption ].
    unfold bind at 1.
    erewrite open_connections_first_connect;
      [| exact Hp | at_state; eassumption ].
    eexists. split; [reflexivity|]. at_state. rewrite <- ?app_assoc.
    now repeat split. }
  destruct Heq as (st' & -> & H1 & H2 & H3 & H4). cbn [fst snd].
  now repeat split.
Qed.

(** ** The executed GTID set of MySQL *)

Lemma __find_mysql_gtid_pos_no_row fuel st c rc1 m0 ms rc2 rows es :
  conn st = Some c ->
  execute_answers st = ExecOk rc1 (m0 :: ms) :: ExecOk rc2 rows :: es ->
  (0 < rc1)%Z ->
  get_or m0 "gtid_mode" DNone = DStr "ON" ->
  (rc2 <= 0)%Z \/ rows = [] ->
  __find_mysql_gtid_pos (S fuel) st
  = (Raise no_gtid_executed,
     evolve st (conn st) (conn_unbuffered st) (is_replica st)
       (connect_answers st) es (close_answers st) (next_handle st)
       [Execute c "select @@gtid_mode as gtid_mode;" None;
        Execute c "select @@GLOBAL.gtid_executed as current_gtids;" None]
       [LogInfo "Running query: select @@gtid_mode as gtid_mode;";
        LogInfo
          "Running query: select @@GLOBAL.gtid_executed as current_gtids;"]).
Proof.
  intros Hc He Hrc Hon Hempty.
  unfold __find_mysql_gtid_pos.
  unfold bind at 1, query_.
  erewrite query_returns; [| unfold target; eassumption | eassumption ].
  destruct (Z.ltb_spec 0 rc1); [|lia].
  unfold bind at 1, rows_of, ret.
  rewrite Hon. rewrite bool_decide_eq_true_2 by reflexivity. cbn [negb].
  unfold bind at 1.
  erewrite query_returns;
    [| unfold target; at_state; eassumption | at_state; reflexivity ].
  unfold bind at 1, ret.
  assert (Hrows : (if (0 <? rc2)%Z then Rows rows else Rows []) = Rows []).
  { destruct Hempty as [Hrc2| ->].
    - destruct (Z.ltb_spec 0 rc2); [lia|reflexivity].
    - destruct (0 <? rc2)%Z; reflexivity. }
  rewrite Hrows. apply outcome_eq; [reflexivity|]. state_eq.
Qed.

(** X23. With GTID mode on, when the statement for the executed GTID set
    has no row, [__find_mysql_gtid_pos] fails with a message of its own,
    which is neither the one for the mode nor the one for no match; the
    primary is not asked for its UUID. *)
Theorem mysql_gtid_executed_without_row
    fuel st c rc1 m0 ms rc2 rows es :
  conn st = Some c ->
  execute_answers st = ExecOk rc1 (m0 :: ms) :: ExecOk rc2 rows :: es ->
  (0 < rc1)%Z ->
  get_or m0 "gtid_mode" DNone = DStr "ON" ->
  (rc2 <= 0)%Z \/ rows = [] ->
  let r := __find_mysql_gtid_pos (S fuel) st in
  fst r = Raise no_gtid_executed
  /\ calls (snd r)
     = calls st
       ++ [Execute c "select @@gtid_mode as gtid_mode;" None;
           Execute c "select @@GLOBAL.gtid_executed as current_gtids;" None]
  /\ connect_answers (snd r) = connect_answers st
  /\ no_gtid_executed <> gtid_mode_not_enabled
  /\ no_gtid_executed <> no_suitable_gtid.
Proof.
  intros Hc He Hrc Hon Hempty r. subst r.
  erewrite __find_mysql_gtid_pos_no_row by eassumption.
  cbn [fst snd]. at_state.
  split; [reflexivity|]. split; [reflexivity|]. split; [reflexivity|].
  split; discriminate.
Qed.

(** ** The position of a new object *)

(** X24. What the defaults of [__init__] mean for [fetch_current_log_pos]:
    for an object whose configuration is the one [__init__] made of
    [config], without [use_gtid] in [config] the binlog coordinates are
    read, whatever the engine; with a true [use_gtid] and no [engine], the
    GTID position is looked for the MySQL way; and the MariaDB way is taken
    for the engine [mariadb] in these very letters only. *)
Theorem fetch_current_log_pos_on_defaults
    config target_quote ka ea ca fuel st :
  connection_config st
  = connection_config (__init__ config target_quote ka ea ca) ->
  (config !! "use_gtid" = None ->
   fetch_current_log_pos fuel st = _get_binlog_coordinates fuel st)
  /\ (forall use_gtid,
        config !! "use_gtid" = Some use_gtid -> truthy use_gtid = true ->
        (config !! "engine" = None ->
         fetch_current_log_pos fuel st = __find_mysql_gtid_pos fuel st)
        /\ (config !! "engine" = Some (VStr "mariadb") ->
            fetch_current_log_pos fuel st = __find_mariadb_gtid_pos fuel st)
        /\ (forall engine,
              config !! "engine" = Some engine ->
              engine <> VStr "mariadb" ->
              fetch_current_log_pos fuel st = __find_mysql_gtid_pos fuel st)).
Proof.
  intros Hcfg.
  assert (Hg : connection_config st !! "use_gtid"
               = Some (get_or config "use_gtid" (VBool DEFAULT_USE_GTID))).
  { rewrite Hcfg. unfold __init__, set_default. cbn [connection_config].
    rewrite lookup_insert_ne by discriminate.
    rewrite lookup_insert_eq. unfold get_or.
    now rewrite !lookup_insert_ne by discriminate. }
  assert (He : connection_config st !! "engine"
               = Some (get_or config "engine" (VStr MYSQL_ENGINE))).
  { rewrite Hcfg. unfold __init__, set_default. cbn [connection_config].
    rewrite lookup_insert_eq. unfold get_or.
    now rewrite !lookup_insert_ne by discriminate. }
  split.
  - intros Hn. unfold fetch_current_log_pos.
    unfold bind at 1, get_state. unfold getitem. rewrite Hg.
    unfold get_or. rewrite Hn. reflexivity.
  - intros use_gtid Hu Htrue.
    assert (Hd : fetch_current_log_pos fuel st
                 = _get_current_gtid_pos fuel st).
    { unfold fetch_current_log_pos.
      unfold bind at 1, get_state. unfold getitem. rewrite Hg.
      unfold get_or. rewrite Hu. unfold lift. unfold bind at 1, ret.
      now rewrite Htrue. }
    assert (Hm : _get_current_gtid_pos fuel st
                 = if bool_decide (get_or config "engine" (VStr MYSQL_ENGINE)
                                   = VStr "mariadb")
                   then __find_mariadb_gtid_pos fuel st
                   else __find_mysql_gtid_pos fuel st).
    { unfold _get_current_gtid_pos.
      unfold bind at 1, get_state. unfold is_mariadb, getitem. rewrite He.
      cbn [rbind]. unfold lift. unfold bind at 1, ret.
      unfold MARIADB_ENGINE.
      destruct (bool_decide _); reflexivity. }
    rewrite Hd, Hm. split; [|split].
    + intros Hn. unfold get_or. rewrite Hn. reflexivity.
    + intros Heng. unfold get_or. rewrite Heng.
      now rewrite bool_decide_eq_true_2.
    + intros engine Heng Hne. unfold get_or. rewrite Heng.
      now rewrite bool_decide_eq_false_2.
Qed.

(** ** The further properties on the sample objects *)

Lemma query_other_failure_is_not_retried_witness :
  fst (query 1 "SELECT 1" None None false 1 Sample.replica_refused)
  = Raise ProgrammingError
  /\ calls (snd (query 1 "SELECT 1" None None false 1 Sample.replica_refused))
     = [Execute 0 "SELECT 1" None].
Proof.
  pose proof (query_other_failure_is_not_retried 0 "SELECT 1" None None false
                1%Z Sample.replica_refused 0%nat ProgrammingError []
                ltac:(vm_compute; reflexivity) ltac:(vm_compute; reflexivity)
                ltac:(reflexivity)) as [Hr [Hc _]].
  split; [exact Hr | exact Hc].
Defined.

Lemma query_before_open_connections_witness :
  fst (query 1 "SELECT 1" None None false 1 Sample.starting)
  = Raise AttributeError
  /\ calls (snd (query 1 "SELECT 1" None None false 1 Sample.starting)) = [].
Proof.
  rewrite (query_before_open_connections 0 "SELECT 1" None false 1%Z
             Sample.starting ltac:(vm_compute; reflexivity)).
  split; reflexivity.
Defined.

Lemma close_connections_skips_streaming_session_witness :
  fst (close_connections true Scenario.closing_fails) = Ret tt
  /\ calls (snd (close_connections true Scenario.closing_fails)) = [Close 0].
Proof.
  pose proof (close_connections_skips_streaming_session true
                Scenario.closing_fails 0%nat InterfaceError []
                ltac:(vm_compute; reflexivity) ltac:(vm_compute; reflexivity))
    as [Hr [Hc _]].
  split; [exact Hr | exact Hc].
Defined.

Lemma run_session_sqls_without_statements_witness :
  run_session_sqls 1 Scenario.no_session_sqls
  = (Ret tt, Scenario.no_session_sqls).
Proof.
  apply (run_session_sqls_without_statements 1 Scenario.no_session_sqls).
  vm_compute; reflexivity.
Defined.

Lemma connection_needs_the_primary_host_witness :
  get_connection_parameters Scenario.no_host false = Err (KeyError "host")
  /\ open_connections 1 Scenario.no_host
     = (Raise (KeyError "host"), Scenario.no_host).
Proof.
  pose proof (connection_needs_the_primary_host Scenario.no_host
                ltac:(vm_compute; reflexivity)) as [Hp Ho].
  split; [apply Hp | apply Ho].
Defined.

Lemma replica_fields_without_replica_host_witness :
  get_connection_parameters
    (__init__ Scenario.replica_fields_config None [] [] []) false
  = Ok (<["host" := VStr "db.example"]> (<["port" := VInt 3307]>
          (<["user" := VStr "reader"]> (<["password" := VStr "hidden"]>
             (<["charset" := VStr "utf8"]> ∅)))), false).
Proof.
  apply (replica_fields_without_replica_host
           (__init__ Scenario.replica_fields_config None [] [] [])
           (VStr "db.example") (VStr "3306") (VStr "tap") (VStr "secret")
           (VStr "utf8") (VInt 3307) (VStr "reader") (VStr "hidden") 3307%Z);
    vm_compute; reflexivity.
Defined.

Lemma open_connections_streaming_connect_fails_witness :
  fst (open_connections 1 Scenario.streaming_refused) = Raise OperationalError
  /\ conn (snd (open_connections 1 Scenario.streaming_refused)) = Some 0%nat
  /\ conn_unbuffered (snd (open_connections 1 Scenario.streaming_refused))
     = None
  /\ calls (snd (open_connections 1 Scenario.streaming_refused))
     = [Connect Sample.primary_params DictCursor 0;
        ConnectFailed Sample.primary_params SSCursor].
Proof.
  pose proof (open_connections_streaming_connect_fails 1
                Scenario.streaming_refused Sample.primary_params false
                OperationalError []
                ltac:(vm_compute; reflexivity) ltac:(vm_compute; reflexivity))
    as [Hr [Hc [Hcu [_ [Hcalls _]]]]].
  split; [exact Hr|]. split; [exact Hc|]. split; [exact Hcu|]. exact Hcalls.
Defined.

Lemma fetch_current_log_pos_on_replica_witness :
  fst (fetch_current_log_pos 1 Scenario.on_replica)
  = Ret (<["log_file" := DStr "binlog.000007"]>
           (<["log_pos" := DInt 120]> (<["version" := DInt 1]> ∅)))
  /\ calls (snd (fetch_current_log_pos 1 Scenario.on_replica))
     = [Execute 0 "SHOW SLAVE STATUS" None].
Proof.
  pose proof (fetch_current_log_pos_on_replica 0 Scenario.on_replica 0%nat
                (VBool false) 1%Z [Scenario.slave_status] []
                ltac:(vm_compute; reflexivity) ltac:(reflexivity)
                ltac:(vm_compute; reflexivity) ltac:(vm_compute; reflexivity)
                ltac:(vm_compute; reflexivity)) as [Hcalls [Hrow _]].
  split; [|exact Hcalls].
  rewrite (Hrow Scenario.slave_status [] ltac:(lia) eq_refl).
  vm_compute; reflexivity.
Defined.

Lemma primary_lookup_closes_when_answered_witness :
  fst (__get_primary_server_id 1 Scenario.primary_without_row)
  = Raise IndexError
  /\ calls (snd (__get_primary_server_id 1 Scenario.primary_without_row))
     = [Connect Sample.primary_params DictCursor 2;
        Execute 2 "select @@server_id as server_id;" None;
        Close 2].
Proof.
  pose proof (primary_lookup_closes_when_answered 0
                Scenario.primary_without_row Sample.primary_params false []
                0%Z [] [] []
                ltac:(vm_compute; reflexivity) ltac:(vm_compute; reflexivity)
                ltac:(vm_compute; reflexivity) ltac:(vm_compute; reflexivity)
                ltac:(vm_compute; reflexivity))
    as [Hcalls [_ [Hnone _]]].
  split; [|exact Hcalls].
  apply Hnone. now right.
Defined.

Lemma primary_lookup_retries_on_the_replica_witness :
  fst (__get_primary_server_id 2 Scenario.primary_lost) = Ret (DInt 7)
  /\ conn (snd (__get_primary_server_id 2 Scenario.primary_lost))
     = Some 3%nat
  /\ executed_on 3
       (calls (snd (__get_primary_server_id 2 Scenario.primary_lost)))
     = ["SET a=1"; "SET b=2"; "SET c=3"; "select @@server_id as server_id;"].
Proof.
  pose proof (primary_lookup_retries_on_the_replica 0 Scenario.primary_lost
                0%nat 1%nat Sample.primary_params false
                Scenario.replica_params true OperationalError Sample.plan
                [] [] 1%Z {[ "server_id" := DInt 7 ]} [] (DInt 7) []
                ltac:(vm_compute; reflexivity) ltac:(vm_compute; reflexivity)
                ltac:(vm_compute; reflexivity) ltac:(vm_compute; reflexivity)
                ltac:(vm_compute; reflexivity) ltac:(vm_compute; reflexivity)
                ltac:(vm_compute; reflexivity) ltac:(reflexivity)
                ltac:(vm_compute; reflexivity) ltac:(vm_compute; reflexivity)
                ltac:(lia) ltac:(vm_compute; reflexivity))
    as [Hr [Hcalls Hconn]].
  split; [exact Hr|]. split; [exact Hconn|].
  rewrite Hcalls. vm_compute; reflexivity.
Defined.

Lemma safe_sql_value_options_are_local_witness :
  safe_sql_value (Some "100.00") "date" "note" "varchar" "varchar(20)"
  = safe_sql_value None "date" "note" "varchar" "varchar(20)"
  /\ safe_sql_value (Some "100.00") "date" "note" "varchar" "varchar(20)"
     = safe_sql_value (Some "100.00") "datetime" "note" "varchar"
         "varchar(20)".
Proof.
  pose proof (safe_sql_value_options_are_local "100.00" "date" "datetime"
                "note" "varchar" "varchar(20)"
                ltac:(vm_compute; reflexivity) ltac:(vm_compute; reflexivity)
                ltac:(vm_compute; reflexivity)) as [Hbound Hdate].
  split; [apply Hbound | apply Hdate]; vm_compute; reflexivity.
Defined.

Lemma map_column_types_to_target_in_column_order_witness :
  calls (snd (map_column_types_to_target Sample.quoted_column_name
                Sample.split_tablename Scenario.target_type 1
                "sales.orders" Scenario.with_columns))
  = [Execute 0 (columns_sql Sample.split_tablename "sales.orders" None "date")
       None;
     Execute 0 "SHOW KEYS FROM `sales`.`orders` WHERE Key_name = 'PRIMARY'"
       None]
  /\ exists mapping,
       fst (map_column_types_to_target Sample.quoted_column_name
              Sample.split_tablename Scenario.target_type 1
              "sales.orders" Scenario.with_columns)
       = Ret mapping
       /\ columns mapping
          = [dquote +:+ "order_id" +:+ dquote +:+ " NUMBER";
             dquote +:+ "note" +:+ dquote +:+ " VARCHAR"].
Proof.
  pose proof (map_column_types_to_target_in_column_order
                Sample.quoted_column_name Sample.split_tablename
                Scenario.target_type 0 "sales.orders" Scenario.with_columns
                0%nat (DStr "sales") (DStr "orders") 2%Z Scenario.column_rows
                2%Z Sample.pk_rows []
                ltac:(vm_compute; reflexivity) ltac:(vm_compute; reflexivity)
                ltac:(vm_compute; reflexivity) ltac:(vm_compute; reflexivity))
    as [Hcalls [mapping [Hr [Hcols _]]]].
  split; [exact Hcalls|].
  exists mapping. split; [exact Hr|].
  rewrite Hcols. vm_compute; reflexivity.
Defined.

Lemma copy_table_of_a_missing_table_witness :
  fst (copy_table_select Sample.split_tablename 1 "sales.orders" None "date"
         "" Scenario.missing_table)
  = Raise (PyException "sales.orders table not found.").
Proof.
  refine (proj1 (copy_table_of_a_missing_table Sample.split_tablename 0
                   "sales.orders" None "date" "" Scenario.missing_table
                   0%nat 0%Z [] [] _ _ _)).
  - vm_compute; reflexivity.
  - vm_compute; reflexivity.
  - now right.
Defined.

Lemma copy_table_select_is_not_retried_witness :
  fst (copy_table_select Sample.split_tablename 1 "sales.orders" None "date"
         "" Scenario.export_fails)
  = Raise OperationalError
  /\ executed_on 1
       (calls (snd (copy_table_select Sample.split_tablename 1 "sales.orders"
                      None "date" "" Scenario.export_fails)))
     = [export_sql Scenario.joined_columns (DStr "sales") (DStr "orders") ""]
  /\ filter is_close
       (calls (snd (copy_table_select Sample.split_tablename 1 "sales.orders"
                      None "date" "" Scenario.export_fails)))
     = [].
Proof.
  pose proof (copy_table_select_is_not_retried Sample.split_tablename 0
                "sales.orders" None "date" "" Scenario.export_fails
                0%nat 1%nat 2%Z
                (<["column_name" := DStr "order_id"]>
                   (<["data_type" := DStr "int"]>
                      (<["column_type" := DStr "int(11)"]>
                         (<["safe_sql_value" := DStr "`order_id`"]> ∅))))
                [ <["column_name" := DStr "note"]>
                    (<["data_type" := DStr "varchar"]>
                       (<["column_type" := DStr "varchar(20)"]>
                          (<["safe_sql_value" := DStr "`note`"]> ∅))) ]
                [] OperationalError Scenario.joined_columns
                (DStr "sales") (DStr "orders") (VInt DEFAULT_EXPORT_BATCH_ROWS)
                ltac:(vm_compute; reflexivity) ltac:(vm_compute; reflexivity)
                ltac:(vm_compute; reflexivity) ltac:(lia)
                ltac:(vm_compute; reflexivity) ltac:(vm_compute; reflexivity)
                ltac:(vm_compute; reflexivity) ltac:(vm_compute; reflexivity))
    as [Hr [Hcalls _]].
  split; [exact Hr|].
  rewrite Hcalls. split; vm_compute; reflexivity.
Defined.

Lemma export_columns_end_with_the_sdc_columns_witness :
  executed_on 1
    (calls (snd (copy_table_select Sample.split_tablename 1 "sales.orders"
                   None "date" "WHERE order_id > 5" Scenario.export_fails)))
  = ["SELECT `order_id`,`note`,"
     +:+ "CONVERT_TZ( NOW(),@@session.time_zone,'+00:00') AS `_SDC_EXTRACTED_AT`,"
     +:+ "CONVERT_TZ( NOW(),@@session.time_zone,'+00:00') AS `_SDC_BATCHED_AT`,"
     +:+ "null AS `_SDC_DELETED_AT`" +:+ LF
     +:+ "        FROM `sales`.`orders` WHERE order_id > 5" +:+ LF
     +:+ "        "]
  /\ fst (copy_table_select Sample.split_tablename 1 "sales.orders" None
            "date" "" Scenario.export_without_value)
     = Raise TypeError.
Proof.
  split.
  - pose proof (export_columns_end_with_the_sdc_columns
                  Sample.split_tablename 0 "sales.orders" None "date"
                  "WHERE order_id > 5" Scenario.export_fails 0%nat 1%nat 2%Z
                  (<["column_name" := DStr "order_id"]>
                     (<["data_type" := DStr "int"]>
                        (<["column_type" := DStr "int(11)"]>
                           (<["safe_sql_value" := DStr "`order_id`"]> ∅))))
                  [ <["column_name" := DStr "note"]>
                      (<["data_type" := DStr "varchar"]>
                         (<["column_type" := DStr "varchar(20)"]>
                            (<["safe_sql_value" := DStr "`note`"]> ∅))) ]
                  [ExecRaise OperationalError]
                  (DStr "sales") (DStr "orders")
                  (VInt DEFAULT_EXPORT_BATCH_ROWS)
                  ltac:(vm_compute; reflexivity) ltac:(vm_compute; reflexivity)
                  ltac:(vm_compute; reflexivity) ltac:(lia)
                  ltac:(vm_compute; reflexivity) ltac:(vm_compute; reflexivity)
                  ltac:(vm_compute; reflexivity)) as [Hselect _].
    destruct (Hselect ["`order_id`"; "`note`"] (ExecRaise OperationalError) []
                ltac:(vm_compute; reflexivity) eq_refl) as [Hcalls _].
    rewrite Hcalls. vm_compute; reflexivity.
  - pose proof (export_columns_end_with_the_sdc_columns
                  Sample.split_tablename 0 "sales.orders" None "date"
                  "" Scenario.export_without_value 0%nat 1%nat 1%Z
                  {[ "column_name" := DStr "note" ]} [] []
                  (DStr "sales") (DStr "orders")
                  (VInt DEFAULT_EXPORT_BATCH_ROWS)
                  ltac:(vm_compute; reflexivity) ltac:(vm_compute; reflexivity)
                  ltac:(vm_compute; reflexivity) ltac:(lia)
                  ltac:(vm_compute; reflexivity) ltac:(vm_compute; reflexivity)
                  ltac:(vm_compute; reflexivity)) as [_ Hbad].
    destruct (Hbad [] DNone [] ltac:(vm_compute; reflexivity)
                ltac:(discriminate)) as [Hraise _].
    exact Hraise.
Defined.

Lemma query_reconnect_failure_is_raised_witness :
  fst (query 2 "SELECT 1" None None false 1 Scenario.server_gone)
  = Raise OperationalError
  /\ calls (snd (query 2 "SELECT 1" None None false 1 Scenario.server_gone))
     = [Execute 0 "SELECT 1" None; Close 0; Close 1;
        ConnectFailed Sample.primary_params DictCursor]
  /\ conn (snd (query 2 "SELECT 1" None None false 1 Scenario.server_gone))
     = Some 0%nat.
Proof.
  pose proof (query_reconnect_failure_is_raised 1 "SELECT 1" None None false
                1%Z Scenario.server_gone 0%nat 0%nat 1%nat
                Sample.primary_params false InterfaceError OperationalError
                [] [] []
                ltac:(vm_compute; reflexivity) ltac:(vm_compute; reflexivity)
                ltac:(vm_compute; reflexivity) ltac:(vm_compute; reflexivity)
                ltac:(reflexivity) ltac:(lia)
                ltac:(vm_compute; reflexivity) ltac:(vm_compute; reflexivity)
                ltac:(vm_compute; reflexivity))
    as [Hr [Hcalls [Hconn _]]].
  split; [exact Hr|]. split; [exact Hcalls | exact Hconn].
Defined.

Lemma mysql_gtid_executed_without_row_witness :
  fst (__find_mysql_gtid_pos 1 Scenario.mysql_no_gtid_executed)
  = Raise no_gtid_executed
  /\ calls (snd (__find_mysql_gtid_pos 1 Scenario.mysql_no_gtid_executed))
     = [Execute 0 "select @@gtid_mode as gtid_mode;" None;
        Execute 0 "select @@GLOBAL.gtid_executed as current_gtids;" None].
Proof.
  pose proof (mysql_gtid_executed_without_row 0
                Scenario.mysql_no_gtid_executed 0%nat 1%Z
                {[ "gtid_mode" := DStr "ON" ]} [] 0%Z [] []
                ltac:(vm_compute; reflexivity) ltac:(vm_compute; reflexivity)
                ltac:(lia) ltac:(vm_compute; reflexivity)
                ltac:(now right)) as [Hr [Hcalls _]].
  split; [exact Hr | exact Hcalls].
Defined.

Lemma fetch_current_log_pos_on_defaults_witness :
  fetch_current_log_pos 1 (__init__ Sample.primary_config None [] [] [])
  = _get_binlog_coordinates 1 (__init__ Sample.primary_config None [] [] [])
  /\ fetch_current_log_pos 1 (__init__ Sample.mariadb_config None [] [] [])
     = __find_mariadb_gtid_pos 1
         (__init__ Sample.mariadb_config None [] [] []).
Proof.
  split.
  - pose proof (fetch_current_log_pos_on_defaults Sample.primary_config
                  None [] [] [] 1
                  (__init__ Sample.primary_config None [] [] []) eq_refl)
      as [Hbinlog _].
    apply Hbinlog. vm_compute; reflexivity.
  - pose proof (fetch_current_log_pos_on_defaults Sample.mariadb_config
                  None [] [] [] 1
                  (__init__ Sample.mariadb_config None [] [] []) eq_refl)
      as [_ Hgtid].
    destruct (Hgtid (VBool true) ltac:(vm_compute; reflexivity)
                ltac:(reflexivity)) as [_ [Hengine _]].
    apply Hengine. vm_compute; reflexivity.
Defined.
